(** * Banking analysis platform: extraction pipeline and ratio engine

    A shallow embedding of

    - [src/config.py] ([RATIOS_THRESHOLDS], [BALANCE_SHEET_ITEMS] and
      the two indicator tables),
    - [src/banking_analysis_platform/analytics/calculator.py]
      ([normalize_score], [BankingRatiosCalculator]),
    - [src/banking_analysis_platform/core/data_aggregator.py]
      ([aggregate_financial_data] and its local helpers),
    - [src/banking_analysis_platform/analytics/bsi.py] ([calculate_bsi]),
    - [src/magic_pdf_parser.py] ([clean_number],
      [aggregate_financial_data]),
    - [src/banking_analysis_platform/core/pdf_processor.py]
      ([clean_cell], [is_valid_table]),
    - [src/banking_analysis_platform/utils/validators.py]
      ([validate_financial_data]),
    - the steps of [banking_analysis_platform/app.py] and
      [banking_analysis_platform/main_app.py] that hand the record to the
      calculator and the ratios to the index,

    followed by the properties the specification states about them and
    by further properties read off the code.

    Numbers.  Python's [float] is modelled by [pyfloat]: the IEEE-754
    special values NaN and the two infinities, and the finite values as
    exact rationals.  Rounding, overflow, underflow and the sign of zero
    are not modelled; Python's [int] values are the finite values with an
    integral rational.  Comparisons and arithmetic follow Python on the
    special values, and [/] raises [ZeroDivisionError] on a zero divisor
    as Python's does.  The theorems do not lean on the exactness: what
    they assert of a computed number is decided by comparisons, or is
    stated on the program's own expression, or is a bound that monotone
    rounding keeps, under magnitude limits that keep a double in range
    where needed.

    Text.  A [str] is a list of code points; the character classes, the
    case mappings and the fragment of [re] that is modelled are described
    where they are defined.

    Tables.  A [DataFrame] is the list of its rows, a row the list of its
    cells. *)

From Stdlib Require Import QArith Qabs Lqa ZArith Lia.
From stdpp Require Import base option list gmap strings pretty.

(* ===================================================================== *)
(** * Exceptions *)

Inductive exn : Type :=
  | ZeroDivisionError
  | KeyError (key : string).

Inductive result (A : Type) : Type :=
  | Ok (a : A)
  | Raise (e : exn).

Arguments Ok {A} a.
Arguments Raise {A} e.

Definition bind {A B : Type} (m : result A) (k : A -> result B) : result B :=
  match m with
  | Ok a => k a
  | Raise e => Raise e
  end.

Notation "'let*' x ':=' e 'in' k" :=
  (bind e (fun x => k))
  (at level 10, x pattern, e at level 100, k at level 200).

(** [d[k]] on a dictionary: [KeyError] when the key is missing. *)
Definition getitem {V : Type} (d : gmap string V) (k : string) : result V :=
  match d !! k with
  | Some v => Ok v
  | None => Raise (KeyError k)
  end.

(** [d.get(k, dflt)]. *)
Definition get {K : Type} `{Countable K} {V : Type}
    (d : gmap K V) (k : K) (dflt : V) : V :=
  default dflt (d !! k).

(* ===================================================================== *)
(** * Numbers *)

Inductive pyfloat : Type :=
  | NaN
  | Inf (neg : bool)
  | Fin (q : Q).

Declare Scope py_scope.
Delimit Scope py_scope with py.
Bind Scope py_scope with pyfloat.

Definition Qneg_bool (q : Q) : bool := negb (Qle_bool 0 q).

Module Py.

(** [pd.isna] on a number. *)
Definition isna (x : pyfloat) : bool :=
  match x with NaN => true | _ => false end.

Definition leb (x y : pyfloat) : bool :=
  match x, y with
  | NaN, _ | _, NaN => false
  | Inf true, _ => true
  | _, Inf false => true
  | Inf false, _ => false
  | Fin _, Inf true => false
  | Fin a, Fin b => Qle_bool a b
  end.

Definition ltb (x y : pyfloat) : bool :=
  match x, y with
  | NaN, _ | _, NaN => false
  | Inf true, Inf true => false
  | Inf true, _ => true
  | Inf false, _ => false
  | Fin _, Inf s => negb s
  | Fin a, Fin b => negb (Qle_bool b a)
  end.

Definition geb (x y : pyfloat) : bool := leb y x.
Definition gtb (x y : pyfloat) : bool := ltb y x.

Definition eqb (x y : pyfloat) : bool :=
  match x, y with
  | Inf s, Inf t => Bool.eqb s t
  | Fin a, Fin b => Qeq_bool a b
  | _, _ => false
  end.

Definition neb (x y : pyfloat) : bool := negb (eqb x y).

Definition abs (x : pyfloat) : pyfloat :=
  match x with
  | NaN => NaN
  | Inf _ => Inf false
  | Fin q => Fin (Qabs q)
  end.

Definition add (x y : pyfloat) : pyfloat :=
  match x, y with
  | NaN, _ | _, NaN => NaN
  | Inf s, Inf t => if Bool.eqb s t then Inf s else NaN
  | Inf s, Fin _ | Fin _, Inf s => Inf s
  | Fin a, Fin b => Fin (a + b)
  end.

Definition sub (x y : pyfloat) : pyfloat :=
  match x, y with
  | NaN, _ | _, NaN => NaN
  | Inf s, Inf t => if Bool.eqb s t then NaN else Inf s
  | Inf s, Fin _ => Inf s
  | Fin _, Inf s => Inf (negb s)
  | Fin a, Fin b => Fin (a - b)
  end.

Definition mul (x y : pyfloat) : pyfloat :=
  match x, y with
  | NaN, _ | _, NaN => NaN
  | Inf s, Inf t => Inf (xorb s t)
  | Inf s, Fin q | Fin q, Inf s =>
      if Qeq_bool q 0 then NaN else Inf (xorb s (Qneg_bool q))
  | Fin a, Fin b => Fin (a * b)
  end.

(** True division; the divisor is tested first, as CPython does. *)
Definition div (x y : pyfloat) : result pyfloat :=
  if eqb y (Fin 0) then Raise ZeroDivisionError
  else Ok match x, y with
          | NaN, _ | _, NaN => NaN
          | Inf _, Inf _ => NaN
          | Inf s, Fin q => Inf (xorb s (Qneg_bool q))
          | Fin _, Inf _ => Fin 0
          | Fin a, Fin b => Fin (a / b)
          end.

End Py.

Infix "<=?" := Py.leb : py_scope.
Infix "<?" := Py.ltb : py_scope.
Infix ">=?" := Py.geb (at level 70) : py_scope.
Infix ">?" := Py.gtb (at level 70) : py_scope.
Infix "==?" := Py.eqb (at level 70) : py_scope.
Infix "+" := Py.add : py_scope.
Infix "-" := Py.sub : py_scope.
Infix "*" := Py.mul : py_scope.
Infix "/" := Py.div : py_scope.

(** ** Formatting ([format] with the specs [.2f] and [.2%]) *)

(** Round half to even, on a non-negative rational. *)
Definition round_half_even (q : Q) : Z :=
  let n := Qnum q in
  let d := Zpos (Qden q) in
  let fl := (n / d)%Z in
  match (2 * (n mod d) ?= d)%Z with
  | Lt => fl
  | Gt => (fl + 1)%Z
  | Eq => if Z.even fl then fl else (fl + 1)%Z
  end.

Definition two_digits (n : Z) : string :=
  (if (n <? 10)%Z then "0" else "") +:+ pretty n.

(** [f"{x:.2f}"]. *)
Definition format_2f (x : pyfloat) : string :=
  match x with
  | NaN => "nan"
  | Inf false => "inf"
  | Inf true => "-inf"
  | Fin q =>
      let n := round_half_even (Qabs q * 100) in
      (if Qneg_bool q then "-" else "")
        +:+ pretty (n / 100)%Z +:+ "." +:+ two_digits (n mod 100)%Z
  end.

(** [f"{x:.2%}"]: the value times 100, two decimals, a percent sign. *)
Definition format_2pct (x : pyfloat) : string :=
  format_2f (x * Fin 100)%py +:+ "%".

(* ===================================================================== *)
(** * [src/config.py] *)

(** Key performance indicators thresholds.  The last pair is
    [(0.05, 0.02)]: "Max 5%, Ideal 2% (reverse threshold)". *)
Definition RATIOS_THRESHOLDS : gmap string (pyfloat * pyfloat) :=
  list_to_map
    [ ("capital_adequacy", (Fin 0.08, Fin 0.12));
      ("instant_liquidity", (Fin 0.15, Fin 0.25));
      ("current_liquidity", (Fin 1.0, Fin 1.5));
      ("roe", (Fin 0.10, Fin 0.15));
      ("roa", (Fin 0.01, Fin 0.02));
      ("nim", (Fin 0.02, Fin 0.04));
      ("problem_loans_ratio", (Fin 0.05, Fin 0.02)) ].

(* ===================================================================== *)
(** * [analytics/calculator.py] *)

(** [normalize_score(value, min_thr, max_thr, reverse=False)].  The same
    function, character for character, is in [analytics/bsi.py]. *)
Definition normalize_score (value min_thr max_thr : pyfloat) (reverse : bool)
  : result pyfloat :=
  if Py.isna value then Ok (Fin 0.0)
  else if reverse then
    if (value <=? min_thr)%py then Ok (Fin 1.0)
    else if (value >=? max_thr)%py then Ok (Fin 0.0)
    else ((max_thr - value) / (max_thr - min_thr))%py
  else
    if (value >=? max_thr)%py then Ok (Fin 1.0)
    else if (value <=? min_thr)%py then Ok (Fin 0.0)
    else ((value - min_thr) / (max_thr - min_thr))%py.

(** The attributes [__init__] sets. *)
Record BankingRatiosCalculator : Type := {
  data : gmap string pyfloat;
  total_assets : pyfloat;
  total_liabilities : pyfloat;
  equity : pyfloat;
  net_income : pyfloat;
  cash_and_equivalents : pyfloat;
  loans_to_customers : pyfloat;
  net_interest_income : pyfloat;
  deposits_from_customers : pyfloat;
  total_capital : pyfloat;
  average_assets : pyfloat;
  liquid_assets : pyfloat;
  demand_deposits : pyfloat;
  short_term_liabilities : pyfloat
}.

(** [BankingRatiosCalculator.__init__(self, financial_data)]. *)
Definition init (financial_data : gmap string pyfloat)
  : BankingRatiosCalculator :=
  let total_assets := get financial_data "total_assets" (Fin 0) in
  let total_liabilities := get financial_data "total_liabilities" (Fin 0) in
  let equity := get financial_data "equity" (Fin 0) in
  let net_income := get financial_data "net_income" (Fin 0) in
  let cash_and_equivalents :=
    get financial_data "cash_and_equivalents" (Fin 0) in
  let loans_to_customers := get financial_data "loans_to_customers" (Fin 0) in
  let net_interest_income :=
    get financial_data "net_interest_income" (Fin 0) in
  let deposits_from_customers :=
    get financial_data "deposits_from_customers" (Fin 0) in
  {| data := financial_data;
     total_assets := total_assets;
     total_liabilities := total_liabilities;
     equity := equity;
     net_income := net_income;
     cash_and_equivalents := cash_and_equivalents;
     loans_to_customers := loans_to_customers;
     net_interest_income := net_interest_income;
     deposits_from_customers := deposits_from_customers;
     total_capital :=
       (equity + get financial_data "subordinated_debt" (Fin 0))%py;
     average_assets := total_assets;
     liquid_assets := cash_and_equivalents;
     demand_deposits := (deposits_from_customers * Fin 0.7)%py;
     short_term_liabilities := (total_liabilities * Fin 0.5)%py |}.

Section Ratios.

Variable self : BankingRatiosCalculator.

Definition calculate_capital_adequacy : result (pyfloat * string) :=
  if (total_assets self ==? Fin 0)%py then
    Ok (Fin 0.0, "Cannot calculate: Total assets is zero")
  else
    let* ratio := (equity self / total_assets self)%py in
    let* (min_thr, max_thr) := getitem RATIOS_THRESHOLDS "capital_adequacy" in
    let interpretation :=
      if (ratio >=? max_thr)%py then
        "Excellent: " +:+ format_2pct ratio +:+ " (above target of "
          +:+ format_2pct max_thr +:+ ")"
      else if (ratio >=? min_thr)%py then
        "Adequate: " +:+ format_2pct ratio +:+ " (meets minimum of "
          +:+ format_2pct min_thr +:+ ")"
      else
        "Deficient: " +:+ format_2pct ratio +:+ " (below minimum of "
          +:+ format_2pct min_thr +:+ ")" in
    Ok (ratio, interpretation).

Definition calculate_instant_liquidity : result (pyfloat * string) :=
  if (demand_deposits self ==? Fin 0)%py then
    Ok (Fin 0.0, "Cannot calculate: Demand deposits is zero")
  else
    let* ratio := (liquid_assets self / demand_deposits self)%py in
    let* (min_thr, max_thr) := getitem RATIOS_THRESHOLDS "instant_liquidity" in
    let interpretation :=
      if (ratio >=? max_thr)%py then
        "Strong: " +:+ format_2pct ratio +:+ " (exceeds target of "
          +:+ format_2pct max_thr +:+ ")"
      else if (ratio >=? min_thr)%py then
        "Adequate: " +:+ format_2pct ratio +:+ " (meets minimum of "
          +:+ format_2pct min_thr +:+ ")"
      else
        "Concerning: " +:+ format_2pct ratio +:+ " (below minimum of "
          +:+ format_2pct min_thr +:+ ")" in
    Ok (ratio, interpretation).

Definition calculate_current_liquidity : result (pyfloat * string) :=
  if (short_term_liabilities self ==? Fin 0)%py then
    Ok (Fin 0.0, "Cannot calculate: Short-term liabilities is zero")
  else
    let* ratio := (liquid_assets self / short_term_liabilities self)%py in
    let* (min_thr, max_thr) := getitem RATIOS_THRESHOLDS "current_liquidity" in
    let interpretation :=
      if (ratio >=? max_thr)%py then
        "Strong: " +:+ format_2f ratio +:+ " (exceeds target of "
          +:+ format_2f max_thr +:+ ")"
      else if (ratio >=? min_thr)%py then
        "Adequate: " +:+ format_2f ratio +:+ " (meets minimum of "
          +:+ format_2f min_thr +:+ ")"
      else
        "Concerning: " +:+ format_2f ratio +:+ " (below minimum of "
          +:+ format_2f min_thr +:+ ")" in
    Ok (ratio, interpretation).

Definition calculate_roe : result (pyfloat * string) :=
  if (equity self ==? Fin 0)%py then
    Ok (Fin 0.0, "Cannot calculate: Equity is zero")
  else
    let* ratio := (net_income self / equity self)%py in
    let* (min_thr, max_thr) := getitem RATIOS_THRESHOLDS "roe" in
    let interpretation :=
      if (ratio >=? max_thr)%py then
        "Excellent: " +:+ format_2pct ratio +:+ " (exceeds target of "
          +:+ format_2pct max_thr +:+ ")"
      else if (ratio >=? min_thr)%py then
        "Good: " +:+ format_2pct ratio +:+ " (meets minimum of "
          +:+ format_2pct min_thr +:+ ")"
      else
        "Low: " +:+ format_2pct ratio +:+ " (below minimum of "
          +:+ format_2pct min_thr +:+ ")" in
    Ok (ratio, interpretation).

Definition calculate_roa : result (pyfloat * string) :=
  if (total_assets self ==? Fin 0)%py then
    Ok (Fin 0.0, "Cannot calculate: Total assets is zero")
  else
    let* ratio := (net_income self / total_assets self)%py in
    let* (min_thr, max_thr) := getitem RATIOS_THRESHOLDS "roa" in
    let interpretation :=
      if (ratio >=? max_thr)%py then
        "Excellent: " +:+ format_2pct ratio +:+ " (exceeds target of "
          +:+ format_2pct max_thr +:+ ")"
      else if (ratio >=? min_thr)%py then
        "Good: " +:+ format_2pct ratio +:+ " (meets minimum of "
          +:+ format_2pct min_thr +:+ ")"
      else
        "Low: " +:+ format_2pct ratio +:+ " (below minimum of "
          +:+ format_2pct min_thr +:+ ")" in
    Ok (ratio, interpretation).

Definition calculate_nim : result (pyfloat * string) :=
  if (average_assets self ==? Fin 0)%py then
    Ok (Fin 0.0, "Cannot calculate: Average assets is zero")
  else
    let* ratio := (net_interest_income self / average_assets self)%py in
    let* (min_thr, max_thr) := getitem RATIOS_THRESHOLDS "nim" in
    let interpretation :=
      if (ratio >=? max_thr)%py then
        "Excellent: " +:+ format_2pct ratio +:+ " (exceeds target of "
          +:+ format_2pct max_thr +:+ ")"
      else if (ratio >=? min_thr)%py then
        "Good: " +:+ format_2pct ratio +:+ " (meets minimum of "
          +:+ format_2pct min_thr +:+ ")"
      else
        "Low: " +:+ format_2pct ratio +:+ " (below minimum of "
          +:+ format_2pct min_thr +:+ ")" in
    Ok (ratio, interpretation).

(** The interpretation of the problem-loans ratio, "lower is better":
    the [if]/[elif]/[else] of [calculate_problem_loans_ratio]. *)
Definition problem_loans_interpretation (ratio min_thr max_thr : pyfloat)
  : string :=
  if (ratio <=? max_thr)%py then
    "Healthy: " +:+ format_2pct ratio +:+ " (below target of "
      +:+ format_2pct max_thr +:+ ")"
  else if (ratio <=? min_thr)%py then
    "Concerning: " +:+ format_2pct ratio +:+ " (approaching threshold of "
      +:+ format_2pct min_thr +:+ ")"
  else
    "Critical: " +:+ format_2pct ratio +:+ " (exceeds threshold of "
      +:+ format_2pct min_thr +:+ ")".

Definition calculate_problem_loans_ratio : result (pyfloat * string) :=
  if (loans_to_customers self ==? Fin 0)%py then
    Ok (Fin 0.0, "Cannot calculate: Loans to customers is zero")
  else
    let estimated_npl := (loans_to_customers self * Fin 0.03)%py in
    let* ratio := (estimated_npl / loans_to_customers self)%py in
    let* (min_thr, max_thr) := getitem RATIOS_THRESHOLDS "problem_loans_ratio" in
    let interpretation :=
      problem_loans_interpretation ratio min_thr max_thr in
    Ok (ratio, interpretation).

(** The dictionary [ratios], in insertion order (the order [items()]
    walks it in). *)
Definition calculate_all_ratios : result (list (string * (pyfloat * string))) :=
  let* r1 := calculate_capital_adequacy in
  let* r2 := calculate_instant_liquidity in
  let* r3 := calculate_current_liquidity in
  let* r4 := calculate_roe in
  let* r5 := calculate_roa in
  let* r6 := calculate_nim in
  let* r7 := calculate_problem_loans_ratio in
  Ok [ ("capital_adequacy", r1);
       ("instant_liquidity", r2);
       ("current_liquidity", r3);
       ("roe", r4);
       ("roa", r5);
       ("nim", r6);
       ("problem_loans_ratio", r7) ].

(** The dictionary [weights] of [calculate_bsi], in declaration order. *)
Definition weights : list (string * pyfloat) :=
  [ ("capital_adequacy", Fin 0.20);
    ("instant_liquidity", Fin 0.15);
    ("current_liquidity", Fin 0.15);
    ("roe", Fin 0.15);
    ("roa", Fin 0.15);
    ("nim", Fin 0.10);
    ("problem_loans_ratio", Fin 0.10) ].

(** The first loop of [calculate_bsi]: one normalized score per ratio. *)
Fixpoint normalize_all (all_ratios : list (string * (pyfloat * string)))
    (normalized_scores : gmap string pyfloat)
  : result (gmap string pyfloat) :=
  match all_ratios with
  | [] => Ok normalized_scores
  | (ratio_name, (ratio_value, _)) :: rest =>
      let* score :=
        if String.eqb ratio_name "problem_loans_ratio" then
          (* For problem loans, lower is better (reverse scoring) *)
          let* (min_thr, max_thr) := getitem RATIOS_THRESHOLDS ratio_name in
          normalize_score ratio_value min_thr max_thr true
        else
          (* For other ratios, higher is better *)
          let* (min_thr, max_thr) := getitem RATIOS_THRESHOLDS ratio_name in
          normalize_score ratio_value min_thr max_thr false in
      normalize_all rest (<[ratio_name := score]> normalized_scores)
  end.

(** The second loop: the weighted sum. *)
Fixpoint weighted_sum (ws : list (string * pyfloat))
    (normalized_scores : gmap string pyfloat) (bsi : pyfloat)
  : result pyfloat :=
  match ws with
  | [] => Ok bsi
  | (ratio_name, weight) :: rest =>
      let* score := getitem normalized_scores ratio_name in
      weighted_sum rest normalized_scores (bsi + score * weight)%py
  end.

Definition bsi_interpretation (bsi : pyfloat) : string :=
  if (bsi >=? Fin 0.8)%py then
    "Excellent stability: " +:+ format_2f bsi +:+ "/1.00"
  else if (bsi >=? Fin 0.6)%py then
    "Good stability: " +:+ format_2f bsi +:+ "/1.00"
  else if (bsi >=? Fin 0.4)%py then
    "Adequate stability: " +:+ format_2f bsi +:+ "/1.00"
  else if (bsi >=? Fin 0.2)%py then
    "Concerning stability: " +:+ format_2f bsi +:+ "/1.00"
  else
    "Critical stability: " +:+ format_2f bsi +:+ "/1.00".

Definition normalized_scores_of : result (gmap string pyfloat) :=
  let* all_ratios := calculate_all_ratios in
  normalize_all all_ratios ∅.

Definition calculate_bsi : result (pyfloat * string) :=
  let* normalized_scores := normalized_scores_of in
  let* bsi := weighted_sum weights normalized_scores (Fin 0.0) in
  Ok (bsi, bsi_interpretation bsi).

End Ratios.

(* ===================================================================== *)
(** * Text *)

(** A Python [str] is a sequence of Unicode code points.  The character
    classes below are Python's on Basic Latin, on the Cyrillic letters
    U+0400 to U+045F and on white space (the alphabet of the reports and
    of the pattern tables); a code point outside these is taken as
    caseless and as no digit, which is what Python does for the symbols
    the source names besides (the ruble and euro signs, the dashes). *)
Definition ustring : Type := list N.

(** The code points of a UTF-8 encoded literal. *)
Fixpoint ustr (s : string) : ustring :=
  match s with
  | EmptyString => []
  | String a s1 =>
      let b := Ascii.N_of_ascii a in
      if (b <? 0x80)%N then b :: ustr s1
      else
        match s1 with
        | EmptyString => [b]
        | String a2 s2 =>
            let b2 := (Ascii.N_of_ascii a2 mod 64)%N in
            if (b <? 0xE0)%N then ((b mod 32) * 64 + b2)%N :: ustr s2
            else
              match s2 with
              | EmptyString => [b]
              | String a3 s3 =>
                  let b3 := (Ascii.N_of_ascii a3 mod 64)%N in
                  if (b <? 0xF0)%N then
                    ((b mod 16) * 4096 + b2 * 64 + b3)%N :: ustr s3
                  else
                    match s3 with
                    | EmptyString => [b]
                    | String a4 s4 =>
                        let b4 := (Ascii.N_of_ascii a4 mod 64)%N in
                        ((b mod 8) * 262144 + b2 * 4096 + b3 * 64 + b4)%N
                          :: ustr s4
                    end
              end
        end
  end.

Definition ustring_eqb (s t : ustring) : bool :=
  bool_decide (s = t).

Module Char.

Definition space : N := 0x20.
Definition nbsp : N := 0xA0.
Definition newline : N := 0x0A.
Definition comma : N := 0x2C.
Definition dot : N := 0x2E.
Definition minus : N := 0x2D.
Definition plus : N := 0x2B.
Definition underscore : N := 0x5F.
Definition backslash : N := 0x5C.

(** [str.isspace], the class [\s] and what [strip()] removes. *)
Definition isspace (c : N) : bool :=
  ((0x09 <=? c) && (c <=? 0x0D)
   || (0x1C <=? c) && (c <=? 0x20)
   || (c =? 0x85) || (c =? 0xA0) || (c =? 0x1680)
   || (0x2000 <=? c) && (c <=? 0x200A)
   || (c =? 0x2028) || (c =? 0x2029) || (c =? 0x202F) || (c =? 0x205F)
   || (c =? 0x3000))%N.

(** [str.isdigit] and the class [\d] (on the alphabet). *)
Definition isdigit (c : N) : bool := ((0x30 <=? c) && (c <=? 0x39))%N.

Definition digit_value (c : N) : Z := Z.of_N (c - 0x30).

Definition lower (c : N) : N :=
  if ((0x41 <=? c) && (c <=? 0x5A))%N then (c + 0x20)%N
  else if ((0x410 <=? c) && (c <=? 0x42F))%N then (c + 0x20)%N
  else if ((0x400 <=? c) && (c <=? 0x40F))%N then (c + 0x50)%N
  else c.

Definition upper (c : N) : N :=
  if ((0x61 <=? c) && (c <=? 0x7A))%N then (c - 0x20)%N
  else if ((0x430 <=? c) && (c <=? 0x44F))%N then (c - 0x20)%N
  else if ((0x450 <=? c) && (c <=? 0x45F))%N then (c - 0x50)%N
  else c.

End Char.

Module Str.

Definition lower (s : ustring) : ustring := map Char.lower s.
Definition upper (s : ustring) : ustring := map Char.upper s.

Fixpoint lstrip (s : ustring) : ustring :=
  match s with
  | c :: s' => if Char.isspace c then lstrip s' else s
  | [] => []
  end.

Definition rstrip (s : ustring) : ustring := rev (lstrip (rev s)).

(** [s.strip()]. *)
Definition strip (s : ustring) : ustring := rstrip (lstrip s).

(** [s.replace(old, new)] for a one-character [old]. *)
Fixpoint replace (old : N) (new : ustring) (s : ustring) : ustring :=
  match s with
  | c :: s' =>
      if (c =? old)%N then new ++ replace old new s'
      else c :: replace old new s'
  | [] => []
  end.

(** [s.isdigit()]: at least one character, all of them digits. *)
Definition isdigit (s : ustring) : bool :=
  match s with
  | [] => false
  | _ => forallb Char.isdigit s
  end.

(** [c in s] for a character [c]. *)
Definition contains_char (c : N) (s : ustring) : bool :=
  existsb (N.eqb c) s.

Fixpoint starts_with (p s : ustring) : bool :=
  match p, s with
  | [], _ => true
  | a :: p', b :: s' => (a =? b)%N && starts_with p' s'
  | _ :: _, [] => false
  end.

(** [p in s] for a substring [p]. *)
Fixpoint contains (p s : ustring) : bool :=
  starts_with p s
  || match s with
     | _ :: s' => contains p s'
     | [] => false
     end.

(** [s.rsplit(sep, 1)] for a one-character [sep] that occurs in [s]:
    the text before the last [sep] and the text after it; [None] when
    [sep] does not occur (Python then returns the one-element list). *)
Fixpoint rsplit1 (sep : N) (s : ustring) : option (ustring * ustring) :=
  match s with
  | [] => None
  | c :: s' =>
      match rsplit1 sep s' with
      | Some (before, after) => Some (c :: before, after)
      | None => if (c =? sep)%N then Some ([], s') else None
      end
  end.

(** [sep.join(parts)]. *)
Fixpoint join (sep : ustring) (parts : list ustring) : ustring :=
  match parts with
  | [] => []
  | [p] => p
  | p :: rest => p ++ sep ++ join sep rest
  end.

End Str.

(* ===================================================================== *)
(** * [float(str)] *)

Module Float.

(** A [digitpart]: digits, single underscores allowed between two
    digits.  Returns the digits read and the text left. *)
Fixpoint digitpart (s : ustring) : list Z * ustring :=
  match s with
  | c :: s1 =>
      if Char.isdigit c then
        let '(ds, rest) :=
          match s1 with
          | c1 :: s2 =>
              if (c1 =? Char.underscore)%N then
                match s2 with
                | c2 :: _ => if Char.isdigit c2 then digitpart s2 else ([], s1)
                | [] => ([], s1)
                end
              else digitpart s1
          | [] => ([], [])
          end in
        (Char.digit_value c :: ds, rest)
      else ([], s)
  | [] => ([], [])
  end.

Definition number_of_digits (ds : list Z) : Z :=
  fold_left (fun acc d => (10 * acc + d)%Z) ds 0%Z.

(** An optional sign: whether it is a minus, and the text left. *)
Definition sign (s : ustring) : bool * ustring :=
  match s with
  | c :: s' =>
      if (c =? Char.minus)%N then (true, s')
      else if (c =? Char.plus)%N then (false, s')
      else (false, s)
  | [] => (false, [])
  end.

(** An optional exponent at the end of the literal: its value, or
    [None] when the text is not an exponent. *)
Definition exponent (s : ustring) : option Z :=
  match s with
  | [] => Some 0%Z
  | c :: s' =>
      if (Char.lower c =? 0x65)%N then
        let '(neg, s'') := sign s' in
        match digitpart s'' with
        | ((_ :: _) as ds, []) =>
            let e := number_of_digits ds in
            Some (if neg then (- e)%Z else e)
        | _ => None
        end
      else None
  end.

(** The unsigned finite literals: [digitpart ["." [digitpart]]] or
    ["." digitpart], then an optional exponent. *)
Definition finite (s : ustring) : option Q :=
  let '(int_digits, s1) := digitpart s in
  let '(frac_digits, s2, well_formed) :=
    match s1 with
    | c :: s1' =>
        if (c =? Char.dot)%N then
          let '(fd, r) := digitpart s1' in
          (fd, r,
           match int_digits, fd with [], [] => false | _, _ => true end)
        else ([], s1, match int_digits with [] => false | _ => true end)
    | [] => ([], [], match int_digits with [] => false | _ => true end)
    end in
  if well_formed then
    match exponent s2 with
    | Some e =>
        let m := number_of_digits (int_digits ++ frac_digits) in
        Some (inject_Z m * Qpower 10 (e - Z.of_nat (length frac_digits)))%Q
    | None => None
    end
  else None.

(** [float(s)]; [None] stands for [ValueError]. *)
Definition of_str (s : ustring) : option pyfloat :=
  let '(neg, body) := sign (Str.strip s) in
  let word := Str.lower body in
  if ustring_eqb word (ustr "inf") || ustring_eqb word (ustr "infinity")
  then Some (Inf neg)
  else if ustring_eqb word (ustr "nan") then Some NaN
  else
    match finite body with
    | Some q => Some (Fin (if neg then - q else q)%Q)
    | None => None
    end.

End Float.

(* ===================================================================== *)
(** * Regular expressions *)

(** The fragment of [re] the source uses: a pattern is a sequence of
    one-character matchers (a literal, [.], [\d], [\s], a bracketed set),
    each with an optional greedy [?], [*] or [+], and the anchors [^] and
    [$].  Groups, alternation, counted and lazy repetition and ranges
    inside a set are not in the fragment: [parse] answers [None] on
    them. *)
Module Re.

Inductive cclass : Type := Digit | NotDigit | Space | NotSpace.

Inductive setitem : Type :=
  | SLit (c : N)
  | SClass (k : cclass).

Inductive atom : Type :=
  | ALit (c : N)
  | ADot
  | AClass (k : cclass)
  | ASet (negated : bool) (items : list setitem).

Inductive quant : Type := Once | Opt | Star | Plus.

Inductive node : Type :=
  | Atom (a : atom) (q : quant)
  | Bol
  | Eol.

Definition regex : Type := list node.

(** ** Parsing a pattern *)

Inductive token : Type :=
  | TAtom (a : atom)
  | TQuant (q : quant)
  | TBol
  | TEol.

Inductive pstate : Type :=
  | Top
  | TopEscape
  | SetOpen
  | InSet (negated : bool) (items : list setitem)
  | InSetEscape (negated : bool) (items : list setitem).

Definition is_ascii_alnum (c : N) : bool :=
  ((0x30 <=? c) && (c <=? 0x39) || (0x41 <=? c) && (c <=? 0x5A)
   || (0x61 <=? c) && (c <=? 0x7A))%N.

(** The character after a backslash: a class, or the character itself
    when it is no letter or digit; [None] for the other escapes. *)
Definition escape (c : N) : option (cclass + N) :=
  if (c =? 0x64)%N then Some (inl Digit)
  else if (c =? 0x44)%N then Some (inl NotDigit)
  else if (c =? 0x73)%N then Some (inl Space)
  else if (c =? 0x53)%N then Some (inl NotSpace)
  else if is_ascii_alnum c then None
  else Some (inr c).

Definition set_step (negated : bool) (items : list setitem) (c : N)
  : option (pstate * list token) :=
  if (c =? 0x5D)%N then                                   (* ] *)
    match items with
    | [] => None
    | _ => Some (Top, [TAtom (ASet negated items)])
    end
  else if (c =? Char.backslash)%N then Some (InSetEscape negated items, [])
  else if (c =? Char.minus)%N then None
  else Some (InSet negated (items ++ [SLit c]), []).

Definition step (st : pstate) (c : N) : option (pstate * list token) :=
  match st with
  | Top =>
      if (c =? Char.backslash)%N then Some (TopEscape, [])
      else if (c =? 0x5B)%N then Some (SetOpen, [])       (* [ *)
      else if (c =? 0x5E)%N then Some (Top, [TBol])       (* ^ *)
      else if (c =? 0x24)%N then Some (Top, [TEol])       (* $ *)
      else if (c =? Char.dot)%N then Some (Top, [TAtom ADot])
      else if (c =? 0x2A)%N then Some (Top, [TQuant Star])
      else if (c =? 0x2B)%N then Some (Top, [TQuant Plus])
      else if (c =? 0x3F)%N then Some (Top, [TQuant Opt])
      else if ((c =? 0x28) || (c =? 0x29) || (c =? 0x7C)
               || (c =? 0x7B) || (c =? 0x7D))%N then None (* ( ) | { } *)
      else Some (Top, [TAtom (ALit c)])
  | TopEscape =>
      match escape c with
      | Some (inl k) => Some (Top, [TAtom (AClass k)])
      | Some (inr l) => Some (Top, [TAtom (ALit l)])
      | None => None
      end
  | SetOpen =>
      if (c =? 0x5E)%N then Some (InSet true [], [])
      else set_step false [] c
  | InSet negated items => set_step negated items c
  | InSetEscape negated items =>
      match escape c with
      | Some (inl k) => Some (InSet negated (items ++ [SClass k]), [])
      | Some (inr l) => Some (InSet negated (items ++ [SLit l]), [])
      | None => None
      end
  end.

Fixpoint tokens (st : pstate) (s : ustring) : option (list token) :=
  match s with
  | [] => match st with Top => Some [] | _ => None end
  | c :: s' =>
      match step st c with
      | Some (st', ts) =>
          match tokens st' s' with
          | Some rest => Some (ts ++ rest)
          | None => None
          end
      | None => None
      end
  end.

Fixpoint build (ts : list token) : option regex :=
  match ts with
  | [] => Some []
  | TBol :: ts' => option_map (cons Bol) (build ts')
  | TEol :: ts' => option_map (cons Eol) (build ts')
  | TQuant _ :: _ => None
  | TAtom a :: ts' =>
      match ts' with
      | TQuant q :: ts'' =>
          match ts'' with
          | TQuant _ :: _ => None
          | _ => option_map (cons (Atom a q)) (build ts'')
          end
      | _ => option_map (cons (Atom a Once)) (build ts')
      end
  end.

Definition parse (pattern : ustring) : option regex :=
  match tokens Top pattern with
  | Some ts => build ts
  | None => None
  end.

(** ** Matching *)

Definition class_matches (k : cclass) (c : N) : bool :=
  match k with
  | Digit => Char.isdigit c
  | NotDigit => negb (Char.isdigit c)
  | Space => Char.isspace c
  | NotSpace => negb (Char.isspace c)
  end.

Definition item_matches (it : setitem) (c : N) : bool :=
  match it with
  | SLit l => (c =? l)%N
  | SClass k => class_matches k c
  end.

Definition atom_matches (ignorecase : bool) (a : atom) (c : N) : bool :=
  match a with
  | ALit l =>
      if ignorecase then (Char.lower c =? Char.lower l)%N else (c =? l)%N
  | ADot => negb (c =? Char.newline)%N
  | AClass k => class_matches k c
  | ASet negated items =>
      xorb negated
        (existsb (fun it =>
                    item_matches it c
                    || ignorecase
                       && (item_matches it (Char.lower c)
                           || item_matches it (Char.upper c)))
                 items)
  end.

(** Greedy repetition of a one-character matcher [m], then the rest of
    the pattern [k]; [bol] tells whether the position is the start of
    the text. *)
Fixpoint star (m : N -> bool) (k : bool -> ustring -> option ustring)
    (bol : bool) (s : ustring) : option ustring :=
  match s with
  | c :: s' =>
      if m c then
        match star m k false s' with
        | Some rest => Some rest
        | None => k bol s
        end
      else k bol s
  | [] => k bol s
  end.

(** The first match of [r] at the start of [s], in the order the
    backtracking matcher of [re] tries them: the text after the match. *)
Fixpoint match_at (ignorecase : bool) (r : regex) (bol : bool) (s : ustring)
    {struct r} : option ustring :=
  match r with
  | [] => Some s
  | Bol :: r' => if bol then match_at ignorecase r' bol s else None
  | Eol :: r' =>
      match s with
      | [] => match_at ignorecase r' bol s
      | [c] =>
          if (c =? Char.newline)%N then match_at ignorecase r' bol s
          else None
      | _ => None
      end
  | Atom a q :: r' =>
      let m := atom_matches ignorecase a in
      let k := match_at ignorecase r' in
      match q with
      | Once =>
          match s with
          | c :: s' => if m c then k false s' else None
          | [] => None
          end
      | Opt =>
          match s with
          | c :: s' =>
              if m c then
                match k false s' with
                | Some rest => Some rest
                | None => k bol s
                end
              else k bol s
          | [] => k bol s
          end
      | Star => star m k bol s
      | Plus =>
          match s with
          | c :: s' => if m c then star m k false s' else None
          | [] => None
          end
      end
  end.

Fixpoint search_from (ignorecase : bool) (r : regex) (bol : bool)
    (s : ustring) : bool :=
  match match_at ignorecase r bol s with
  | Some _ => true
  | None =>
      match s with
      | _ :: s' => search_from ignorecase r false s'
      | [] => false
      end
  end.

(** Removal of every match, left to right without overlap: [skip] counts
    the characters of the current match still to drop.  (An empty match
    removes nothing.) *)
Fixpoint remove_from (ignorecase : bool) (r : regex) (bol : bool)
    (skip : nat) (s : ustring) : ustring :=
  match s with
  | [] => []
  | c :: s' =>
      match skip with
      | S n => remove_from ignorecase r false n s'
      | O =>
          match match_at ignorecase r bol s with
          | Some rest =>
              match (length s - length rest)%nat with
              | S n => remove_from ignorecase r false n s'
              | O => c :: remove_from ignorecase r false O s'
              end
          | None => c :: remove_from ignorecase r false O s'
          end
      end
  end.

(** [re.search(pattern, s, flags)] as a truth value. *)
Definition search (pattern : ustring) (s : ustring) (ignorecase : bool)
  : bool :=
  match parse pattern with
  | Some r => search_from ignorecase r true s
  | None => false
  end.

(** [re.match(pattern, s)] as a truth value. *)
Definition match_ (pattern : ustring) (s : ustring) : bool :=
  match parse pattern with
  | Some r => bool_decide (is_Some (match_at false r true s))
  | None => false
  end.

(** [re.sub(pattern, '', s, flags=flags)]. *)
Definition sub_empty (pattern : ustring) (s : ustring) (ignorecase : bool)
  : ustring :=
  match parse pattern with
  | Some r => remove_from ignorecase r true O s
  | None => s
  end.

End Re.

(* ===================================================================== *)
(** * [core/data_aggregator.py] *)

(** ** Tables *)

(** A cell of a [DataFrame]: missing ([None], NaN), a string, or a number
    (an [int] or a [float]) given with the text [str()] prints for it. *)
Inductive cell : Type :=
  | CNa
  | CStr (s : ustring)
  | CNum (x : pyfloat) (text : ustring).

(** A row is the list of its cells; a [DataFrame] is the list of its rows,
    all of one length, the number of columns. *)
Definition Row : Type := list cell.
Definition DataFrame : Type := list Row.

Module Pd.

(** [pd.isna(value)]. *)
Definition isna (value : cell) : bool :=
  match value with
  | CNa => true
  | CStr _ => false
  | CNum x _ => Py.isna x
  end.

Definition notna (value : cell) : bool := negb (isna value).

(** [str(value)]. *)
Definition str (value : cell) : ustring :=
  match value with
  | CNa => ustr "nan"
  | CStr s => s
  | CNum _ text => text
  end.

(** [value == s] for a string literal [s]. *)
Definition eq_str (value : cell) (s : ustring) : bool :=
  match value with
  | CStr t => ustring_eqb t s
  | _ => false
  end.

(** [df.empty or len(df.columns) < 2]. *)
Definition too_small (df : DataFrame) : bool :=
  match df with
  | [] => true
  | row :: _ => (length row <? 2)%nat
  end.

End Pd.

(** ** The tables of [aggregate_financial_data] *)

(** The literal [financial_data] starts from: every indicator at 0. *)
Definition financial_data_defaults : list (string * pyfloat) :=
  [
    ("total_assets", Fin 0);
    ("total_liabilities", Fin 0);
    ("equity", Fin 0);
    ("net_income", Fin 0);
    ("cash_and_equivalents", Fin 0);
    ("loans_to_customers", Fin 0);
    ("deposits_from_customers", Fin 0);
    ("operating_income", Fin 0);
    ("operating_profit", Fin 0);
    ("roa", Fin 0);
    ("roe", Fin 0);
    ("net_interest_margin", Fin 0);
    ("cost_to_income_ratio", Fin 0);
    ("non_performing_loan_ratio", Fin 0);
    ("capital_adequacy_ratio", Fin 0);
    ("current_liquidity_ratio", Fin 0);
    ("instant_liquidity_ratio", Fin 0);
    ("digital_penetration", Fin 0);
    ("mobile_penetration", Fin 0);
    ("active_digital_customers", Fin 0);
    ("number_of_branches", Fin 0);
    ("it_staff", Fin 0);
    ("api_count", Fin 0);
    ("paperless_operations", Fin 0);
    ("electronic_signature_usage", Fin 0);
    ("remote_account_opening", Fin 0);
    ("churn_rate", Fin 0);
    ("retention_rate", Fin 0);
    ("products_per_customer", Fin 0);
    ("cross_sell_rate", Fin 0);
    ("wallet_share", Fin 0);
    ("credit_cost", Fin 0);
    ("loan_loss_provision_coverage", Fin 0);
    ("net_interest_income", Fin 0);
    ("subordinated_debt", Fin 0);
    ("interest_earning_assets", Fin 0);
    ("interest_bearing_liabilities", Fin 0);
    ("net_interest_spread", Fin 0);
    ("interbank_assets", Fin 0);
    ("interbank_liabilities", Fin 0);
    ("equity_to_debt_ratio", Fin 0);
    ("retained_earnings_to_total_assets", Fin 0);
    ("ebit_to_total_assets", Fin 0);
    ("total_assets_turnover", Fin 0);
    ("return_on_net_assets", Fin 0);
    ("return_on_average_total_assets", Fin 0);
    ("return_on_net_assets_after_deducting_non_recurring", Fin 0);
    ("interbank_assets_to_interest_earning_assets", Fin 0);
    ("deposits_to_interest_bearing_liabilities", Fin 0);
    ("interbank_liabilities_to_interest_bearing_liabilities", Fin 0) ].

(** The dictionary [financial_patterns], in declaration order. *)
Definition financial_patterns : list (string * list ustring) :=
  [
    ("total_assets",
      [ ustr "итого активов";
        ustr "валюта баланса";
        ustr "активы всего";
        ustr "^активы$";
        ustr "активы.*конец" ]);
    ("loans_to_customers",
      [ ustr "кредиты и авансы клиентам";
        ustr "кредитный портфель";
        ustr "ссуды клиентам";
        ustr "выданные кредиты";
        ustr "кредиты.*физическим";
        ustr "кредиты.*юридическим" ]);
    ("deposits_from_customers",
      [ ustr "депозиты";
        ustr "привлеченные средства";
        ustr "средства клиентов";
        ustr "обязательства.*клиентов";
        ustr "вклады" ]);
    ("net_income",
      [ ustr "чистая прибыль";
        ustr "прибыль.*налог";
        ustr "прибыль за год";
        ustr "чистая прибыль.*год";
        ustr "прибыль.*отчетный период" ]);
    ("operating_income",
      [ ustr "операционный доход";
        ustr "операционные поступления";
        ustr "доходы от основной деятельности";
        ustr "доходы.*основная" ]);
    ("operating_profit",
      [ ustr "операционная прибыль";
        ustr "прибыль от основной деятельности" ]);
    ("roa",
      [ ustr "roa";
        ustr "рентабельность активов";
        ustr "роа";
        ustr "рентабельность.*активов" ]);
    ("roe",
      [ ustr "roe";
        ustr "рентабельность собственного капитала";
        ustr "роэ";
        ustr "рентабельность.*капитала" ]);
    ("net_interest_margin",
      [ ustr "чистая процентная маржа";
        ustr "процентная маржа";
        ustr "npm";
        ustr "чистая.*маржа" ]);
    ("cost_to_income_ratio",
      [ ustr "затраты к доходу";
        ustr "cir";
        ustr "отношение затрат к доходу";
        ustr "коэффициент затрат" ]);
    ("non_performing_loan_ratio",
      [ ustr "неработающ.*кредит";
        ustr "npl";
        ustr "просрочен.*кредит";
        ustr "стадия 3";
        ustr "просроченная задолженность";
        ustr "нпл" ]);
    ("capital_adequacy_ratio",
      [ ustr "коэффициент.*адекватности";
        ustr "базель";
        ustr "капитал.*уровень";
        ustr "cet1";
        ustr "базовый капитал" ]);
    ("digital_penetration",
      [ ustr "доля цифровых клиентов";
        ustr "цифровая проницаемость";
        ustr "цифровые клиенты.*доля";
        ustr "цифровизация.*клиентов" ]);
    ("mobile_penetration",
      [ ustr "мобильная проницаемость";
        ustr "доля мобильных клиентов";
        ustr "мобильный банкинг.*доля";
        ustr "мобильные.*клиенты" ]);
    ("active_digital_customers",
      [ ustr "активные цифровые клиенты";
        ustr "mau";
        ustr "активные пользователи";
        ustr "активные клиенты.*мобильный";
        ustr "активные.*цифровые" ]);
    ("number_of_branches",
      [ ustr "количество отделений";
        ustr "число отделений";
        ustr "сеть отделений";
        ustr "отделения и филиалы.*количество";
        ustr "офисы.*количество" ]);
    ("it_staff",
      [ ustr "it-персонал";
        ustr "технический персонал";
        ustr "it staff";
        ustr "сотрудники.*информационные технологии";
        ustr "специалисты.*ит" ]);
    ("api_count",
      [ ustr "api";
        ustr "интерфейс прикладного программирования";
        ustr "открытые api";
        ustr "api.*интеграция" ]);
    ("paperless_operations",
      [ ustr "безбумажный";
        ustr "безбумажные операции";
        ustr "безбумажные процессы";
        ustr "электронный документооборот" ]);
    ("electronic_signature_usage",
      [ ustr "электронная подпись";
        ustr "цифровая подпись";
        ustr "e-подпись";
        ustr "эцп";
        ustr "электронно-цифровая подпись" ]);
    ("remote_account_opening",
      [ ustr "удаленное открытие счета";
        ustr "дистанционное открытие счета";
        ustr "онлайн-открытие счета";
        ustr "цифровое открытие счета" ]);
    ("churn_rate",
      [ ustr "коэффициент оттока";
        ustr "отток клиентов";
        ustr "churn";
        ustr "отток.*клиенты" ]);
    ("retention_rate",
      [ ustr "коэффициент удержания";
        ustr "удержание клиентов";
        ustr "лояльность";
        ustr "удержание.*клиенты" ]);
    ("products_per_customer",
      [ ustr "продукты на клиента";
        ustr "количество продуктов на клиента";
        ustr "среднее число продуктов";
        ustr "продуктовая.*корзина" ]);
    ("cross_sell_rate",
      [ ustr "кросс-продажи";
        ustr "перекрестные продажи";
        ustr "дополнительные продукты";
        ustr "кросс.*продажи" ]);
    ("wallet_share",
      [ ustr "доля кошелька";
        ustr "рыночная доля";
        ustr "доля рынка";
        ustr "кошелек.*клиента" ]);
    ("credit_cost",
      [ ustr "стоимость кредитов";
        ustr "стоимость риска";
        ustr "кор";
        ustr "резервы.*кредитные убытки";
        ustr "стоимость.*кредитования" ]);
    ("loan_loss_provision_coverage",
      [ ustr "резервы под кредитные убытки к проблемным кредитам";
        ustr "коэффициент резервирования";
        ustr "покрытие нпл резервами";
        ustr "резервы.*нпл" ]);
    ("net_interest_income",
      [ ustr "чистый процентный доход";
        ustr "процентный доход.*чистый";
        ustr "nii" ]);
    ("subordinated_debt",
      [ ustr "субординированный долг";
        ustr "субординированные обязательства" ]);
    ("interest_earning_assets",
      [ ustr "процентные активы";
        ustr "доходные активы" ]);
    ("interest_bearing_liabilities",
      [ ustr "процентные обязательства";
        ustr "доходные обязательства" ]);
    ("net_interest_spread",
      [ ustr "процентный спред";
        ustr "разница ставок" ]);
    ("interbank_assets",
      [ ustr "межбанковские активы";
        ustr "активы.*межбанк" ]);
    ("interbank_liabilities",
      [ ustr "межбанковские обязательства";
        ustr "обязательства.*межбанк" ]);
    ("equity_to_debt_ratio",
      [ ustr "соотношение собственного капитала к заемному";
        ustr "капитал.*долг" ]);
    ("retained_earnings_to_total_assets",
      [ ustr "соотношение нераспределенной прибыли к активам";
        ustr "нераспределенная прибыль.*активы" ]);
    ("ebit_to_total_assets",
      [ ustr "соотношение прибыли до вычета процентов и налогов к активам";
        ustr "ebit.*активы" ]);
    ("total_assets_turnover",
      [ ustr "оборачиваемость активов";
        ustr "оборот активов" ]);
    ("return_on_net_assets",
      [ ustr "рентабельность чистых активов";
        ustr "рна" ]);
    ("return_on_average_total_assets",
      [ ustr "рентабельность средних активов";
        ustr "рсна" ]);
    ("return_on_net_assets_after_deducting_non_recurring",
      [ ustr "рентабельность чистых активов после исключения разовых факторов";
        ustr "рнапосле" ]);
    ("interbank_assets_to_interest_earning_assets",
      [ ustr "соотношение межбанковских активов к процентным активам";
        ustr "межбанк.*доходные активы" ]);
    ("deposits_to_interest_bearing_liabilities",
      [ ustr "соотношение депозитов к процентным обязательствам";
        ustr "депозиты.*процентные обязательства" ]);
    ("interbank_liabilities_to_interest_bearing_liabilities",
      [ ustr "соотношение межбанковских обязательств к процентным обязательствам";
        ustr "межбанк.*процентные обязательства" ]) ].

(** The list [unit_patterns].  The source writes these patterns as raw
    strings with doubled backslashes, which the strings below keep. *)
Definition unit_patterns : list (ustring * pyfloat) :=
  [
    (ustr "млрд\\.?\\s*р\\.?", Fin 1e9);
    (ustr "млрд\\.?\\s*руб\\.?", Fin 1e9);
    (ustr "млрд", Fin 1e9);
    (ustr "млн\\.?\\s*р\\.?", Fin 1e6);
    (ustr "млн\\.?\\s*руб\\.?", Fin 1e6);
    (ustr "млн", Fin 1e6);
    (ustr "тыс\\.?\\s*р\\.?", Fin 1e3);
    (ustr "тыс\\.?\\s*руб\\.?", Fin 1e3);
    (ustr "тыс", Fin 1e3) ].

(** The indicators read as percentages. *)
Definition percentage_indicators : list string :=
  [ "roa"; "roe"; "net_interest_margin"; "cost_to_income_ratio";
    "non_performing_loan_ratio"; "capital_adequacy_ratio"; "churn_rate";
    "retention_rate"; "digital_penetration"; "mobile_penetration";
    "wallet_share"; "credit_cost"; "loan_loss_provision_coverage";
    "return_on_net_assets"; "return_on_average_total_assets";
    "return_on_net_assets_after_deducting_non_recurring" ].

(** The indicators assumed to be in billions when no unit is given. *)
Definition assumed_billions : list string :=
  [ "total_assets"; "loans_to_customers"; "deposits_from_customers";
    "net_income"; "operating_income" ].

(** [name in names]. *)
Definition in_list (name : string) (names : list string) : bool :=
  existsb (String.eqb name) names.

(** ** The local functions *)

(** The test on the text after the last comma:
    [parts[1].strip().isdigit() and len(parts[1].strip()) <= 3]. *)
Definition decimal_fraction (parts1 : ustring) : bool :=
  Str.isdigit (Str.strip parts1) && (length (Str.strip parts1) <=? 3)%nat.

(** "Handle Russian format: 1 234,56 -> 1234.56": the text handed to
    [float]. *)
Definition separators (val_str : ustring) : ustring :=
  if Str.contains_char Char.comma val_str then
    match Str.rsplit1 Char.comma val_str with
    | Some (parts0, parts1) =>
        if decimal_fraction parts1 then
          let integer_part :=
            Str.replace Char.nbsp [] (Str.replace Char.space [] parts0) in
          let decimal_part := Str.strip parts1 in
          integer_part ++ ustr "." ++ decimal_part
        else
          Str.replace Char.nbsp []
            (Str.replace Char.space [] (Str.replace Char.comma [] val_str))
    | None =>
        Str.replace Char.nbsp []
          (Str.replace Char.space [] (Str.replace Char.comma [] val_str))
    end
  else Str.replace Char.nbsp [] (Str.replace Char.space [] val_str).

(** The magnitude test on the parsed number. *)
Definition implausible (num : pyfloat) : bool :=
  (Py.abs num >? Fin 1e16)%py
  || (Py.abs num <? Fin 1e-6)%py && Py.neb num (Fin 0).

(** The text of a cell before the commas are looked at: non-breaking
    spaces replaced, stripped, "currency symbols and junk at the end" and
    "junk at the beginning" removed. *)
Definition cleaned (text : ustring) : ustring :=
  let val_str := Str.strip (Str.replace Char.nbsp (ustr " ") text) in
  let val_str := Re.sub_empty (ustr "[₽\$€%\s]+$") val_str false in
  Re.sub_empty (ustr "^[^\d\-\.]+") val_str false.

(** [parse_russian_number(value)]: "Convert Russian number format
    (1 234,56 -> 1234.56)". *)
Definition parse_russian_number (value : cell) : option pyfloat :=
  if Pd.isna value || Pd.eq_str value (ustr "") || Pd.eq_str value (ustr "-")
     || Pd.eq_str value (ustr "—") || Pd.eq_str value (ustr "–")
  then None
  else
    match value with
    | CNum x _ => if negb (Py.isna x) then Some x else None
    | _ =>
        let val_str := separators (cleaned (Pd.str value)) in
        match Float.of_str val_str with
        | Some num => if implausible num then None else Some num
        | None => None
        end
    end.

(** The loop over [unit_patterns] in [parse_number_with_unit]. *)
Fixpoint parse_with_units (patterns : list (ustring * pyfloat))
    (val_str : ustring) : option (pyfloat * pyfloat) :=
  match patterns with
  | [] => None
  | (pattern, multiplier) :: rest =>
      if Re.search pattern val_str true then
        (* Remove unit from string *)
        let clean_str := Str.strip (Re.sub_empty pattern val_str true) in
        match parse_russian_number (CStr clean_str) with
        | Some num => Some (num, multiplier)
        | None => parse_with_units rest val_str
        end
      else parse_with_units rest val_str
  end.

(** [parse_number_with_unit(value)]: "Parse number with unit from a single
    cell (e.g. '98,1 МЛРД РУБ')". *)
Definition parse_number_with_unit (value : cell)
  : option pyfloat * pyfloat :=
  if Pd.isna value || Pd.eq_str value (ustr "") || Pd.eq_str value (ustr "-")
     || Pd.eq_str value (ustr "—")
  then (None, Fin 1.0)
  else
    match value with
    | CStr s =>
        let val_str := Str.strip (Str.replace Char.nbsp (ustr " ") s) in
        (* Look for units in the string *)
        match parse_with_units unit_patterns val_str with
        | Some (num, multiplier) => (Some num, multiplier)
        | None =>
            (* If no unit - parse just the number *)
            (parse_russian_number (CStr val_str), Fin 1.0)
        end
    | CNum x _ => (if negb (Py.isna x) then Some x else None, Fin 1.0)
    | CNa => (None, Fin 1.0)
    end.

(** The multiplier of the first unit pattern found in [text]. *)
Fixpoint first_unit (patterns : list (ustring * pyfloat)) (text : ustring)
  : option pyfloat :=
  match patterns with
  | [] => None
  | (pattern, multiplier) :: rest =>
      if Re.search pattern text true then Some multiplier
      else first_unit rest text
  end.

Definition unit_in_cell (value : option cell) : option pyfloat :=
  match value with
  | Some (CStr s) => first_unit unit_patterns s
  | _ => None
  end.

(** [detect_units_in_context(row, col_idx)]: the cell itself, then the
    next cell, then the previous one. *)
Definition detect_units_in_context (row : Row) (col_idx : nat) : pyfloat :=
  match unit_in_cell (row !! col_idx) with
  | Some multiplier => multiplier
  | None =>
      match unit_in_cell (row !! (col_idx + 1)%nat) with
      | Some multiplier => multiplier
      | None =>
          match
            (if (1 <=? col_idx)%nat then unit_in_cell (row !! (col_idx - 1)%nat)
             else None)
          with
          | Some multiplier => multiplier
          | None => Fin 1.0
          end
      end
  end.

(** [is_table_header(row)]. *)
Definition is_table_header (row : Row) : bool :=
  match row with
  | [] => false
  | first :: _ =>
      if Pd.isna first then false
      else
        let first_cell := Str.lower (Str.strip (Pd.str first)) in
        Str.contains (ustr "таблица #") first_cell
  end.

(** ** The body of the loop over rows *)

(** The multiplier of the first upper-cased unit pattern found in
    [cell_upper], matched case-sensitively. *)
Fixpoint first_unit_upper (patterns : list (ustring * pyfloat))
    (cell_upper : ustring) : option pyfloat :=
  match patterns with
  | [] => None
  | (pattern, multiplier) :: rest =>
      if Re.search (Str.upper pattern) cell_upper false then Some multiplier
      else first_unit_upper rest cell_upper
  end.

(** "Look for units in the row": the cells from column [col_idx] on. *)
Fixpoint scan_units (cells : list cell) (col_idx : nat)
    (current_units : gmap nat pyfloat) : gmap nat pyfloat :=
  match cells with
  | [] => current_units
  | value :: rest =>
      let current_units :=
        match value with
        | CStr s =>
            let cell_upper := Str.strip (Str.upper s) in
            match first_unit_upper unit_patterns cell_upper with
            | Some multiplier => <[col_idx := multiplier]> current_units
            | None => current_units
            end
        | _ => current_units
        end in
      scan_units rest (S col_idx) current_units
  end.

(** "Get non-empty cells": the cells with more than one character, with
    their column. *)
Definition non_empty_cells (row : Row) : list (nat * cell) :=
  filter (fun entry : nat * cell =>
            Is_true
              (Pd.notna entry.2
               && negb (ustring_eqb (Str.strip (Pd.str entry.2)) (ustr ""))
               && (1 <? length (Str.strip (Pd.str entry.2)))%nat))
         (imap (fun i value => (i, value)) row).

(** "Combine first 1-3 cells into indicator name": the parts collected and
    [value_start_idx], which stays 0 when the loop ends without [break]. *)
Fixpoint indicator_loop (cells : list (nat * cell)) (i : nat)
    (indicator_parts : list ustring) : list ustring * nat :=
  match cells with
  | [] => (indicator_parts, 0%nat)
  | (_, value) :: rest =>
      let cell_str := Str.strip (Pd.str value) in
      if Re.match_ (ustr "^[\d\s\.,%\-]+$") cell_str
         || (length cell_str <? 3)%nat
      then (indicator_parts, i)
      else indicator_loop rest (S i) (indicator_parts ++ [cell_str])
  end.

(** The body of the loop over the value cells, for one cell. *)
Definition store_value (row : Row) (current_units : gmap nat pyfloat)
    (param_name : string) (financial_data : gmap string pyfloat)
    (entry : nat * cell) : gmap string pyfloat :=
  let '(col_idx, cell_value) := entry in
  (* Parse number with units from the cell itself *)
  match parse_number_with_unit cell_value with
  | (None, _) => financial_data
  | (Some num, inline_multiplier) =>
      (* Determine multiplier from context *)
      let context_multiplier :=
        get current_units col_idx (detect_units_in_context row col_idx) in
      (* Final multiplier *)
      let multiplier := (inline_multiplier * context_multiplier)%py in
      let is_percentage := in_list param_name percentage_indicators in
      if is_percentage then
        (* If value > 100 and no explicit units - it's not a percentage *)
        if (num >? Fin 100)%py && (multiplier ==? Fin 1.0)%py
        then financial_data
        else
          let final_value := num in
          <[param_name := final_value]> financial_data
      else
        (* For absolute values apply multiplier *)
        let final_value := (num * multiplier)%py in
        let final_value :=
          if in_list param_name assumed_billions
             && (final_value <? Fin 1e12)%py
             && (multiplier ==? Fin 1.0)%py
             && (num >? Fin 1)%py
          then (final_value * Fin 1e9)%py
          else final_value in
        (* Store the most accurate value (last one in table) *)
        <[param_name := final_value]> financial_data
  end.

(** "Look for pattern matches": the first indicator one of whose patterns
    is found in the name. *)
Definition match_indicator (indicator_name : ustring)
  : option (string * list ustring) :=
  List.find (fun entry : string * list ustring =>
               existsb (fun pattern => Re.search pattern indicator_name true)
                       entry.2)
            financial_patterns.

(** One iteration of [for idx in range(len(df))]. *)
Definition process_row (row : Row)
    (state : gmap nat pyfloat * gmap string pyfloat)
  : gmap nat pyfloat * gmap string pyfloat :=
  let '(current_units, financial_data) := state in
  (* Skip headers and empty rows *)
  if is_table_header row || forallb Pd.isna row then state
  else
    (* Look for units in the row (for all columns) *)
    let current_units := scan_units (take 10 row) 0 current_units in
    (* Get non-empty cells *)
    let non_empty := non_empty_cells row in
    if (length non_empty <? 2)%nat then (current_units, financial_data)
    else
      let '(indicator_parts, value_start_idx) :=
        indicator_loop (take 3 non_empty) 0 [] in
      match indicator_parts with
      | [] => (current_units, financial_data)
      | _ =>
          let indicator_name :=
            Str.lower (Str.join (ustr " ") indicator_parts) in
          match match_indicator indicator_name with
          | Some (param_name, _) =>
              (current_units,
               foldl (store_value row current_units param_name)
                     financial_data (drop value_start_idx non_empty))
          | None => (current_units, financial_data)
          end
      end.

(** One iteration of [for df in tables]. *)
Definition process_table (financial_data : gmap string pyfloat)
    (df : DataFrame) : gmap string pyfloat :=
  if Pd.too_small df then financial_data
  else (foldl (fun state row => process_row row state) (∅, financial_data) df).2.

(** [aggregate_financial_data(tables)]. *)
Definition aggregate_financial_data (tables : list DataFrame)
  : gmap string pyfloat :=
  foldl process_table (list_to_map financial_data_defaults) tables.

(* ===================================================================== *)
(** * [analytics/bsi.py] *)

(** Python's [min(a, b)] on two numbers: the first argument, unless the
    second is smaller. *)
Definition pymin (a b : pyfloat) : pyfloat :=
  if (b <? a)%py then b else a.

Module Bsi.

Section Thresholds.

(** [RATIO_THRESHOLDS] is imported from
    [banking_analysis_platform.config.patterns], which is not among the
    sources: the table is a parameter of this section. *)
Variable RATIO_THRESHOLDS : gmap string (pyfloat * pyfloat).

(** The dictionary [weights], in declaration order. *)
Definition weights : list (string * pyfloat) :=
  [ ("capital_adequacy_ratio", Fin 0.20);
    ("instant_liquidity_ratio", Fin 0.15);
    ("current_liquidity_ratio", Fin 0.15);
    ("roe", Fin 0.15);
    ("roa", Fin 0.15);
    ("net_interest_margin", Fin 0.10);
    ("non_performing_loan_ratio", Fin 0.10) ].

(** The body of the first loop: the score of one ratio name. *)
Definition score_of (ratios : gmap string (pyfloat * string))
    (ratio_name : string) : result pyfloat :=
  match ratios !! ratio_name with
  | Some (ratio_value, _) =>
      if String.eqb ratio_name "non_performing_loan_ratio" then
        (* For problem loans, lower is better (reverse scoring) *)
        let* (min_thr, max_thr) := getitem RATIO_THRESHOLDS ratio_name in
        normalize_score ratio_value min_thr max_thr true
      else
        (* For other ratios, higher is better *)
        match RATIO_THRESHOLDS !! ratio_name with
        | Some (min_thr, max_thr) =>
            normalize_score ratio_value min_thr max_thr false
        | None =>
            (* Default normalization if threshold not defined *)
            Ok (if (ratio_value >=? Fin 0)%py
                then pymin ratio_value (Fin 1.0)
                else Fin 0.0)
        end
  | None =>
      (* Default to 0 if ratio not calculated *)
      Ok (Fin 0.0)
  end.

(** The first loop, over [weights.keys()]. *)
Fixpoint normalize_all (names : list string)
    (ratios : gmap string (pyfloat * string))
    (normalized_scores : gmap string pyfloat)
  : result (gmap string pyfloat) :=
  match names with
  | [] => Ok normalized_scores
  | ratio_name :: rest =>
      let* score := score_of ratios ratio_name in
      normalize_all rest ratios (<[ratio_name := score]> normalized_scores)
  end.

(** The second loop, over [weights.items()]: the pair
    [(bsi, total_weight)]. *)
Fixpoint weighted_sum (ws : list (string * pyfloat))
    (normalized_scores : gmap string pyfloat) (acc : pyfloat * pyfloat)
  : result (pyfloat * pyfloat) :=
  match ws with
  | [] => Ok acc
  | (ratio_name, weight) :: rest =>
      let* score := getitem normalized_scores ratio_name in
      weighted_sum rest normalized_scores
        (acc.1 + score * weight, acc.2 + weight)%py
  end.

Definition interpretation (bsi : pyfloat) : string :=
  if (bsi >=? Fin 0.8)%py then
    "Отличная устойчивость: " +:+ format_2f bsi +:+ "/1.00"
  else if (bsi >=? Fin 0.6)%py then
    "Хорошая устойчивость: " +:+ format_2f bsi +:+ "/1.00"
  else if (bsi >=? Fin 0.4)%py then
    "Удовлетворительная устойчивость: " +:+ format_2f bsi +:+ "/1.00"
  else if (bsi >=? Fin 0.2)%py then
    "Пониженная устойчивость: " +:+ format_2f bsi +:+ "/1.00"
  else
    "Критическая устойчивость: " +:+ format_2f bsi +:+ "/1.00".

(** [calculate_bsi(financial_data, ratios)]; the first argument is not
    read. *)
Definition calculate_bsi (financial_data : gmap string pyfloat)
    (ratios : gmap string (pyfloat * string)) : result (pyfloat * string) :=
  let* normalized_scores := normalize_all (weights.*1) ratios ∅ in
  let* (bsi, total_weight) :=
    weighted_sum weights normalized_scores (Fin 0.0, Fin 0.0) in
  let* bsi :=
    if (total_weight >? Fin 0)%py then (bsi / total_weight)%py
    else Ok (Fin 0.0) in
  Ok (bsi, interpretation bsi).

End Thresholds.

End Bsi.

(* ===================================================================== *)
(** * [banking_analysis_platform/app.py] *)

(** [get_status_emoji(bsi_score)]. *)
Definition get_status_emoji (bsi_score : pyfloat) : string :=
  if (bsi_score >=? Fin 0.8)%py then "🟢 Отлично"
  else if (bsi_score >=? Fin 0.6)%py then "🟢 Хорошо"
  else if (bsi_score >=? Fin 0.4)%py then "🟡 Удовл."
  else if (bsi_score >=? Fin 0.2)%py then "🟠 Риск"
  else "🔴 Критично".

(** Steps 4 and 5 of [main], for one uploaded report: the seven ratios of
    the calculator as a dictionary, and the index of [analytics/bsi.py]
    computed from them.  The two entries [bank_name] and [year] that
    [main] adds to the record are not numbers and are read by neither of
    the two functions. *)
Definition ratios_and_bsi (RATIO_THRESHOLDS : gmap string (pyfloat * pyfloat))
    (financial_data : gmap string pyfloat) : result (pyfloat * string) :=
  let calculator := init financial_data in
  let* ratios := calculate_all_ratios calculator in
  Bsi.calculate_bsi RATIO_THRESHOLDS financial_data (list_to_map ratios).

(** Steps 3 to 5: the record is the one aggregated from the tables. *)
Definition analyse (RATIO_THRESHOLDS : gmap string (pyfloat * pyfloat))
    (tables : list DataFrame) : result (pyfloat * string) :=
  let financial_data := aggregate_financial_data tables in
  ratios_and_bsi RATIO_THRESHOLDS financial_data.

(* ===================================================================== *)
(** * [src/config.py]: the account and indicator tables *)

(** Balance sheet key items mapping for simplified identification. *)
Definition BALANCE_SHEET_ITEMS : gmap string (list ustring) :=
  list_to_map [
    ("total_assets",
      [ ustr "11000";
        ustr "11100";
        ustr "11200";
        ustr "11300";
        ustr "11400";
        ustr "11500";
        ustr "11600";
        ustr "11700";
        ustr "11800";
        ustr "11900" ]);
    ("total_liabilities",
      [ ustr "21000";
        ustr "21100";
        ustr "21200";
        ustr "21300";
        ustr "21400";
        ustr "21500";
        ustr "21600";
        ustr "21700";
        ustr "21800";
        ustr "21900" ]);
    ("equity",
      [ ustr "20801";
        ustr "20901";
        ustr "21001";
        ustr "21101" ]);
    ("cash_and_equivalents",
      [ ustr "10101";
        ustr "10202";
        ustr "10302" ]);
    ("loans_to_customers",
      [ ustr "11601";
        ustr "11602";
        ustr "11603" ]);
    ("deposits_from_customers",
      [ ustr "20202";
        ustr "20203";
        ustr "20204";
        ustr "20301" ])
  ].

(** Digital banking indicators mapping, in the order [items()] walks
    it in. *)
Definition DIGITAL_BANKING_INDICATORS : list (string * list ustring) :=
  [
    ("number_corporate_online_banking_customers",
      [ ustr "Количество корпоративных клиентов интернет-банка";
        ustr "Число корпоративных клиентов онлайн-банкинга";
        ustr "Corporate Online Banking Users";
        ustr "Number of Corporate Online Banking Customers" ]);
    ("number_personal_online_banking_customers",
      [ ustr "Количество частных клиентов интернет-банка";
        ustr "Число частных клиентов онлайн-банкинга";
        ustr "Personal Online Banking Users";
        ustr "Number of Personal Online Banking Customers" ]);
    ("number_mobile_banking_customers",
      [ ustr "Количество пользователей мобильного банкинга";
        ustr "Mobile Banking Users";
        ustr "Number of Mobile Banking Customers" ]);
    ("number_telephone_banking_customers",
      [ ustr "Количество клиентов телефонного банкинга";
        ustr "Telephone Banking Users";
        ustr "Number of Telephone Banking Customers" ]);
    ("transaction_amount_corporate_online_banking",
      [ ustr "Объем транзакций корпоративного онлайн-банкинга";
        ustr "Transaction amount of corporate online banking" ]);
    ("transaction_amount_personal_online_banking",
      [ ustr "Объем транзакций частного онлайн-банкинга";
        ustr "Transaction amount of personal online banking" ]);
    ("transaction_amount_mobile_banking",
      [ ustr "Объем транзакций мобильного банкинга";
        ustr "Transaction amount of mobile banking" ]);
    ("transaction_amount_self_service_banking",
      [ ustr "Объем транзакций через устройства самообслуживания";
        ustr "Transaction amount of self-service banking" ]);
    ("ebanking_transaction_volume",
      [ ustr "Объем электронных транзакций";
        ustr "Bank's e-banking transaction volume reached" ]);
    ("ebanking_substitution_ratio",
      [ ustr "Доля электронных каналов в общем количестве операций";
        ustr "The substitution ratio of e-banking channels for traditional" ]);
    ("customer_satisfaction_level",
      [ ustr "Уровень удовлетворенности клиентов";
        ustr "Customer satisfaction level" ]);
    ("number_mobile_cash_agents",
      [ ustr "Количество агентов мобильного снятия наличных";
        ustr "the number of mobile cash withdrawal agents" ]);
    ("monthly_active_mobile_banking_customers",
      [ ustr "Количество активных пользователей мобильного банка в месяц";
        ustr "Monthly active mobile banking customers" ])
  ].

(** Financial performance indicators mapping. *)
Definition FINANCIAL_PERFORMANCE_INDICATORS : list (string * list ustring) :=
  [
    ("operating_income",
      [ ustr "Выручка от основной деятельности";
        ustr "Operating income";
        ustr "Operating income (RMB Million)" ]);
    ("operating_profit",
      [ ustr "Операционная прибыль";
        ustr "Operating profit";
        ustr "Operating profit (RMB Million)" ]);
    ("profit_for_the_year",
      [ ustr "Прибыль за год";
        ustr "Profit for the year";
        ustr "Profit for the year (RMB Million)" ]);
    ("eps_basic",
      [ ustr "EPS (базовая)";
        ustr "EPS (basic) (RMB)" ]);
    ("roa",
      [ ustr "ROA (%)";
        ustr "Return on Assets (%)" ]);
    ("roe",
      [ ustr "ROE (%)";
        ustr "Return on Equity (%)" ]);
    ("net_interest_margin",
      [ ustr "Чистая процентная маржа (%)";
        ustr "Net interest margin (%)" ]);
    ("cost_to_income_ratio",
      [ ustr "Соотношение расходов к доходам (%)";
        ustr "Cost to income (calculated under domestic regulations) (%)" ]);
    ("non_interest_income_ratio",
      [ ustr "Доля прочих доходов в операционных доходах (%)";
        ustr "Non-interest income to operating income (%)" ]);
    ("credit_cost",
      [ ustr "Кредитные издержки (%)";
        ustr "Credit cost (%)" ]);
    ("non_performing_loan_ratio",
      [ ustr "Доля просроченных кредитов (%)";
        ustr "Non-performing loans to total loans (%)" ]);
    ("loan_loss_provision_coverage",
      [ ustr "Покрытие просроченных кредитов резервами (%)";
        ustr "Allowance for loan impairment losses to non-performing loans (%)" ]);
    ("total_deposits",
      [ ustr "Общие депозиты";
        ustr "Total Deposits" ]);
    ("total_loans",
      [ ustr "Общие кредиты";
        ustr "Total Loan" ]);
    ("non_performing_loans_balance",
      [ ustr "Баланс просроченных кредитов";
        ustr "Balance of Non-performing Loans" ]);
    ("interest_earning_assets",
      [ ustr "Процентные активы";
        ustr "Interest-earning Assets" ]);
    ("interest_bearing_liabilities",
      [ ustr "Процентные обязательства";
        ustr "Interest-bearing Liabilities" ]);
    ("net_interest_spread",
      [ ustr "Процентный спред";
        ustr "Net Interest Spread" ]);
    ("net_interest_margin_detailed",
      [ ustr "Чистая процентная маржа (подробно)";
        ustr "Net Interest Margin" ]);
    ("interbank_assets",
      [ ustr "Межбанковские активы";
        ustr "Interbank Assets" ]);
    ("interbank_liabilities",
      [ ustr "Межбанковские обязательства";
        ustr "Interbank Liabilities" ]);
    ("equity_to_debt_ratio",
      [ ustr "Соотношение собственного капитала к заемному";
        ustr "Ratio of Equity to Debt" ]);
    ("retained_earnings_to_total_assets",
      [ ustr "Соотношение нераспределенной прибыли к активам";
        ustr "Ratio of Retained Earnings to Total Assets" ]);
    ("ebit_to_total_assets",
      [ ustr "Соотношение прибыли до вычета процентов и налогов к активам";
        ustr "Ratio of Earnings before Interest And Taxes to Total Assets" ]);
    ("total_assets_turnover",
      [ ustr "Оборачиваемость активов";
        ustr "Total Assets Turnover" ]);
    ("return_on_net_assets",
      [ ustr "Рентабельность чистых активов";
        ustr "Weighted Average Return on Net Assets" ]);
    ("return_on_average_total_assets",
      [ ustr "Рентабельность средних активов";
        ustr "Return on Average Total Assets" ]);
    ("return_on_net_assets_after_deducting_non_recurring",
      [ ustr "Рентабельность чистых активов после исключения разовых факторов";
        ustr "Weighted Average Return on Net Assets after Deducting Non-Recurring Profit and Loss" ]);
    ("interbank_assets_to_interest_earning_assets",
      [ ustr "Соотношение межбанковских активов к процентным активам";
        ustr "Ratio of Interbank Assets to Interest-earning Assets" ]);
    ("deposits_to_interest_bearing_liabilities",
      [ ustr "Соотношение депозитов к процентным обязательствам";
        ustr "Ratio of Deposits to Interest-bearing Liabilities" ]);
    ("interbank_liabilities_to_interest_bearing_liabilities",
      [ ustr "Соотношение межбанковских обязательств к процентным обязательствам";
        ustr "Ratio of Interbank Liabilities to Interest-bearing Liabilities" ])
  ].

(* ===================================================================== *)
(** * [src/magic_pdf_parser.py] *)

(** A [for] loop whose body may raise. *)
Fixpoint for_each {A S : Type} (body : S -> A -> result S) (xs : list A)
    (s : S) : result S :=
  match xs with
  | [] => Ok s
  | x :: xs' => let* s' := body s x in for_each body xs' s'
  end.

(** [code in codes] for a list of strings. *)
Definition code_in (code : ustring) (codes : list ustring) : bool :=
  existsb (ustring_eqb code) codes.

Module Magic.

(** [clean_number(value)] on a string; [None] is Python's [None].  The
    pattern of the [re.sub] is [[^\d.-]]: a set that ends in a hyphen
    takes it literally, and it is given here in parsed form. *)
Definition clean_number (value : ustring) : option pyfloat :=
  if bool_decide (value = [])
     || code_in (Str.lower value)
          [ ustr "-"; ustr "—"; ustr "n/a"; ustr "nan" ]
  then None
  else
    (* Remove extra spaces and special characters *)
    let cleaned :=
      Str.replace Char.comma (ustr ".")
        (Str.replace Char.space [] (Str.strip value)) in
    (* Handle common formatting issues *)
    let cleaned :=
      Re.remove_from false
        [ Re.Atom (Re.ASet true [ Re.SClass Re.Digit; Re.SLit Char.dot;
                                  Re.SLit Char.minus ]) Re.Once ]
        true O cleaned in
    Float.of_str cleaned.

(** A row of an extracted table: the columns [account_code] (a string)
    and [amount] (a number).  A table is the list of its rows, and the
    dictionary [tables] the list of its items, in insertion order. *)
Definition AccountRow : Type := ustring * pyfloat.
Definition AccountTable : Type := list AccountRow.

(** [tables[name]], [None] when [name not in tables]. *)
Fixpoint table_of (tables : list (string * AccountTable)) (name : string)
  : option AccountTable :=
  match tables with
  | [] => None
  | (table_name, table_df) :: rest =>
      if String.eqb table_name name then Some table_df
      else table_of rest name
  end.

(** One of the two loops over an indicator table in the last part of
    [aggregate_financial_data]: the first pattern found in the code sets
    the indicator and ends the inner loop. *)
Definition set_indicators (indicators : list (string * list ustring))
    (code : ustring) (amount : pyfloat) (aggregated : gmap string pyfloat)
  : gmap string pyfloat :=
  foldl (fun aggregated '(indicator_name, patterns) =>
           if existsb (fun pattern =>
                         Str.contains (Str.lower pattern) (Str.lower code))
                patterns
           then <[indicator_name := amount]> aggregated
           else aggregated)
        aggregated indicators.

(** The balance-sheet part. *)
Definition balance_sheet_part (bs_df : AccountTable)
    (aggregated : gmap string pyfloat) : result (gmap string pyfloat) :=
  (* Calculate total assets *)
  let* total_assets :=
    for_each (fun total_assets '(code, amount) =>
                if negb (Py.isna amount) then
                  if Str.starts_with (ustr "1") code then
                    Ok (total_assets + amount)%py
                  else
                    let* codes := getitem BALANCE_SHEET_ITEMS "total_assets" in
                    if code_in code codes then Ok (total_assets + amount)%py
                    else Ok total_assets
                else Ok total_assets)
             bs_df (Fin 0) in
  let aggregated := <["total_assets" := total_assets]> aggregated in
  (* Calculate total liabilities *)
  let* total_liabilities :=
    for_each (fun total_liabilities '(code, amount) =>
                if negb (Py.isna amount) then
                  if Str.starts_with (ustr "2") code then
                    Ok (total_liabilities + amount)%py
                  else
                    let* codes :=
                      getitem BALANCE_SHEET_ITEMS "total_liabilities" in
                    if code_in code codes then
                      Ok (total_liabilities + amount)%py
                    else Ok total_liabilities
                else Ok total_liabilities)
             bs_df (Fin 0) in
  let aggregated := <["total_liabilities" := total_liabilities]> aggregated in
  (* Calculate equity *)
  let aggregated :=
    <["equity" := (get aggregated "total_assets" (Fin 0)
                   - get aggregated "total_liabilities" (Fin 0))%py]>
      aggregated in
  (* Calculate cash and equivalents *)
  let cash_equivalents :=
    foldl (fun cash_equivalents '(code, amount) =>
             if negb (Py.isna amount)
                && code_in code
                     (get BALANCE_SHEET_ITEMS "cash_and_equivalents" [])
             then (cash_equivalents + amount)%py
             else cash_equivalents)
          (Fin 0) bs_df in
  let aggregated := <["cash_and_equivalents" := cash_equivalents]> aggregated in
  (* Calculate loans to customers *)
  let loans :=
    foldl (fun loans '(code, amount) =>
             if negb (Py.isna amount)
                && code_in code
                     (get BALANCE_SHEET_ITEMS "loans_to_customers" [])
             then (loans + amount)%py
             else loans)
          (Fin 0) bs_df in
  Ok (<["loans_to_customers" := loans]> aggregated).

(** The income-statement part. *)
Definition income_statement_part (is_df : AccountTable)
    (aggregated : gmap string pyfloat) : gmap string pyfloat :=
  (* Calculate net interest income *)
  let '(interest_income, interest_expense) :=
    foldl (fun '(interest_income, interest_expense) '(code, amount) =>
             if negb (Py.isna amount) then
               if code_in code [ ustr "70601" ] then
                 ((interest_income + amount)%py, interest_expense)
               else if code_in code [ ustr "70602" ] then
                 (interest_income, (interest_expense + amount)%py)
               else if code_in code [ ustr "70701" ] then
                 ((interest_income + amount)%py, interest_expense)
               else if code_in code [ ustr "70702" ] then
                 (interest_income, (interest_expense + amount)%py)
               else (interest_income, interest_expense)
             else (interest_income, interest_expense))
          (Fin 0, Fin 0) is_df in
  let aggregated :=
    <["net_interest_income" := (interest_income - interest_expense)%py]>
      aggregated in
  (* Calculate net income *)
  let net_income :=
    foldl (fun net_income '(code, amount) =>
             if negb (Py.isna amount) then (net_income + amount)%py
             else net_income)
          (Fin 0) is_df in
  <["net_income" := net_income]> aggregated.

(** The last part: the indicators of every other table. *)
Definition indicators_part (tables : list (string * AccountTable))
    (aggregated : gmap string pyfloat) : gmap string pyfloat :=
  foldl (fun aggregated '(table_name, table_df) =>
           if negb (String.eqb table_name "balance_sheet")
              && negb (String.eqb table_name "income_statement")
           then
             foldl (fun aggregated '(code, amount) =>
                      if negb (Py.isna amount) then
                        set_indicators FINANCIAL_PERFORMANCE_INDICATORS
                          code amount
                          (set_indicators DIGITAL_BANKING_INDICATORS
                             code amount aggregated)
                      else aggregated)
                   aggregated table_df
           else aggregated)
        aggregated tables.

(** [aggregate_financial_data(tables)]. *)
Definition aggregate_financial_data (tables : list (string * AccountTable))
  : result (gmap string pyfloat) :=
  let aggregated : gmap string pyfloat := ∅ in
  (* Process balance sheet data *)
  let* aggregated :=
    match table_of tables "balance_sheet" with
    | Some bs_df => balance_sheet_part bs_df aggregated
    | None => Ok aggregated
    end in
  (* Process income statement data *)
  let aggregated :=
    match table_of tables "income_statement" with
    | Some is_df => income_statement_part is_df aggregated
    | None => aggregated
    end in
  (* Add digital banking indicators to aggregated data *)
  Ok (indicators_part tables aggregated).

End Magic.

(** [banking_analysis_platform/main_app.py], from the extracted tables to
    the calculator: [None] where [main] reports an error and returns (no
    table, or an empty record). *)
Definition main_app_calculator (tables : list (string * Magic.AccountTable))
  : result (option BankingRatiosCalculator) :=
  match tables with
  | [] => Ok None
  | _ =>
      let* financial_data := Magic.aggregate_financial_data tables in
      if bool_decide (financial_data = ∅) then Ok None
      else Ok (Some (init financial_data))
  end.

(* ===================================================================== *)
(** * [core/pdf_processor.py] *)

(** The same two functions, character for character, are in
    [core/pdf_extractor.py]. *)
Module PdfProcessor.

Definition carriage_return : N := 0x0D.

(** [clean_cell(value)]; [np.nan] is the missing cell. *)
Definition clean_cell (value : cell) : cell :=
  if Pd.isna value || Pd.eq_str value (ustr "")
     || ustring_eqb (Str.strip (Pd.str value)) (ustr "")
  then CNa
  else
    match value with
    | CStr s =>
        let value :=
          Str.strip
            (Str.replace carriage_return (ustr " ")
               (Str.replace Char.newline (ustr " ")
                  (Str.replace Char.nbsp (ustr " ") s))) in
        match value with
        | [] => CNa
        | _ => CStr value
        end
    | _ => value
    end.

(** [df.shape[0]] and [df.shape[1]], of a table with at least one row. *)
Definition rows (df : DataFrame) : nat := length df.

Definition columns (df : DataFrame) : nat :=
  match df with
  | [] => 0
  | row :: _ => length row
  end.

(** [df.empty]: no row, or no column. *)
Definition empty (df : DataFrame) : bool :=
  match df with
  | [] => true
  | row :: _ => (length row =? 0)%nat
  end.

(** The number of cells of [df] that satisfy [p]:
    [p(df).sum().sum()]. *)
Definition count_cells (p : cell -> bool) (df : DataFrame) : nat :=
  foldr (fun row n => (length (List.filter p row) + n)%nat) 0%nat df.

Section IsValidTable.

(** [pd.to_numeric(value, errors='coerce')] is not NaN: the cell reads
    as a number.  pandas' own parser of numbers is not modelled; the
    test is a parameter. *)
Variable to_numeric_notna : cell -> bool.

(** [is_valid_table(df, min_rows=3, min_cols=2)]. *)
Definition is_valid_table (df : DataFrame) (min_rows min_cols : nat) : bool :=
  if empty df || (rows df <? min_rows)%nat || (columns df <? min_cols)%nat
  then false
  else
    let fill_ratio :=
      Fin (inject_Z (Z.of_nat (count_cells Pd.notna df))
           / inject_Z (Z.of_nat (rows df * columns df)))%Q in
    if (fill_ratio <? Fin 0.3)%py then false
    else
      let numeric_cells := count_cells to_numeric_notna df in
      if (numeric_cells <? 2)%nat && (columns df <? 3)%nat then false
      else true.

End IsValidTable.

End PdfProcessor.

(* ===================================================================== *)
(** * [utils/validators.py] *)

Module Validators.

(** The values of a record read here: [None], a number ([int] or
    [float]) or a string. *)
Inductive pyval : Type :=
  | VNone
  | VNum (x : pyfloat)
  | VStr (s : ustring).

(** The body of the loop over [required_fields]. *)
Definition check_field (data : gmap string pyval) (errors : list string)
    (field : string) : list string :=
  match data !! field with
  | None => errors ++ [ "Missing required field: " +:+ field ]
  | Some VNone =>
      errors ++ [ "Field '" +:+ field +:+ "' has invalid value: None" ]
  | Some (VNum x) =>
      if Py.isna x then
        errors ++ [ "Field '" +:+ field +:+ "' has invalid value: nan" ]
      else errors
  | Some (VStr _) =>
      errors ++ [ "Field '" +:+ field
                  +:+ "' should be numeric, got <class 'str'>" ]
  end.

(** [value < 0] and [abs(value) > 1e15]: [None] stands for the
    [TypeError] Python raises when [value] is [None] or a string. *)
Definition negative (value : pyval) : option bool :=
  match value with
  | VNum x => Some (x <? Fin 0)%py
  | _ => None
  end.

Definition unreasonably_large (value : pyval) : option bool :=
  match value with
  | VNum x => Some (Py.abs x >? Fin 1e15)%py
  | _ => None
  end.

(** One of the three range checks: [if field in data and test: ...]. *)
Definition range_check (data : gmap string pyval) (field : string)
    (test : pyval -> option bool) (message : string) (errors : list string)
  : option (list string) :=
  match data !! field with
  | None => Some errors
  | Some value =>
      match test value with
      | Some true => Some (errors ++ [ message ])
      | Some false => Some errors
      | None => None
      end
  end.

(** [validate_financial_data(data)]: the list of errors, or [None] for a
    [TypeError]. *)
Definition validate_financial_data (data : gmap string pyval)
  : option (list string) :=
  let errors : list string := [] in
  (* Check required fields *)
  let required_fields : list string :=
    [ "total_assets"; "total_liabilities"; "equity";
      "net_income"; "cash_and_equivalents"; "loans_to_customers" ] in
  let errors := foldl (check_field data) errors required_fields in
  (* Validate numerical ranges *)
  match range_check data "total_assets" negative
          "total_assets should be non-negative" errors with
  | None => None
  | Some errors =>
      match range_check data "equity" negative
              "equity should be non-negative" errors with
      | None => None
      | Some errors =>
          range_check data "net_income" unreasonably_large
            "net_income seems unreasonably large" errors
      end
  end.

End Validators.

(* ===================================================================== *)
(** * The specification's words, and its scenarios *)

(** The specification's test for a decimal comma: what follows the comma
    is a run of 1 to 3 digits (and nothing else). *)
Definition spec_fraction_digits (rest : ustring) : Prop :=
  (1 <= length rest <= 3)%nat /\ Forall (fun c => Char.isdigit c = true) rest.

(** End-to-end scenario 1: a table with the row
    ["Итого активов", "1 234,5 МЛРД РУБ"]. *)
Definition scenario_total_assets : DataFrame :=
  [ [ CStr (ustr "Итого активов"); CStr (ustr "1 234,5 МЛРД РУБ") ] ].

(** End-to-end scenario 2: a table with the row ["ROE (%)", "120"]. *)
Definition scenario_roe : DataFrame :=
  [ [ CStr (ustr "ROE (%)"); CStr (ustr "120") ] ].

(* ===================================================================== *)
(** * Predicates used in the statements *)

(** A finite number of [[0, u]], or NaN where [nan_ok] allows it. *)
Definition bounded (nan_ok : bool) (u : Q) (x : pyfloat) : Prop :=
  (nan_ok = true /\ x = NaN) \/ exists q, x = Fin q /\ (0 <= q <= u)%Q.

(** A normalized score: a finite number of [[0, 1]], or NaN where
    [nan_ok] allows it. *)
Definition score_ok (nan_ok : bool) (x : pyfloat) : Prop := bounded nan_ok 1 x.

(** Every pair of a threshold table is a pair of finite numbers. *)
Definition finite_thresholds (t : gmap string (pyfloat * pyfloat)) : Prop :=
  forall k a b, t !! k = Some (a, b) -> exists qa qb, a = Fin qa /\ b = Fin qb.

(** What is known of the score [x] that [analytics/bsi.py] gives the
    ratio [ratio_name]. *)
Definition score_fact (thresholds : gmap string (pyfloat * pyfloat))
    (ratios : gmap string (pyfloat * string)) (ratio_name : string)
    (x : pyfloat) : Prop :=
  score_ok true x
  /\ (finite_thresholds thresholds -> score_ok false x)
  /\ (ratios !! ratio_name = None -> x = Fin 0.0).

(** 1 when the dictionary [ratios] has the key, 0 when it has not. *)
Definition present (ratios : gmap string (pyfloat * string))
    (ratio_name : string) : Q :=
  match ratios !! ratio_name with Some _ => 1 | None => 0 end.

(** The sum a loop of [magic_pdf_parser.aggregate_financial_data] builds
    from [acc]: the amounts that are not NaN, of the rows whose code
    satisfies [p]. *)
Definition sum_if (p : ustring -> bool) (df : Magic.AccountTable)
    (acc : pyfloat) : pyfloat :=
  foldl (fun total '(code, amount) =>
           if negb (Py.isna amount) && p code then (total + amount)%py
           else total)
        acc df.

(** The seven keys the balance-sheet and income-statement parts write. *)
Definition magic_aggregates : list string :=
  [ "total_assets"; "total_liabilities"; "equity"; "cash_and_equivalents";
    "loans_to_customers"; "net_interest_income"; "net_income" ].

(** What the balance-sheet part adds to the record: the sums over the
    codes that start with 1 and with 2, their difference, and the sums
    over the cash and the loan codes. *)
Definition balance_sheet_record (bs_df : Magic.AccountTable)
    (aggregated : gmap string pyfloat) : gmap string pyfloat :=
  <["loans_to_customers" :=
      sum_if (fun code =>
                code_in code [ ustr "11601"; ustr "11602"; ustr "11603" ])
        bs_df (Fin 0)]>
    (<["cash_and_equivalents" :=
         sum_if (fun code =>
                   code_in code [ ustr "10101"; ustr "10202"; ustr "10302" ])
           bs_df (Fin 0)]>
      (<["equity" :=
           (sum_if (Str.starts_with (ustr "1")) bs_df (Fin 0)
            - sum_if (Str.starts_with (ustr "2")) bs_df (Fin 0))%py]>
        (<["total_liabilities" :=
             sum_if (Str.starts_with (ustr "2")) bs_df (Fin 0)]>
          (<["total_assets" :=
               sum_if (Str.starts_with (ustr "1")) bs_df (Fin 0)]>
            aggregated)))).

(** The alphabet on which the character classes are Python's: Basic
    Latin, the Cyrillic letters U+0400 to U+045F and white space. *)
Definition in_alphabet (c : N) : bool :=
  ((c <? 0x80) || (0x400 <=? c) && (c <=? 0x45F))%N || Char.isspace c.

(** What [clean_number] keeps of one character: a comma as a full stop,
    a digit, a full stop and a hyphen as they are, nothing of any
    other. *)
Definition keep_char (c : N) : ustring :=
  if (c =? Char.comma)%N then [ Char.dot ]
  else if Char.isdigit c || (c =? Char.dot)%N || (c =? Char.minus)%N
       then [ c ]
       else [].

Definition kept (value : ustring) : ustring := flat_map keep_char value.

(** The record has the field, and its value is no number. *)
Definition not_a_number (data : gmap string Validators.pyval)
    (field : string) : bool :=
  match data !! field with
  | Some (Validators.VNum _) | None => false
  | Some _ => true
  end.

(** The label of a row: the indicator name [process_row] builds from the
    first one to three non-empty cells. *)
Definition row_label (row : Row) : ustring :=
  Str.lower
    (Str.join (ustr " ")
       (indicator_loop (take 3 (non_empty_cells row)) 0 []).1).

(** One of the patterns of the entry is found in the name (the [any] of
    the loop over [financial_patterns]). *)
Definition entry_matches (indicator_name : ustring)
    (entry : string * list ustring) : bool :=
  existsb (fun pattern => Re.search pattern indicator_name true) entry.2.

(** Every pair of a threshold table is a pair of finite numbers of
    magnitude at most 1e300: their differences are within the range of a
    double. *)
Definition bounded_thresholds (t : gmap string (pyfloat * pyfloat)) : Prop :=
  forall k a b,
    t !! k = Some (a, b) ->
    exists qa qb, a = Fin qa /\ b = Fin qb
                  /\ (Qabs qa <= 1e300)%Q /\ (Qabs qb <= 1e300)%Q.

(* ===================================================================== *)
(** * Tactics *)

(** Turns every boolean test on rationals in the goal and the context into
    the order fact it decides. *)
Ltac qtests :=
  repeat match goal with
    | H : negb _ = true |- _ => apply negb_true_iff in H
    | H : negb _ = false |- _ => apply negb_false_iff in H
    | H : Qle_bool _ _ = true |- _ => apply Qle_bool_iff in H
    | H : Qle_bool ?a ?b = false |- _ =>
        let Hlt := fresh "Hlt" in
        let Hle := fresh "Hle" in
        assert (Hlt : (b < a)%Q)
          by (apply Qnot_le_lt; intros Hle; apply Qle_bool_iff in Hle;
              congruence);
        clear H
    | H : Qeq_bool _ _ = true |- _ => apply Qeq_bool_iff in H
    | H : Qeq_bool _ _ = false |- _ => apply Qeq_bool_neq in H
    | |- context [Qle_bool ?a ?b] => destruct (Qle_bool a b) eqn:?
    | |- context [Qeq_bool ?a ?b] => destruct (Qeq_bool a b) eqn:?
    end.

Ltac py_cases x := destruct x as [ | [ | ] | ? ].


(** One of the seven ratio functions, unfolded: the guard on the
    denominator, the division it protects, the thresholds [thr]. *)
Ltac ratio_total thr :=
  match goal with
  | |- context [(?d ==? Fin 0)%py] =>
      let Hz := fresh "Hz" in
      destruct (d ==? Fin 0)%py eqn:Hz; [ eauto | ];
      unfold Py.div; rewrite Hz;
      cbn [bind]; rewrite thr; cbn [bind]; eauto
  end.

(** Case analysis on the comparisons of code points in the goal. *)
Ltac ncases :=
  repeat match goal with
    | |- context [(?a =? ?b)%N] => destruct (N.eqb_spec a b)
    | |- context [(?a <=? ?b)%N] => destruct (N.leb_spec a b)
    end;
  cbn [andb orb negb]; try reflexivity; try lia.

(* ===================================================================== *)
(** * The model of the library functions, on examples

    What CPython 3.11 answers for the built-in functions the source
    calls, on a few inputs. *)

Example float_examples :
  Float.of_str (ustr "1234.56") = Some (Fin 1234.56)
  /\ Float.of_str (ustr "1_000") = Some (Fin 1000)
  /\ Float.of_str (ustr "1__0") = None
  /\ Float.of_str (ustr " 12 ") = Some (Fin 12)
  /\ Float.of_str (ustr ".5") = Some (Fin 0.5)
  /\ Float.of_str (ustr "1e5") = Some (Fin 100000)
  /\ Float.of_str (ustr "-inf") = Some (Inf true)
  /\ Float.of_str (ustr "-nan") = Some NaN
  /\ Float.of_str (ustr "") = None
  /\ Float.of_str (ustr "12345РУБ") = None.
Proof. repeat split; vm_compute; reflexivity. Qed.

Example str_examples :
  Str.strip (ustr " a" ++ [Char.nbsp]) = ustr "a"
  /\ Str.lower (ustr "Таблица #1") = ustr "таблица #1"
  /\ Str.upper (ustr "итого") = ustr "ИТОГО"
  /\ Str.rsplit1 Char.comma (ustr "1 234,56") = Some (ustr "1 234", ustr "56")
  /\ Str.rsplit1 Char.comma (ustr "a,b,c") = Some (ustr "a,b", ustr "c")
  /\ Str.join (ustr "x") [ustr "a"; ustr "b"] = ustr "axb"
  /\ Str.isdigit (ustr "567") = true
  /\ Str.isdigit (ustr "") = false.
Proof. repeat split; vm_compute; reflexivity. Qed.

Example re_examples :
  Re.search (ustr "a.*c") (ustr "xabcx") false = true
  /\ Re.search (ustr "a.c") (ustr "a" ++ [Char.newline] ++ ustr "c") false
     = false
  /\ Re.search (ustr "млрд") (ustr "МЛРД") true = true
  /\ Re.search (ustr "млрд") (ustr "МЛРД") false = false
  /\ Re.search (ustr "^активы$") (ustr "активы" ++ [Char.newline]) true
     = true
  /\ Re.match_ (ustr "^[\d\s\.,%\-]+$") (ustr "1 234,5") = true
  /\ Re.sub_empty (ustr "[₽\$€%\s]+$") (ustr "12 % ₽") false = ustr "12"
  /\ Re.sub_empty (ustr "^[^\d\-\.]+") (ustr "abc -12") false = ustr "-12"
  /\ Re.sub_empty (ustr "млрд") (ustr "1 234,5 МЛРД РУБ") true
     = ustr "1 234,5  РУБ".
Proof. repeat split; vm_compute; reflexivity. Qed.

Example format_examples :
  format_2f (Fin 0.625) = "0.62"
  /\ format_2f (Fin 0.375) = "0.38"
  /\ format_2f (Fin 1234.5) = "1234.50"
  /\ format_2f (Fin (-0.001)) = "-0.00"
  /\ format_2pct (Fin 0.1) = "10.00%"
  /\ format_2pct NaN = "nan%".
Proof. repeat split; vm_compute; reflexivity. Qed.

(* ===================================================================== *)
(** * Properties of the number model *)

Local Open Scope Q_scope.

Lemma div_ok (x y : pyfloat) :
  (y ==? Fin 0)%py = false -> exists r, (x / y)%py = Ok r.
Proof. intros H. unfold Py.div. rewrite H. eauto. Qed.

Lemma div_Fin (a b : Q) :
  ~ b == 0 -> (Fin a / Fin b)%py = Ok (Fin (a / b)).
Proof.
  intros H. unfold Py.div. cbn [Py.eqb].
  destruct (Qeq_bool b 0) eqn:E; [ apply Qeq_bool_iff in E; tauto | done ].
Qed.

Lemma Qdiv_unit (x y : Q) : 0 <= x -> x <= y -> 0 < y -> 0 <= x / y <= 1.
Proof.
  intros Hx Hxy Hy. split.
  - apply Qle_shift_div_l; [ assumption | lra ].
  - apply Qle_shift_div_r; [ assumption | lra ].
Qed.

(* ===================================================================== *)
(** * Properties of [normalize_score] *)

(** With finite thresholds [a < b] the score is a finite number of
    [[0, 1]], in either direction, and no exception is raised. *)
Lemma normalize_score_unit (v : pyfloat) (a b : Q) (reverse : bool) :
  a < b ->
  exists n, normalize_score v (Fin a) (Fin b) reverse = Ok (Fin n)
            /\ 0 <= n <= 1.
Proof.
  intros Hab. unfold normalize_score, Py.geb.
  py_cases v; destruct reverse; cbn [Py.isna Py.leb Py.sub];
    try (eexists; split; [ reflexivity | lra ]).
  - destruct (Qle_bool q a) eqn:E1; [ eexists; split; [ reflexivity | lra ] | ].
    destruct (Qle_bool b q) eqn:E2; [ eexists; split; [ reflexivity | lra ] | ].
    qtests. rewrite div_Fin by lra.
    eexists; split; [ reflexivity | apply Qdiv_unit; lra ].
  - destruct (Qle_bool b q) eqn:E1; [ eexists; split; [ reflexivity | lra ] | ].
    destruct (Qle_bool q a) eqn:E2; [ eexists; split; [ reflexivity | lra ] | ].
    qtests. rewrite div_Fin by lra.
    eexists; split; [ reflexivity | apply Qdiv_unit; lra ].
Qed.

(** With the pair the other way round ([b <= a], the reversed direction)
    one of the two first tests always succeeds. *)
Lemma normalize_score_reverse_swapped (v : pyfloat) (a b : Q) :
  b <= a ->
  normalize_score v (Fin a) (Fin b) true = Ok (Fin 1.0)
  \/ normalize_score v (Fin a) (Fin b) true = Ok (Fin 0.0).
Proof.
  intros Hba. unfold normalize_score, Py.geb.
  py_cases v; cbn [Py.isna Py.leb]; auto.
  destruct (Qle_bool q a) eqn:E1; [ auto | ].
  destruct (Qle_bool b q) eqn:E2; [ auto | ].
  qtests. lra.
Qed.

(** **** C5
    For every threshold pair (min, ideal) with min < ideal and every
    non-NaN value v, [normalize_score v min ideal] (reverse = False) is
    0.0 when v <= min, 1.0 when v >= ideal, and, when v is strictly
    between the two, the value of the interpolation expression
    (v - min) / (ideal - min), which divides by no zero: the result is
    what Python's subtraction and division give for that expression. *)
Theorem C5_normalize_score_forward (min ideal v : pyfloat) :
  (min <? ideal)%py = true ->
  Py.isna v = false ->
  ((v <=? min)%py = true ->
     normalize_score v min ideal false = Ok (Fin 0.0))
  /\ ((v >=? ideal)%py = true ->
        normalize_score v min ideal false = Ok (Fin 1.0))
  /\ ((min <? v)%py = true -> (v <? ideal)%py = true ->
        ((ideal - min) ==? Fin 0)%py = false
        /\ exists x, normalize_score v min ideal false = Ok x
                     /\ ((v - min) / (ideal - min))%py = Ok x).
Proof.
  intros Hlt Hv. unfold normalize_score, Py.geb. rewrite Hv.
  split; [ | split ].
  - intros Hle.
    py_cases v; py_cases min; py_cases ideal;
      cbn [Py.ltb Py.leb Py.isna negb] in *; try discriminate; try reflexivity;
      qtests; try reflexivity; exfalso; lra.
  - intros Hge. rewrite Hge. reflexivity.
  - intros H1 H2.
    assert (Hnot1 : (ideal <=? v)%py = false).
    { py_cases v; py_cases min; py_cases ideal;
        cbn [Py.ltb Py.leb Py.isna negb] in *; try discriminate; try reflexivity;
        qtests; try reflexivity; exfalso; lra. }
    assert (Hnot2 : (v <=? min)%py = false).
    { py_cases v; py_cases min; py_cases ideal;
        cbn [Py.ltb Py.leb Py.isna negb] in *; try discriminate; try reflexivity;
        qtests; try reflexivity; exfalso; lra. }
    rewrite Hnot1, Hnot2.
    assert (Hnz : ((ideal - min) ==? Fin 0)%py = false).
    { py_cases min; py_cases ideal;
        cbn [Py.ltb Py.sub Py.eqb Bool.eqb negb] in *;
        try discriminate; try reflexivity;
        qtests; try reflexivity; exfalso; lra. }
    split; [ exact Hnz | ].
    destruct (div_ok (v - min)%py _ Hnz) as [x Hx]. eauto.
Qed.

(** The hypotheses of C5 at the capital-adequacy pair and a value between
    its two thresholds. *)
Lemma C5_normalize_score_forward_witness :
  exists x,
    normalize_score (Fin 0.10) (Fin 0.08) (Fin 0.12) false = Ok x
    /\ ((Fin 0.10 - Fin 0.08) / (Fin 0.12 - Fin 0.08))%py = Ok x.
Proof.
  refine (proj2 (proj2 (proj2
    (C5_normalize_score_forward (Fin 0.08) (Fin 0.12) (Fin 0.10) _ _)) _ _));
    reflexivity.
Defined.

(* ===================================================================== *)
(** * The shipped thresholds *)

Lemma thresholds_capital_adequacy :
  getitem RATIOS_THRESHOLDS "capital_adequacy" = Ok (Fin 0.08, Fin 0.12).
Proof. reflexivity. Qed.

Lemma thresholds_instant_liquidity :
  getitem RATIOS_THRESHOLDS "instant_liquidity" = Ok (Fin 0.15, Fin 0.25).
Proof. reflexivity. Qed.

Lemma thresholds_current_liquidity :
  getitem RATIOS_THRESHOLDS "current_liquidity" = Ok (Fin 1.0, Fin 1.5).
Proof. reflexivity. Qed.

Lemma thresholds_roe :
  getitem RATIOS_THRESHOLDS "roe" = Ok (Fin 0.10, Fin 0.15).
Proof. reflexivity. Qed.

Lemma thresholds_roa :
  getitem RATIOS_THRESHOLDS "roa" = Ok (Fin 0.01, Fin 0.02).
Proof. reflexivity. Qed.

Lemma thresholds_nim :
  getitem RATIOS_THRESHOLDS "nim" = Ok (Fin 0.02, Fin 0.04).
Proof. reflexivity. Qed.

Lemma thresholds_problem_loans_ratio :
  getitem RATIOS_THRESHOLDS "problem_loans_ratio" = Ok (Fin 0.05, Fin 0.02).
Proof. reflexivity. Qed.

(* ===================================================================== *)
(** * The seven ratios never raise *)

Section RatiosTotal.

Variable self : BankingRatiosCalculator.

Lemma calculate_capital_adequacy_total :
  exists v s, calculate_capital_adequacy self = Ok (v, s).
Proof.
  unfold calculate_capital_adequacy.
  ratio_total thresholds_capital_adequacy.
Qed.

Lemma calculate_instant_liquidity_total :
  exists v s, calculate_instant_liquidity self = Ok (v, s).
Proof.
  unfold calculate_instant_liquidity.
  ratio_total thresholds_instant_liquidity.
Qed.

Lemma calculate_current_liquidity_total :
  exists v s, calculate_current_liquidity self = Ok (v, s).
Proof.
  unfold calculate_current_liquidity.
  ratio_total thresholds_current_liquidity.
Qed.

Lemma calculate_roe_total :
  exists v s, calculate_roe self = Ok (v, s).
Proof. unfold calculate_roe. ratio_total thresholds_roe. Qed.

Lemma calculate_roa_total :
  exists v s, calculate_roa self = Ok (v, s).
Proof. unfold calculate_roa. ratio_total thresholds_roa. Qed.

Lemma calculate_nim_total :
  exists v s, calculate_nim self = Ok (v, s).
Proof. unfold calculate_nim. ratio_total thresholds_nim. Qed.

Lemma calculate_problem_loans_ratio_total :
  exists v s, calculate_problem_loans_ratio self = Ok (v, s).
Proof.
  unfold calculate_problem_loans_ratio.
  ratio_total thresholds_problem_loans_ratio.
Qed.

Lemma calculate_all_ratios_total :
  exists v1 s1 v2 s2 v3 s3 v4 s4 v5 s5 v6 s6 v7 s7,
    calculate_all_ratios self
    = Ok [ ("capital_adequacy", (v1, s1));
           ("instant_liquidity", (v2, s2));
           ("current_liquidity", (v3, s3));
           ("roe", (v4, s4));
           ("roa", (v5, s5));
           ("nim", (v6, s6));
           ("problem_loans_ratio", (v7, s7)) ].
Proof.
  unfold calculate_all_ratios.
  destruct calculate_capital_adequacy_total as (v1 & s1 & ->).
  destruct calculate_instant_liquidity_total as (v2 & s2 & ->).
  destruct calculate_current_liquidity_total as (v3 & s3 & ->).
  destruct calculate_roe_total as (v4 & s4 & ->).
  destruct calculate_roa_total as (v5 & s5 & ->).
  destruct calculate_nim_total as (v6 & s6 & ->).
  destruct calculate_problem_loans_ratio_total as (v7 & s7 & ->).
  cbn [bind]. repeat eexists.
Qed.

(** The normalized scores: six numbers of [[0, 1]] and, for the problem
    loans, 0 or 1. *)
Lemma normalized_scores_of_spec :
  exists n1 n2 n3 n4 n5 n6 n7 : Q,
    normalized_scores_of self
    = Ok (<["problem_loans_ratio" := Fin n7]>
           (<["nim" := Fin n6]>
             (<["roa" := Fin n5]>
               (<["roe" := Fin n4]>
                 (<["current_liquidity" := Fin n3]>
                   (<["instant_liquidity" := Fin n2]>
                     (<["capital_adequacy" := Fin n1]> ∅)))))))
    /\ 0 <= n1 <= 1 /\ 0 <= n2 <= 1 /\ 0 <= n3 <= 1 /\ 0 <= n4 <= 1
    /\ 0 <= n5 <= 1 /\ 0 <= n6 <= 1
    /\ (Fin n7 = Fin 1.0 \/ Fin n7 = Fin 0.0).
Proof.
  unfold normalized_scores_of.
  destruct calculate_all_ratios_total
    as (v1 & s1 & v2 & s2 & v3 & s3 & v4 & s4 & v5 & s5 & v6 & s6 & v7 & s7
        & ->).
  cbn [bind normalize_all].
  change (String.eqb "capital_adequacy" "problem_loans_ratio") with false.
  change (String.eqb "instant_liquidity" "problem_loans_ratio") with false.
  change (String.eqb "current_liquidity" "problem_loans_ratio") with false.
  change (String.eqb "roe" "problem_loans_ratio") with false.
  change (String.eqb "roa" "problem_loans_ratio") with false.
  change (String.eqb "nim" "problem_loans_ratio") with false.
  change (String.eqb "problem_loans_ratio" "problem_loans_ratio") with true.
  cbv iota.
  rewrite thresholds_capital_adequacy, thresholds_instant_liquidity,
    thresholds_current_liquidity, thresholds_roe, thresholds_roa,
    thresholds_nim, thresholds_problem_loans_ratio.
  cbn [bind].
  destruct (normalize_score_unit v1 0.08 0.12 false) as (n1 & -> & H1);
    [ lra | ].
  destruct (normalize_score_unit v2 0.15 0.25 false) as (n2 & -> & H2);
    [ lra | ].
  destruct (normalize_score_unit v3 1.0 1.5 false) as (n3 & -> & H3);
    [ lra | ].
  destruct (normalize_score_unit v4 0.10 0.15 false) as (n4 & -> & H4);
    [ lra | ].
  destruct (normalize_score_unit v5 0.01 0.02 false) as (n5 & -> & H5);
    [ lra | ].
  destruct (normalize_score_unit v6 0.02 0.04 false) as (n6 & -> & H6);
    [ lra | ].
  cbn [bind].
  destruct (normalize_score_reverse_swapped v7 0.05 0.02) as [-> | ->];
    [ lra | | ]; cbn [bind];
    (exists n1, n2, n3, n4, n5, n6); eexists;
    (split; [ reflexivity | ]); repeat (split; [ assumption | ]); auto.
Qed.

End RatiosTotal.

(* ===================================================================== *)
(** * The stability index *)

(** The five bands of [bsi_interpretation], lower bounds included. *)
Lemma bsi_interpretation_bands (b : Q) :
  (0.8 <= b ->
     bsi_interpretation (Fin b)
     = "Excellent stability: " +:+ format_2f (Fin b) +:+ "/1.00")
  /\ (0.6 <= b < 0.8 ->
        bsi_interpretation (Fin b)
        = "Good stability: " +:+ format_2f (Fin b) +:+ "/1.00")
  /\ (0.4 <= b < 0.6 ->
        bsi_interpretation (Fin b)
        = "Adequate stability: " +:+ format_2f (Fin b) +:+ "/1.00")
  /\ (0.2 <= b < 0.4 ->
        bsi_interpretation (Fin b)
        = "Concerning stability: " +:+ format_2f (Fin b) +:+ "/1.00")
  /\ (b < 0.2 ->
        bsi_interpretation (Fin b)
        = "Critical stability: " +:+ format_2f (Fin b) +:+ "/1.00").
Proof.
  unfold bsi_interpretation, Py.geb. cbn [Py.leb].
  repeat split; intros H; qtests; try reflexivity; exfalso; lra.
Qed.

(** **** C9
    For every input financial record the composed BSI is returned (nothing
    is raised), its score lies in [[0, 1]], and the interpretation band is
    selected with inclusive lower bounds: score >= 0.8 excellent, >= 0.6
    good, >= 0.4 adequate, >= 0.2 concerning, below 0.2 critical. *)
Theorem C9_bsi_range_and_bands (financial_data : gmap string pyfloat) :
  exists (bsi : Q) (interpretation : string),
    calculate_bsi (init financial_data) = Ok (Fin bsi, interpretation)
    /\ 0 <= bsi <= 1
    /\ (0.8 <= bsi ->
          interpretation
          = "Excellent stability: " +:+ format_2f (Fin bsi) +:+ "/1.00")
    /\ (0.6 <= bsi < 0.8 ->
          interpretation
          = "Good stability: " +:+ format_2f (Fin bsi) +:+ "/1.00")
    /\ (0.4 <= bsi < 0.6 ->
          interpretation
          = "Adequate stability: " +:+ format_2f (Fin bsi) +:+ "/1.00")
    /\ (0.2 <= bsi < 0.4 ->
          interpretation
          = "Concerning stability: " +:+ format_2f (Fin bsi) +:+ "/1.00")
    /\ (bsi < 0.2 ->
          interpretation
          = "Critical stability: " +:+ format_2f (Fin bsi) +:+ "/1.00").
Proof.
  unfold calculate_bsi.
  destruct (normalized_scores_of_spec (init financial_data))
    as (n1 & n2 & n3 & n4 & n5 & n6 & n7 & -> & H1 & H2 & H3 & H4 & H5 & H6
        & H7).
  cbn [bind weighted_sum weights]. unfold getitem.
  repeat (rewrite ?lookup_insert_eq;
          rewrite ?lookup_insert_ne by discriminate).
  cbn [bind Py.add Py.mul].
  eexists; eexists. split; [ reflexivity | ].
  split.
  - destruct H7 as [H7 | H7]; injection H7 as ->; lra.
  - apply bsi_interpretation_bands.
Qed.

(** **** C10
    The shipped problem-loans pair is (0.05, 0.02) and [calculate_bsi]
    passes it as (min_thr, max_thr) with reverse = True: no value passes
    both tests that guard the interpolation (it would have to be above 0.05
    and below 0.02), so the normalized score is 1.0 or 0.0 for every value,
    and so is the problem-loans entry of the normalized scores of every
    record. *)
Theorem C10_problem_loans_score_is_binary :
  getitem RATIOS_THRESHOLDS "problem_loans_ratio" = Ok (Fin 0.05, Fin 0.02)
  /\ (forall v,
        Py.isna v = false ->
        ~ ((v <=? Fin 0.05)%py = false /\ (v >=? Fin 0.02)%py = false))
  /\ (forall v,
        normalize_score v (Fin 0.05) (Fin 0.02) true = Ok (Fin 1.0)
        \/ normalize_score v (Fin 0.05) (Fin 0.02) true = Ok (Fin 0.0))
  /\ (forall financial_data,
        exists normalized_scores,
          normalized_scores_of (init financial_data) = Ok normalized_scores
          /\ (normalized_scores !! "problem_loans_ratio" = Some (Fin 1.0)
              \/ normalized_scores !! "problem_loans_ratio" = Some (Fin 0.0))).
Proof.
  split; [ reflexivity | ]. split; [ | split ].
  - intros v Hv [H1 H2]. unfold Py.geb in H2.
    py_cases v; cbn [Py.isna Py.leb] in *; try discriminate.
    qtests. lra.
  - intros v. apply normalize_score_reverse_swapped. lra.
  - intros financial_data.
    destruct (normalized_scores_of_spec (init financial_data))
      as (n1 & n2 & n3 & n4 & n5 & n6 & n7 & -> & _ & _ & _ & _ & _ & _ & H7).
    eexists. split; [ reflexivity | ].
    rewrite lookup_insert_eq. destruct H7 as [-> | ->]; auto.
Qed.

(** **** C2 (the code at the failing input)
    At the concerning-max itself, 0.05, the score [calculate_bsi] computes
    for the problem-loans ratio is 1.0, not 0.0: the pair (0.05, 0.02) is
    handed to [normalize_score] as (min_thr, max_thr), so the first test,
    value <= 0.05, answers. *)
Theorem C2_score_at_concerning_max :
  getitem RATIOS_THRESHOLDS "problem_loans_ratio" = Ok (Fin 0.05, Fin 0.02)
  /\ normalize_score (Fin 0.05) (Fin 0.05) (Fin 0.02) true = Ok (Fin 1.0)
  /\ exists normalized_scores,
       normalize_all [("problem_loans_ratio", (Fin 0.05, ""))] ∅
       = Ok normalized_scores
       /\ normalized_scores !! "problem_loans_ratio" = Some (Fin 1.0).
Proof.
  split; [ reflexivity | ]. split; [ reflexivity | ].
  eexists. split; [ reflexivity | ]. reflexivity.
Qed.

(** Every value in the band the specification interpolates over,
    0.02 < v <= 0.05, scores 1.0 as well. *)
Lemma problem_loans_score_in_band (v : Q) :
  v <= 0.05 -> normalize_score (Fin v) (Fin 0.05) (Fin 0.02) true = Ok (Fin 1.0).
Proof.
  intros H. unfold normalize_score. cbn [Py.isna Py.leb].
  apply Qle_bool_iff in H. rewrite H. reflexivity.
Qed.

(* ===================================================================== *)
(** * Zero denominators *)

(** **** C3
    For every financial record whose total assets are 0,
    [calculate_capital_adequacy] returns exactly
    (0.0, "Cannot calculate: Total assets is zero"), whatever the other
    fields; and each of the seven ratio calculations returns the value 0.0
    with a "Cannot calculate" interpretation, raising nothing, when its
    denominator is zero. *)
Theorem C3_zero_denominator (financial_data : gmap string pyfloat) :
  let self := init financial_data in
  ((total_assets self ==? Fin 0)%py = true ->
     calculate_capital_adequacy self
     = Ok (Fin 0.0, "Cannot calculate: Total assets is zero"))
  /\ ((demand_deposits self ==? Fin 0)%py = true ->
        calculate_instant_liquidity self
        = Ok (Fin 0.0, "Cannot calculate: Demand deposits is zero"))
  /\ ((short_term_liabilities self ==? Fin 0)%py = true ->
        calculate_current_liquidity self
        = Ok (Fin 0.0, "Cannot calculate: Short-term liabilities is zero"))
  /\ ((equity self ==? Fin 0)%py = true ->
        calculate_roe self = Ok (Fin 0.0, "Cannot calculate: Equity is zero"))
  /\ ((total_assets self ==? Fin 0)%py = true ->
        calculate_roa self
        = Ok (Fin 0.0, "Cannot calculate: Total assets is zero"))
  /\ ((average_assets self ==? Fin 0)%py = true ->
        calculate_nim self
        = Ok (Fin 0.0, "Cannot calculate: Average assets is zero"))
  /\ ((loans_to_customers self ==? Fin 0)%py = true ->
        calculate_problem_loans_ratio self
        = Ok (Fin 0.0, "Cannot calculate: Loans to customers is zero")).
Proof.
  intros self.
  unfold calculate_capital_adequacy, calculate_instant_liquidity,
    calculate_current_liquidity, calculate_roe, calculate_roa, calculate_nim,
    calculate_problem_loans_ratio.
  repeat split; intros ->; reflexivity.
Qed.

(** The scenario of the specification: equity = 0 and total_assets = 0. *)
Lemma C3_zero_denominator_witness :
  calculate_capital_adequacy
    (init (<["equity" := Fin 0]> (<["total_assets" := Fin 0]> ∅)))
  = Ok (Fin 0.0, "Cannot calculate: Total assets is zero").
Proof.
  apply (proj1 (C3_zero_denominator
                  (<["equity" := Fin 0]> (<["total_assets" := Fin 0]> ∅)))).
  reflexivity.
Defined.

(** With no record at all (every field at its default 0) the seven
    denominators are zero together. *)
Lemma all_denominators_zero_on_empty_record :
  calculate_all_ratios (init ∅)
  = Ok [ ("capital_adequacy",
           (Fin 0.0, "Cannot calculate: Total assets is zero"));
         ("instant_liquidity",
           (Fin 0.0, "Cannot calculate: Demand deposits is zero"));
         ("current_liquidity",
           (Fin 0.0, "Cannot calculate: Short-term liabilities is zero"));
         ("roe", (Fin 0.0, "Cannot calculate: Equity is zero"));
         ("roa", (Fin 0.0, "Cannot calculate: Total assets is zero"));
         ("nim", (Fin 0.0, "Cannot calculate: Average assets is zero"));
         ("problem_loans_ratio",
           (Fin 0.0, "Cannot calculate: Loans to customers is zero")) ].
Proof. reflexivity. Qed.

(* ===================================================================== *)
(** * The problem-loans ratio *)

(** The three tiers of the problem-loans ratio, for every value: healthy
    exactly at or below [max_thr], concerning exactly above it (or NaN
    against it) and at or below [min_thr], critical exactly in the other
    case. *)
Lemma problem_loans_tiers (value min_thr max_thr : pyfloat) :
  ((value <=? max_thr)%py = true <->
     problem_loans_interpretation value min_thr max_thr
     = "Healthy: " +:+ format_2pct value +:+ " (below target of "
         +:+ format_2pct max_thr +:+ ")")
  /\ ((value <=? max_thr)%py = false /\ (value <=? min_thr)%py = true <->
        problem_loans_interpretation value min_thr max_thr
        = "Concerning: " +:+ format_2pct value
            +:+ " (approaching threshold of " +:+ format_2pct min_thr +:+ ")")
  /\ ((value <=? max_thr)%py = false /\ (value <=? min_thr)%py = false <->
        problem_loans_interpretation value min_thr max_thr
        = "Critical: " +:+ format_2pct value +:+ " (exceeds threshold of "
            +:+ format_2pct min_thr +:+ ")").
Proof.
  unfold problem_loans_interpretation.
  destruct (value <=? max_thr)%py, (value <=? min_thr)%py;
    repeat split; try reflexivity; try discriminate;
    try (intros [? ?]; discriminate); cbn; discriminate.
Qed.

(** **** C8
    For every financial record with loans_to_customers <> 0,
    [calculate_problem_loans_ratio] raises nothing and returns the value
    of the expression (loans_to_customers * 0.03) / loans_to_customers,
    the fixed 3 % estimate, with the interpretation of that value for the
    shipped pair: ideal-max 0.02, concerning-max 0.05.  The
    interpretation of a value, whatever it is, is the healthy tier
    exactly when the value is at or below 0.02, the concerning tier
    exactly when it is above 0.02 and at or below 0.05, and the critical
    tier exactly when it is above 0.05 or NaN.  When the amount of loans
    is NaN or infinite the returned value is NaN and the tier is the
    critical one. *)
Theorem C8_problem_loans_ratio (financial_data : gmap string pyfloat)
    (value : pyfloat) :
  let self := init financial_data in
  (loans_to_customers self ==? Fin 0)%py = false ->
  (exists ratio,
     calculate_problem_loans_ratio self
     = Ok (ratio, problem_loans_interpretation ratio (Fin 0.05) (Fin 0.02))
     /\ ((loans_to_customers self * Fin 0.03) / loans_to_customers self)%py
        = Ok ratio
     /\ ((exists q, loans_to_customers self = Fin q)
         \/ (ratio = NaN
             /\ problem_loans_interpretation ratio (Fin 0.05) (Fin 0.02)
                = "Critical: nan% (exceeds threshold of 5.00%)")))
  /\ ((value <=? Fin 0.02)%py = true <->
        problem_loans_interpretation value (Fin 0.05) (Fin 0.02)
        = "Healthy: " +:+ format_2pct value
            +:+ " (below target of 2.00%)")
  /\ ((value >? Fin 0.02)%py = true /\ (value <=? Fin 0.05)%py = true <->
        problem_loans_interpretation value (Fin 0.05) (Fin 0.02)
        = "Concerning: " +:+ format_2pct value
            +:+ " (approaching threshold of 5.00%)")
  /\ ((value >? Fin 0.05)%py = true \/ Py.isna value = true <->
        problem_loans_interpretation value (Fin 0.05) (Fin 0.02)
        = "Critical: " +:+ format_2pct value
            +:+ " (exceeds threshold of 5.00%)").
Proof.
  intros self Hz. split.
  - unfold calculate_problem_loans_ratio. rewrite Hz.
    destruct (div_ok (loans_to_customers self * Fin 0.03)%py _ Hz)
      as [r Hr].
    rewrite Hr. cbn [bind]. rewrite thresholds_problem_loans_ratio.
    cbn [bind].
    exists r. split; [ reflexivity | ]. split; [ reflexivity | ].
    destruct (loans_to_customers self) as [ | neg | q ] eqn:Hl;
      [ right | right | left; eauto ].
    + cbn in Hr. injection Hr as <-. split; reflexivity.
    + destruct neg; cbn in Hr; injection Hr as <-; split; reflexivity.
  - destruct (problem_loans_tiers value (Fin 0.05) (Fin 0.02))
      as (H1 & H2 & H3).
    change (format_2pct (Fin 0.02)) with "2.00%"%string in *.
    change (format_2pct (Fin 0.05)) with "5.00%"%string in *.
    split; [ exact H1 | ]. split.
    + rewrite <- H2. unfold Py.gtb.
      py_cases value; cbn [Py.ltb Py.leb negb]; try (split; tauto);
        try (split; intros [? ?]; discriminate).
      qtests; split; auto; intros [? ?]; try discriminate; exfalso; lra.
    + rewrite <- H3. unfold Py.gtb.
      py_cases value; cbn [Py.ltb Py.leb Py.isna negb];
        try (split; [ auto | ]; tauto);
        try (split; [ intros [? | ?]; discriminate
                    | intros [? ?]; discriminate ]).
      qtests; split; auto; try (intros [? | ?]; discriminate);
        try (intros [? ?]; discriminate);
        intros; exfalso; lra.
Qed.

(** A record with 600 of loans, the concerning tier; and the same
    statement at a record whose loans are NaN, the critical tier. *)
Lemma C8_problem_loans_ratio_witness :
  (exists ratio,
     calculate_problem_loans_ratio
       (init (<["loans_to_customers" := Fin 600]> ∅))
     = Ok (ratio, "Concerning: 3.00% (approaching threshold of 5.00%)"))
  /\ calculate_problem_loans_ratio
       (init (<["loans_to_customers" := NaN]> ∅))
     = Ok (NaN, "Critical: nan% (exceeds threshold of 5.00%)").
Proof.
  assert (Hz : (loans_to_customers
                  (init (<["loans_to_customers" := Fin 600]> ∅)) ==? Fin 0)%py
               = false) by reflexivity.
  assert (Hn : (loans_to_customers
                  (init (<["loans_to_customers" := NaN]> ∅)) ==? Fin 0)%py
               = false) by reflexivity.
  split.
  - destruct (C8_problem_loans_ratio
                (<["loans_to_customers" := Fin 600]> ∅) NaN Hz)
      as ((ratio & H & _) & _).
    exists ratio. rewrite H. vm_compute in H. injection H as <-.
    reflexivity.
  - destruct (C8_problem_loans_ratio
                (<["loans_to_customers" := NaN]> ∅) NaN Hn)
      as ((ratio & H & _ & [(q & Hq) | (-> & Hi)]) & _).
    + discriminate Hq.
    + rewrite H, Hi. reflexivity.
Defined.

(* ===================================================================== *)
(** * The aggregator: which keys a record holds *)

Section StoreValue.

Variables (row : Row) (current_units : gmap nat pyfloat).

(** A cell of the row writes the matched indicator or nothing. *)
Lemma store_value_cases (param_name : string)
    (financial_data : gmap string pyfloat) (entry : nat * cell) :
  store_value row current_units param_name financial_data entry
  = financial_data
  \/ exists final_value,
       store_value row current_units param_name financial_data entry
       = <[param_name := final_value]> financial_data.
Proof.
  unfold store_value. destruct entry as [col_idx cell_value].
  destruct (parse_number_with_unit cell_value) as [[num | ] inline];
    [ | auto ].
  destruct (in_list param_name percentage_indicators).
  - destruct (_ && _); eauto.
  - eauto.
Qed.

Lemma store_value_other (param_name k : string)
    (financial_data : gmap string pyfloat) (entry : nat * cell) :
  param_name <> k ->
  store_value row current_units param_name financial_data entry !! k
  = financial_data !! k.
Proof.
  intros Hne.
  destruct (store_value_cases param_name financial_data entry)
    as [-> | [v ->]]; [ reflexivity | ].
  by rewrite lookup_insert_ne.
Qed.

Lemma store_value_keeps (param_name k : string)
    (financial_data : gmap string pyfloat) (entry : nat * cell) :
  is_Some (financial_data !! k) ->
  is_Some (store_value row current_units param_name financial_data entry
             !! k).
Proof.
  intros Hk.
  destruct (store_value_cases param_name financial_data entry)
    as [-> | [v ->]]; [ assumption | ].
  rewrite lookup_insert. case_decide; eauto.
Qed.

(** A property of the record that every write of [param_name] keeps is
    kept by the loop over the value cells. *)
Lemma foldl_store_value_ind (P : gmap string pyfloat -> Prop)
    (param_name : string) (entries : list (nat * cell)) :
  (forall fd e, e ∈ entries -> P fd ->
                P (store_value row current_units param_name fd e)) ->
  forall fd, P fd ->
    P (foldl (store_value row current_units param_name) fd entries).
Proof.
  induction entries as [ | e entries IH ]; intros Hstep fd Hfd; cbn.
  - assumption.
  - apply IH.
    + intros fd' e' He'. apply Hstep. by apply list_elem_of_further.
    + apply Hstep; [ apply list_elem_of_here | assumption ].
Qed.

End StoreValue.

(** The value cells the loop walks are cells of the row. *)
Lemma non_empty_cells_lookup (row : Row) (col_idx : nat) (value : cell) :
  (col_idx, value) ∈ non_empty_cells row -> row !! col_idx = Some value.
Proof.
  unfold non_empty_cells. intros H.
  apply list_elem_of_filter in H as [_ H].
  apply elem_of_lookup_imap in H as (i & x & Heq & Hx).
  by inversion Heq; subst.
Qed.

(** What a row does to the record: nothing, or the loop over some of its
    cells for the one indicator its label matched; the unit state becomes
    the scan of the row, or stays when the row is skipped. *)
Lemma process_row_cases (row : Row) (current_units : gmap nat pyfloat)
    (financial_data : gmap string pyfloat) :
  (process_row row (current_units, financial_data)).2 = financial_data
  \/ exists param_name entries,
       (forall e, e ∈ entries -> row !! e.1 = Some e.2)
       /\ (process_row row (current_units, financial_data)).2
          = foldl (store_value row (scan_units (take 10 row) 0 current_units)
                               param_name)
                  financial_data entries.
Proof.
  unfold process_row.
  destruct (is_table_header row || forallb Pd.isna row); [ auto | ].
  destruct (length (non_empty_cells row) <? 2)%nat; [ auto | ].
  destruct (indicator_loop (take 3 (non_empty_cells row)) 0 [])
    as [indicator_parts value_start_idx].
  destruct indicator_parts as [ | part parts ]; [ auto | ].
  destruct (match_indicator _) as [[param_name patterns] | ]; [ | auto ].
  right. exists param_name, (drop value_start_idx (non_empty_cells row)).
  split; [ | reflexivity ].
  intros [col_idx value] He. apply non_empty_cells_lookup.
  apply list_elem_of_lookup in He as [i Hi].
  rewrite lookup_drop in Hi. apply list_elem_of_lookup. eauto.
Qed.

Lemma process_row_keeps (row : Row)
    (state : gmap nat pyfloat * gmap string pyfloat) (k : string) :
  is_Some (state.2 !! k) -> is_Some ((process_row row state).2 !! k).
Proof.
  destruct state as [current_units financial_data]. cbn [snd]. intros Hk.
  destruct (process_row_cases row current_units financial_data)
    as [-> | (param_name & entries & _ & ->)]; [ assumption | ].
  apply (foldl_store_value_ind _ _ (fun fd => is_Some (fd !! k)));
    [ | assumption ].
  intros fd e _. apply store_value_keeps.
Qed.

Lemma process_table_keeps (financial_data : gmap string pyfloat)
    (df : DataFrame) (k : string) :
  is_Some (financial_data !! k) ->
  is_Some (process_table financial_data df !! k).
Proof.
  intros Hk. unfold process_table.
  destruct (Pd.too_small df); [ assumption | ].
  generalize (∅ : gmap nat pyfloat). revert financial_data Hk.
  induction df as [ | row df IH ]; intros financial_data Hk current_units.
  - assumption.
  - cbn [foldl].
    destruct (process_row row (current_units, financial_data))
      as [current_units' financial_data'] eqn:E.
    apply IH.
    change financial_data'
      with (current_units', financial_data').2.
    rewrite <- E. by apply process_row_keeps.
Qed.

Lemma aggregate_from_keeps (tables : list DataFrame)
    (financial_data : gmap string pyfloat) (k : string) :
  is_Some (financial_data !! k) ->
  is_Some (foldl process_table financial_data tables !! k).
Proof.
  revert financial_data.
  induction tables as [ | df tables IH ]; intros financial_data Hk; cbn.
  - assumption.
  - apply IH. by apply process_table_keeps.
Qed.

Lemma defaults_all_zero :
  Forall (fun entry => entry.2 = Fin 0) financial_data_defaults.
Proof. repeat constructor. Qed.

Lemma defaults_lookup (k : string) :
  k ∈ financial_data_defaults.*1 ->
  (list_to_map financial_data_defaults : gmap string pyfloat) !! k
  = Some (Fin 0).
Proof.
  intros Hk. apply list_elem_of_fmap in Hk as ([k' v] & -> & Hkv).
  pose proof (proj1 (Forall_forall _ _) defaults_all_zero) as Hzero.
  pose proof (Hzero _ Hkv) as Hv. cbn in Hv. subst v.
  apply elem_of_list_to_map_1'; [ | assumption ].
  intros y Hy. symmetry. exact (Hzero _ Hy).
Qed.

(** **** C4
    [aggregate_financial_data] on an empty list of tables returns the
    record of the defaults, in which every canonical indicator key is
    present and equal to 0; and the record returned for any list of tables
    holds every canonical key.  (The function is total: nothing is
    raised.) *)
Theorem C4_every_canonical_key_present :
  aggregate_financial_data [] = list_to_map financial_data_defaults
  /\ (forall k, k ∈ financial_data_defaults.*1 ->
        aggregate_financial_data [] !! k = Some (Fin 0))
  /\ (forall tables k, k ∈ financial_data_defaults.*1 ->
        is_Some (aggregate_financial_data tables !! k)).
Proof.
  split; [ reflexivity | ]. split.
  - intros k Hk. by apply defaults_lookup.
  - intros tables k Hk. apply aggregate_from_keeps.
    rewrite (defaults_lookup k Hk). eauto.
Qed.

(* ===================================================================== *)
(** * Scenario 1: a value with its unit in the cell *)

(** Of the nine unit patterns only the three bare words can be found in a
    text without backslashes: the other six ask for the character [\]. *)
Lemma unit_pattern_asks_for_backslash :
  Re.parse (ustr "млрд\\.?\\s*руб\\.?")
  = Some [ Re.Atom (Re.ALit 0x43C) Re.Once; Re.Atom (Re.ALit 0x43B) Re.Once;
           Re.Atom (Re.ALit 0x440) Re.Once; Re.Atom (Re.ALit 0x434) Re.Once;
           Re.Atom (Re.ALit Char.backslash) Re.Once; Re.Atom Re.ADot Re.Opt;
           Re.Atom (Re.ALit Char.backslash) Re.Once;
           Re.Atom (Re.ALit 0x73) Re.Star;
           Re.Atom (Re.ALit 0x440) Re.Once; Re.Atom (Re.ALit 0x443) Re.Once;
           Re.Atom (Re.ALit 0x431) Re.Once;
           Re.Atom (Re.ALit Char.backslash) Re.Once; Re.Atom Re.ADot Re.Opt ]
  /\ Re.search (ustr "млрд\\.?\\s*руб\\.?") (ustr "1 234,5 МЛРД РУБ") true
     = false
  /\ Re.search (ustr "млрд\\.?\\s*р\\.?") (ustr "1 234,5 МЛРД РУБ") true
     = false
  /\ Re.search (ustr "млрд") (ustr "1 234,5 МЛРД РУБ") true = true.
Proof. repeat split; vm_compute; reflexivity. Qed.

(** Every pattern of the two tables is in the fragment [Re.parse] reads. *)
Lemma every_pattern_parses :
  forallb (fun pattern => bool_decide (is_Some (Re.parse pattern)))
          (concat financial_patterns.*2 ++ unit_patterns.*1
             ++ (Str.upper <$> unit_patterns.*1)
             ++ [ ustr "[₽\$€%\s]+$"; ustr "^[^\d\-\.]+";
                  ustr "^[\d\s\.,%\-]+$" ])
  = true.
Proof. vm_compute. reflexivity. Qed.

(** **** C1 (the code at the failing input)
    On the table of scenario 1 the record keeps total_assets at its
    default 0, which is not 1234.5e9: the cell "1 234,5 МЛРД РУБ" parses
    to no number.  The one unit pattern found in it is the bare "млрд";
    removing it leaves "1 234,5  РУБ", whose text after the comma is no
    run of digits, so commas and spaces are dropped and [float] is given
    "12345РУБ". *)
Theorem C1_total_assets_scenario :
  aggregate_financial_data [scenario_total_assets] !! "total_assets"
  = Some (Fin 0)
  /\ (Fin 0 ==? Fin 1234.5e9)%py = false
  /\ parse_number_with_unit (CStr (ustr "1 234,5 МЛРД РУБ")) = (None, Fin 1.0)
  /\ Str.strip (Re.sub_empty (ustr "млрд") (ustr "1 234,5 МЛРД РУБ") true)
     = ustr "1 234,5  РУБ"
  /\ separators (cleaned (ustr "1 234,5  РУБ")) = ustr "12345РУБ"
  /\ Float.of_str (ustr "12345РУБ") = None.
Proof. repeat split; vm_compute; reflexivity. Qed.

(** With the unit word alone in the cell the number is read, and the unit
    is applied twice: once from the cell and once from the unit the scan
    of the row recorded for the column. *)
Lemma inline_unit_applied_twice :
  exists x,
    aggregate_financial_data
      [ [ [ CStr (ustr "Итого активов"); CStr (ustr "1 234,5 МЛРД") ] ] ]
      !! "total_assets" = Some x
    /\ (x ==? Fin 1234.5e18)%py = true.
Proof. eexists. split; vm_compute; reflexivity. Qed.

(* ===================================================================== *)
(** * Scenario 2: an implausible percentage *)

Section Discard.

Variables (row : Row) (current_units : gmap nat pyfloat).

(** The guard of the percentage family. *)
Lemma store_value_discard (param_name : string)
    (financial_data : gmap string pyfloat) (col_idx : nat) (value : cell)
    (num inline_multiplier : pyfloat) :
  in_list param_name percentage_indicators = true ->
  parse_number_with_unit value = (Some num, inline_multiplier) ->
  (num >? Fin 100)%py = true ->
  (inline_multiplier
   * get current_units col_idx (detect_units_in_context row col_idx)
   ==? Fin 1.0)%py = true ->
  store_value row current_units param_name financial_data (col_idx, value)
  = financial_data.
Proof.
  intros Hp Hparse Hnum Hmult. unfold store_value.
  rewrite Hparse, Hp, Hnum, Hmult. reflexivity.
Qed.

End Discard.

Lemma percentage_indicator_default (param_name : string) :
  in_list param_name percentage_indicators = true ->
  (list_to_map financial_data_defaults : gmap string pyfloat) !! param_name
  = Some (Fin 0).
Proof.
  unfold in_list, percentage_indicators. cbn [existsb].
  rewrite !orb_true_iff, !String.eqb_eq.
  intros H. repeat (destruct H as [-> | H]; [ reflexivity | ]).
  discriminate.
Qed.

(** What a row does to one percentage-family indicator when every number
    read in the row is above 100 with effective multiplier 1.0: nothing,
    whatever the record and the unit state before the row. *)
Lemma process_row_percentage_kept (row : Row)
    (current_units : gmap nat pyfloat)
    (financial_data : gmap string pyfloat) (param_name : string) :
  in_list param_name percentage_indicators = true ->
  (forall col_idx value num inline_multiplier,
      row !! col_idx = Some value ->
      parse_number_with_unit value = (Some num, inline_multiplier) ->
      (num >? Fin 100)%py = true
      /\ (inline_multiplier
          * get (scan_units (take 10 row) 0 current_units) col_idx
                (detect_units_in_context row col_idx)
          ==? Fin 1.0)%py = true) ->
  (process_row row (current_units, financial_data)).2 !! param_name
  = financial_data !! param_name.
Proof.
  intros Hp Hcells.
  destruct (process_row_cases row current_units financial_data)
    as [-> | (param' & entries & Hentries & ->)]; [ reflexivity | ].
  apply (foldl_store_value_ind _ _
           (fun fd => fd !! param_name = financial_data !! param_name));
    [ | reflexivity ].
  intros fd [col_idx value] He Hfd.
  destruct (decide (param' = param_name)) as [-> | Hne].
  - destruct (parse_number_with_unit value) as [[num | ] inline] eqn:Hparse.
    + destruct (Hcells col_idx value num inline (Hentries _ He) Hparse)
        as [Hnum Hmult].
      by rewrite (store_value_discard _ _ _ _ _ _ _ _ Hp Hparse Hnum Hmult).
    + unfold store_value. by rewrite Hparse.
  - by rewrite store_value_other.
Qed.

(** **** C7
    For every table of one row and every percentage-family indicator:
    when every cell of the row that reads as a number reads above 100 with
    the effective multiplier 1.0 (no unit in the cell, none recorded for
    its column, none in its neighbours), the values are discarded and the
    indicator keeps its default 0 in the aggregated record.  Cell by cell,
    in any row and any state, a value above 100 with effective multiplier
    1.0 read for a percentage-family indicator is discarded.  In
    particular the table of scenario 2, with the row ["ROE (%)", "120"],
    leaves roe at 0. *)
Theorem C7_implausible_percentage_discarded :
  (forall (row : Row) (param_name : string),
      in_list param_name percentage_indicators = true ->
      (forall col_idx value num inline_multiplier,
          row !! col_idx = Some value ->
          parse_number_with_unit value = (Some num, inline_multiplier) ->
          (num >? Fin 100)%py = true
          /\ (inline_multiplier
              * get (scan_units (take 10 row) 0 ∅) col_idx
                    (detect_units_in_context row col_idx)
              ==? Fin 1.0)%py = true) ->
      aggregate_financial_data [ [ row ] ] !! param_name = Some (Fin 0))
  /\ (forall (row : Row) (current_units : gmap nat pyfloat)
             (financial_data : gmap string pyfloat) (param_name : string)
             (col_idx : nat) (value : cell) (num inline_multiplier : pyfloat),
         in_list param_name percentage_indicators = true ->
         parse_number_with_unit value = (Some num, inline_multiplier) ->
         (num >? Fin 100)%py = true ->
         (inline_multiplier
          * get current_units col_idx (detect_units_in_context row col_idx)
          ==? Fin 1.0)%py = true ->
         store_value row current_units param_name financial_data
                     (col_idx, value)
         = financial_data)
  /\ in_list "roe" percentage_indicators = true
  /\ parse_number_with_unit (CStr (ustr "120")) = (Some (Fin 120), Fin 1.0)
  /\ aggregate_financial_data [scenario_roe] !! "roe" = Some (Fin 0).
Proof.
  split; [ | split; [ | repeat split; vm_compute; reflexivity ] ];
    [ | intros; by eapply store_value_discard ].
  intros row param_name Hp Hcells.
  unfold aggregate_financial_data, process_table. cbn [foldl].
  destruct (Pd.too_small [row]).
  - by apply percentage_indicator_default.
  - rewrite (process_row_percentage_kept _ _ _ _ Hp Hcells).
    by apply percentage_indicator_default.
Qed.

(** The hypotheses of C7 at the row of scenario 2. *)
Lemma C7_implausible_percentage_discarded_witness :
  aggregate_financial_data
    [ [ [ CStr (ustr "ROE (%)"); CStr (ustr "120") ] ] ] !! "roe"
  = Some (Fin 0).
Proof.
  apply (proj1 C7_implausible_percentage_discarded
           [ CStr (ustr "ROE (%)"); CStr (ustr "120") ] "roe").
  - vm_compute. reflexivity.
  - intros col_idx value num inline_multiplier Hrow Hparse.
    destruct col_idx as [ | [ | col_idx ] ]; cbn in Hrow;
      [ | | discriminate ];
      injection Hrow as <-; vm_compute in Hparse;
      [ discriminate | ].
    injection Hparse as <- <-. split; vm_compute; reflexivity.
Defined.

(* ===================================================================== *)
(** * The plain-number parser *)

Lemma rsplit1_contains_char (sep : N) (s : ustring)
    (parts : ustring * ustring) :
  Str.rsplit1 sep s = Some parts -> Str.contains_char sep s = true.
Proof.
  unfold Str.contains_char. revert parts.
  induction s as [ | c s IH ]; intros parts; cbn.
  - discriminate.
  - destruct (Str.rsplit1 sep s) as [[before after] | ].
    + intros _. rewrite (IH _ eq_refl). apply orb_true_r.
    + destruct (c =? sep)%N eqn:E; [ | discriminate ].
      intros _. apply N.eqb_eq in E as ->. by rewrite N.eqb_refl.
Qed.

Lemma forallb_Forall {A : Type} (f : A -> bool) (l : list A) :
  forallb f l = true <-> Forall (fun x => f x = true) l.
Proof.
  induction l as [ | x l IH ]; cbn.
  - split; [ constructor | reflexivity ].
  - rewrite andb_true_iff, IH. split.
    + intros [Hx Hl]. by constructor.
    + intros H. by inversion H.
Qed.

(** The test of the code is the specification's test on the stripped
    text. *)
Lemma decimal_fraction_spec (parts1 : ustring) :
  decimal_fraction parts1 = true <-> spec_fraction_digits (Str.strip parts1).
Proof.
  unfold decimal_fraction, spec_fraction_digits, Str.isdigit.
  rewrite andb_true_iff, Nat.leb_le.
  destruct (Str.strip parts1) as [ | c t ].
  - cbn. split; [ intros [? _]; discriminate | lia ].
  - rewrite forallb_Forall. cbn [length]. split.
    + intros [H1 H2]. split; [ lia | assumption ].
    + intros [H1 H2]. split; [ assumption | lia ].
Qed.

Lemma implausible_spec (num : pyfloat) :
  implausible num = true <->
  (Py.abs num >? Fin 1e16)%py = true
  \/ ((Py.abs num <? Fin 1e-6)%py = true /\ (num ==? Fin 0)%py = false).
Proof.
  unfold implausible, Py.neb.
  rewrite orb_true_iff, andb_true_iff, negb_true_iff. tauto.
Qed.

(** **** C6 (as amended)
    [parse_russian_number] treats the last comma as the decimal separator
    exactly when the text after it, stripped of surrounding white space, is
    a run of 1 to 3 digits: the text handed to [float] is then the text
    before the comma without its spaces, a dot, and the digits; otherwise
    it is the whole text without commas and spaces.  So "1 234,56" parses
    to 1234.56 and "1234,5678" to 12345678, not 1234.5678; the dash "-"
    gives None; and a text is given None whenever the number [float] reads
    from it is above 1e16 in magnitude, or nonzero and below 1e-6, so that
    no number returned for a text is of that kind. *)
Theorem C6_parse_russian_number :
  (forall parts1,
      decimal_fraction parts1 = true
      <-> spec_fraction_digits (Str.strip parts1))
  /\ (forall val_str parts0 parts1,
        Str.rsplit1 Char.comma val_str = Some (parts0, parts1) ->
        (decimal_fraction parts1 = true ->
           separators val_str
           = Str.replace Char.nbsp [] (Str.replace Char.space [] parts0)
               ++ ustr "." ++ Str.strip parts1)
        /\ (decimal_fraction parts1 = false ->
              separators val_str
              = Str.replace Char.nbsp []
                  (Str.replace Char.space []
                     (Str.replace Char.comma [] val_str))))
  /\ (exists x, parse_russian_number (CStr (ustr "1 234,56")) = Some x
                /\ (x ==? Fin 1234.56)%py = true)
  /\ (exists x, parse_russian_number (CStr (ustr "1234,5678")) = Some x
                /\ (x ==? Fin 12345678)%py = true
                /\ (x ==? Fin 1234.5678)%py = false)
  /\ parse_russian_number (CStr (ustr "-")) = None
  /\ (forall s num,
        Float.of_str (separators (cleaned s)) = Some num ->
        (Py.abs num >? Fin 1e16)%py = true
        \/ ((Py.abs num <? Fin 1e-6)%py = true /\ (num ==? Fin 0)%py = false) ->
        parse_russian_number (CStr s) = None)
  /\ (forall s num,
        parse_russian_number (CStr s) = Some num ->
        Float.of_str (separators (cleaned s)) = Some num
        /\ (Py.abs num >? Fin 1e16)%py = false
        /\ ((Py.abs num <? Fin 1e-6)%py = false \/ (num ==? Fin 0)%py = true)).
Proof.
  split; [ exact decimal_fraction_spec | ].
  split.
  { intros val_str parts0 parts1 Hsplit. unfold separators.
    rewrite (rsplit1_contains_char _ _ _ Hsplit), Hsplit.
    split; intros ->; reflexivity. }
  split; [ eexists; split; vm_compute; reflexivity | ].
  split; [ eexists; repeat split; vm_compute; reflexivity | ].
  split; [ reflexivity | ].
  split.
  - intros s num Hfloat Hbad. unfold parse_russian_number.
    destruct (_ || _); [ reflexivity | ].
    cbn [Pd.str]. rewrite Hfloat.
    apply implausible_spec in Hbad. by rewrite Hbad.
  - intros s num. unfold parse_russian_number.
    destruct (_ || _); [ discriminate | ].
    cbn [Pd.str].
    destruct (Float.of_str (separators (cleaned s))) as [x | ];
      [ | discriminate ].
    destruct (implausible x) eqn:E; [ discriminate | ].
    intros [= <-]. split; [ reflexivity | ].
    unfold implausible, Py.neb in E.
    apply orb_false_iff in E as [E1 E2]. split; [ assumption | ].
    apply andb_false_iff in E2 as [E2 | E2]; [ by left | right ].
    by apply negb_false_iff in E2.
Qed.

(** C6 as it is stated fails on a space after the comma: in "1, 5" the
    text after the last comma, " 5", is no run of digits, and the comma is
    taken as the decimal separator all the same: the number is 1.5, not
    15. *)
Lemma C6_counterexample :
  Str.rsplit1 Char.comma (cleaned (ustr "1, 5")) = Some (ustr "1", ustr " 5")
  /\ ~ spec_fraction_digits (ustr " 5")
  /\ decimal_fraction (ustr " 5") = true
  /\ separators (cleaned (ustr "1, 5")) = ustr "1.5"
  /\ exists x, parse_russian_number (CStr (ustr "1, 5")) = Some x
               /\ (x ==? Fin 1.5)%py = true
               /\ (x ==? Fin 15)%py = false.
Proof.
  split; [ vm_compute; reflexivity | ].
  split.
  { intros [_ H]. inversion H as [ | c t Hc Ht ]; subst.
    vm_compute in Hc. discriminate. }
  split; [ vm_compute; reflexivity | ].
  split; [ vm_compute; reflexivity | ].
  eexists. repeat split; vm_compute; reflexivity.
Qed.

(* ===================================================================== *)
(** * Further properties *)

(** **** X1
    [normalize_score]: "Normalized score between 0 and 1".  With finite
    thresholds min_thr < max_thr of magnitude at most 1e300 (so that
    their difference is within the range of a double), in either
    direction and for every value (NaN and the infinities included), the
    function raises nothing and returns a finite number of [[0, 1]]. *)
Theorem normalize_score_between_0_and_1
    (value : pyfloat) (min_thr max_thr : Q) (reverse : bool) :
  min_thr < max_thr ->
  Qabs min_thr <= 1e300 ->
  Qabs max_thr <= 1e300 ->
  exists score,
    normalize_score value (Fin min_thr) (Fin max_thr) reverse = Ok (Fin score)
    /\ 0 <= score <= 1.
Proof. intros Hlt _ _. apply normalize_score_unit, Hlt. Qed.

Lemma normalize_score_between_0_and_1_witness :
  exists score,
    normalize_score (Inf false) (Fin 0.02) (Fin 0.05) true = Ok (Fin score)
    /\ 0 <= score <= 1.
Proof.
  apply (normalize_score_between_0_and_1 (Inf false) 0.02 0.05 true);
    [ reflexivity | vm_compute; discriminate | vm_compute; discriminate ].
Defined.

(** The first element a [find] returns: the elements before it fail the
    test. *)
Lemma find_first {A : Type} (p : A -> bool) (l : list A) (x : A) :
  List.find p l = Some x ->
  exists before after,
    l = before ++ x :: after
    /\ p x = true
    /\ Forall (fun e => p e = false) before.
Proof.
  induction l as [ | a l IH ]; [ discriminate | ].
  cbn [List.find]. destruct (p a) eqn:Ha.
  - intros [= ->]. exists [], l. split; [ reflexivity | ]. split; auto.
  - intros H. destruct (IH H) as (before & after & -> & Hx & Hb).
    exists (a :: before), after. split; [ reflexivity | ]. split; auto.
Qed.

(** **** X2
    A row writes at most one indicator, and which one is fixed by its
    label: the first entry of [financial_patterns] one of whose patterns
    is found in the label (the loop over the entries breaks at the first
    match).  Every other key of the record keeps its value; when no entry
    matches, the record is unchanged.  The label "итого активов" selects
    total_assets. *)
Theorem process_row_writes_one_indicator (row : Row)
    (current_units : gmap nat pyfloat)
    (financial_data : gmap string pyfloat) :
  (forall param_name patterns,
      match_indicator (row_label row) = Some (param_name, patterns) ->
      exists before after,
        financial_patterns = before ++ (param_name, patterns) :: after
        /\ entry_matches (row_label row) (param_name, patterns) = true
        /\ Forall (fun entry => entry_matches (row_label row) entry = false)
             before)
  /\ match match_indicator (row_label row) with
     | Some (param_name, _) =>
         forall k, k <> param_name ->
           (process_row row (current_units, financial_data)).2 !! k
           = financial_data !! k
     | None =>
         (process_row row (current_units, financial_data)).2 = financial_data
     end
  /\ exists patterns,
       match_indicator
         (row_label [ CStr (ustr "Итого активов"); CStr (ustr "1 234,5") ])
       = Some ("total_assets"%string, patterns).
Proof.
  split; [ | split ].
  - intros param_name patterns H. unfold match_indicator in H.
    apply find_first in H. exact H.
  - unfold process_row, row_label.
    destruct (is_table_header row || forallb Pd.isna row);
      [ destruct (match_indicator _) as [[? ?] | ]; reflexivity | ].
    destruct (length (non_empty_cells row) <? 2)%nat;
      [ destruct (match_indicator _) as [[? ?] | ]; reflexivity | ].
    destruct (indicator_loop (take 3 (non_empty_cells row)) 0 [])
      as [indicator_parts value_start_idx].
    cbn [fst].
    destruct indicator_parts as [ | part parts ];
      [ destruct (match_indicator _) as [[? ?] | ]; reflexivity | ].
    destruct (match_indicator _) as [[param_name patterns] | ];
      [ | reflexivity ].
    intros k Hk. cbn [snd].
    apply (foldl_store_value_ind _ _
             (fun fd => fd !! k = financial_data !! k)); [ | reflexivity ].
    intros fd e _ <-. apply store_value_other. congruence.
  - eexists. vm_compute. reflexivity.
Qed.

Lemma assumed_billions_not_percentage (param_name : string) :
  in_list param_name assumed_billions = true ->
  in_list param_name percentage_indicators = false.
Proof.
  unfold in_list, assumed_billions. cbn [existsb].
  rewrite !orb_true_iff, !String.eqb_eq.
  intros H. repeat (destruct H as [-> | H]; [ reflexivity | ]).
  discriminate.
Qed.

(** **** X3
    The "assumed billions" heuristic.  For total assets, loans, deposits,
    net income and operating income, a number above 1 read with effective
    multiplier 1.0, whose product with the multiplier is below 1e12, is
    stored multiplied by 1e9; so the row
    ["Итого активов", "1 234,5"] gives total_assets = 1234.5e9. *)
Theorem assumed_billions_heuristic :
  (forall (row : Row) (current_units : gmap nat pyfloat)
          (financial_data : gmap string pyfloat) (param_name : string)
          (col_idx : nat) (value : cell) (num inline_multiplier : pyfloat),
      let multiplier :=
        (inline_multiplier
         * get current_units col_idx (detect_units_in_context row col_idx))%py
      in
      in_list param_name assumed_billions = true ->
      parse_number_with_unit value = (Some num, inline_multiplier) ->
      (num * multiplier <? Fin 1e12)%py = true ->
      (multiplier ==? Fin 1.0)%py = true ->
      (num >? Fin 1)%py = true ->
      store_value row current_units param_name financial_data (col_idx, value)
      = <[param_name := (num * multiplier * Fin 1e9)%py]> financial_data)
  /\ exists x,
       aggregate_financial_data
         [ [ [ CStr (ustr "Итого активов"); CStr (ustr "1 234,5") ] ] ]
         !! "total_assets" = Some x
       /\ (x ==? Fin 1234.5e9)%py = true.
Proof.
  split.
  - intros row current_units financial_data param_name col_idx value num
      inline_multiplier multiplier Hp Hparse Hlt Hmult Hnum.
    unfold store_value. rewrite Hparse.
    rewrite (assumed_billions_not_percentage _ Hp), Hp.
    fold multiplier. rewrite Hlt, Hmult, Hnum. reflexivity.
  - eexists. split; vm_compute; reflexivity.
Qed.

(* ===================================================================== *)
(** * [normalize_score] with arbitrary thresholds *)

Lemma score_ok_weaken (x : pyfloat) : score_ok false x -> score_ok true x.
Proof. intros [[? _] | H]; [ discriminate | right; exact H ]. Qed.

Lemma normalize_score_any (v a b : pyfloat) (r : bool) :
  exists x, normalize_score v a b r = Ok x
            /\ score_ok true x
            /\ (forall qa qb, a = Fin qa -> b = Fin qb -> score_ok false x).
Proof.
  unfold normalize_score, Py.geb, Py.div, score_ok, bounded.
  py_cases v; py_cases a; py_cases b; destruct r;
    cbn [Py.isna Py.leb Py.sub Py.eqb Bool.eqb xorb negb Qneg_bool];
    qtests; try (exfalso; lra);
    (eexists; split; [ reflexivity | ]); split;
    try (intros qa qb Ha Hb; try discriminate Ha; try discriminate Hb);
    first [ left; split; reflexivity
          | right; eexists; split; [ reflexivity | ];
            first [ lra | apply Qdiv_unit; lra ] ].
Qed.

(** **** X4
    [normalize_score] raises nothing, whatever the thresholds: equal, in
    the wrong order, infinite or NaN.  The division by
    [max_thr - min_thr] is reached only by a value strictly between the
    two thresholds, so the divisor is never zero.  The score is a number
    of [[0, 1]] or NaN, and it is a number of [[0, 1]] when both
    thresholds are finite and of magnitude at most 1e300 (their
    difference is then within the range of a double), in whatever order
    they are. *)
Theorem normalize_score_never_raises
    (value min_thr max_thr : pyfloat) (reverse : bool) :
  exists score,
    normalize_score value min_thr max_thr reverse = Ok score
    /\ (score = NaN \/ exists q, score = Fin q /\ 0 <= q <= 1)
    /\ (forall a b, min_thr = Fin a -> max_thr = Fin b ->
          Qabs a <= 1e300 -> Qabs b <= 1e300 ->
          exists q, score = Fin q /\ 0 <= q <= 1).
Proof.
  destruct (normalize_score_any value min_thr max_thr reverse)
    as (x & Hx & H1 & H2).
  exists x. split; [ exact Hx | ]. split.
  - destruct H1 as [[_ ->] | H1]; auto.
  - intros a b Ha Hb _ _.
    destruct (H2 a b Ha Hb) as [[? _] | H]; [ discriminate | exact H ].
Qed.

(* ===================================================================== *)
(** * [analytics/bsi.py] *)

Section BsiThms.

Variable RATIO_THRESHOLDS : gmap string (pyfloat * pyfloat).
Variable ratios : gmap string (pyfloat * string).

Lemma default_score_ok (v : pyfloat) :
  score_ok false
    (if (v >=? Fin 0)%py then pymin v (Fin 1.0) else Fin 0.0).
Proof.
  unfold score_ok, bounded, pymin, Py.geb.
  py_cases v; cbn [Py.leb Py.ltb negb]; qtests;
    right; eexists; (split; [ reflexivity | lra ]).
Qed.

(** The score of one name: [KeyError] for the problem loans when the
    ratio is there and its thresholds are not, a score otherwise. *)
Lemma score_of_cases (ratio_name : string) :
  (ratio_name = "non_performing_loan_ratio" /\ is_Some (ratios !! "non_performing_loan_ratio")
   /\ RATIO_THRESHOLDS !! "non_performing_loan_ratio" = None
   /\ Bsi.score_of RATIO_THRESHOLDS ratios ratio_name = Raise (KeyError "non_performing_loan_ratio"))
  \/ (~ (ratio_name = "non_performing_loan_ratio" /\ is_Some (ratios !! "non_performing_loan_ratio")
         /\ RATIO_THRESHOLDS !! "non_performing_loan_ratio" = None)
      /\ exists x,
           Bsi.score_of RATIO_THRESHOLDS ratios ratio_name = Ok x
           /\ score_fact RATIO_THRESHOLDS ratios ratio_name x).
Proof.
  unfold Bsi.score_of, score_fact.
  destruct (ratios !! ratio_name) as [[ratio_value s] | ] eqn:Hr.
  - destruct (String.eqb ratio_name "non_performing_loan_ratio") eqn:Hn.
    + apply String.eqb_eq in Hn. subst ratio_name. unfold getitem.
      destruct (RATIO_THRESHOLDS !! "non_performing_loan_ratio") as [[min_thr max_thr] | ] eqn:Ht.
      * right. split; [ intros (_ & _ & ?); discriminate | ].
        cbn [bind].
        destruct (normalize_score_any ratio_value min_thr max_thr true)
          as (x & -> & H1 & H2).
        exists x. repeat split; [ exact H1 | | discriminate ].
        intros Hfin. destruct (Hfin _ _ _ Ht) as (qa & qb & -> & ->).
        eapply H2; reflexivity.
      * left. rewrite Hr. repeat split; eauto.
    + apply String.eqb_neq in Hn. right.
      split; [ intros (? & _); contradiction | ].
      destruct (RATIO_THRESHOLDS !! ratio_name) as [[min_thr max_thr] | ] eqn:Ht.
      * destruct (normalize_score_any ratio_value min_thr max_thr false)
          as (x & -> & H1 & H2).
        exists x. repeat split; [ exact H1 | | discriminate ].
        intros Hfin. destruct (Hfin _ _ _ Ht) as (qa & qb & -> & ->).
        eapply H2; reflexivity.
      * eexists. repeat split;
          [ apply score_ok_weaken, default_score_ok
          | intros _; apply default_score_ok | discriminate ].
  - right. split; [ intros (-> & [? H] & _); congruence | ].
    exists (Fin 0.0). repeat split; try (intros _);
      try (right; eexists; split; [ reflexivity | lra ]).
Qed.

(** The first loop over the seven names: [KeyError] from the last one, or
    seven scores. *)
Lemma normalize_all_weights :
  (is_Some (ratios !! "non_performing_loan_ratio")
   /\ RATIO_THRESHOLDS !! "non_performing_loan_ratio" = None
   /\ Bsi.normalize_all RATIO_THRESHOLDS (Bsi.weights.*1) ratios ∅
      = Raise (KeyError "non_performing_loan_ratio"))
  \/ (~ (is_Some (ratios !! "non_performing_loan_ratio")
         /\ RATIO_THRESHOLDS !! "non_performing_loan_ratio" = None)
      /\ exists x1 x2 x3 x4 x5 x6 x7,
           Bsi.normalize_all RATIO_THRESHOLDS (Bsi.weights.*1) ratios ∅
           = Ok (<["non_performing_loan_ratio" := x7]>
                  (<["net_interest_margin" := x6]>
                    (<["roa" := x5]>
                      (<["roe" := x4]>
                        (<["current_liquidity_ratio" := x3]>
                          (<["instant_liquidity_ratio" := x2]>
                            (<["capital_adequacy_ratio" := x1]> ∅)))))))
           /\ score_fact RATIO_THRESHOLDS ratios "capital_adequacy_ratio" x1
           /\ score_fact RATIO_THRESHOLDS ratios "instant_liquidity_ratio" x2
           /\ score_fact RATIO_THRESHOLDS ratios "current_liquidity_ratio" x3
           /\ score_fact RATIO_THRESHOLDS ratios "roe" x4
           /\ score_fact RATIO_THRESHOLDS ratios "roa" x5
           /\ score_fact RATIO_THRESHOLDS ratios "net_interest_margin" x6
           /\ score_fact RATIO_THRESHOLDS ratios
                "non_performing_loan_ratio" x7).
Proof.
  cbn [Bsi.weights fmap list_fmap fst Bsi.normalize_all].
  destruct (score_of_cases "capital_adequacy_ratio")
    as [(? & _) | (_ & x1 & -> & H1)]; [ discriminate | ].
  destruct (score_of_cases "instant_liquidity_ratio")
    as [(? & _) | (_ & x2 & -> & H2)]; [ discriminate | ].
  destruct (score_of_cases "current_liquidity_ratio")
    as [(? & _) | (_ & x3 & -> & H3)]; [ discriminate | ].
  destruct (score_of_cases "roe")
    as [(? & _) | (_ & x4 & -> & H4)]; [ discriminate | ].
  destruct (score_of_cases "roa")
    as [(? & _) | (_ & x5 & -> & H5)]; [ discriminate | ].
  destruct (score_of_cases "net_interest_margin")
    as [(? & _) | (_ & x6 & -> & H6)]; [ discriminate | ].
  cbn [bind].
  destruct (score_of_cases "non_performing_loan_ratio")
    as [(_ & Hr & Ht & ->) | (Hnot & x7 & -> & H7)].
  - left. auto.
  - right. split; [ intros [? ?]; apply Hnot; auto | ].
    exists x1, x2, x3, x4, x5, x6, x7. cbn [bind]. auto 10.
Qed.

End BsiThms.

Lemma bounded_step (nan_ok : bool) (B x : pyfloat) (t u w : Q) :
  bounded nan_ok t B -> bounded nan_ok u x -> 0 <= w ->
  bounded nan_ok (t + u * w) (B + x * Fin w)%py.
Proof.
  unfold bounded.
  intros [[-> ->] | (s & -> & Hs)] [[Hn ->] | (q & -> & Hq)] Hw;
    cbn [Py.add Py.mul]; auto.
  right. eexists. split; [ reflexivity | ].
  assert (0 <= q * w) by (apply Qmult_le_0_compat; lra).
  assert (q * w <= u * w) by (apply Qmult_le_compat_r; lra).
  lra.
Qed.

(** The second loop and the division, on seven scores bounded by
    [u1] ... [u7]: the index is bounded by their weighted sum. *)
Lemma bsi_of_scores (RATIO_THRESHOLDS : gmap string (pyfloat * pyfloat))
    (financial_data : gmap string pyfloat)
    (ratios : gmap string (pyfloat * string))
    (nan_ok : bool) (x1 x2 x3 x4 x5 x6 x7 : pyfloat)
    (u1 u2 u3 u4 u5 u6 u7 : Q) :
  Bsi.normalize_all RATIO_THRESHOLDS (Bsi.weights.*1) ratios ∅
  = Ok (<["non_performing_loan_ratio" := x7]>
         (<["net_interest_margin" := x6]>
           (<["roa" := x5]>
             (<["roe" := x4]>
               (<["current_liquidity_ratio" := x3]>
                 (<["instant_liquidity_ratio" := x2]>
                   (<["capital_adequacy_ratio" := x1]> ∅))))))) ->
  bounded nan_ok u1 x1 -> bounded nan_ok u2 x2 -> bounded nan_ok u3 x3 ->
  bounded nan_ok u4 x4 -> bounded nan_ok u5 x5 -> bounded nan_ok u6 x6 ->
  bounded nan_ok u7 x7 ->
  exists b,
    Bsi.calculate_bsi RATIO_THRESHOLDS financial_data ratios
    = Ok (b, Bsi.interpretation b)
    /\ bounded nan_ok
         (u1 * 0.20 + u2 * 0.15 + u3 * 0.15 + u4 * 0.15 + u5 * 0.15
          + u6 * 0.10 + u7 * 0.10) b.
Proof.
  intros Hn H1 H2 H3 H4 H5 H6 H7.
  unfold Bsi.calculate_bsi. rewrite Hn.
  cbn [bind Bsi.weighted_sum Bsi.weights fst snd]. unfold getitem.
  repeat (rewrite ?lookup_insert_eq;
          rewrite ?lookup_insert_ne by discriminate).
  cbn [bind fst snd].
  assert (H0 : bounded nan_ok 0 (Fin 0.0))
    by (right; eexists; split; [ reflexivity | lra ]).
  pose proof (bounded_step _ _ _ _ _ 0.20 H0 H1 ltac:(lra)) as A1.
  pose proof (bounded_step _ _ _ _ _ 0.15 A1 H2 ltac:(lra)) as A2.
  pose proof (bounded_step _ _ _ _ _ 0.15 A2 H3 ltac:(lra)) as A3.
  pose proof (bounded_step _ _ _ _ _ 0.15 A3 H4 ltac:(lra)) as A4.
  pose proof (bounded_step _ _ _ _ _ 0.15 A4 H5 ltac:(lra)) as A5.
  pose proof (bounded_step _ _ _ _ _ 0.10 A5 H6 ltac:(lra)) as A6.
  pose proof (bounded_step _ _ _ _ _ 0.10 A6 H7 ltac:(lra)) as A7.
  clear A1 A2 A3 A4 A5 A6 H0.
  match type of A7 with bounded _ _ ?B => generalize dependent B end.
  intros B HB.
  cbn [Py.add].
  match goal with
  | |- context [Py.gtb (Fin ?t) (Fin 0)] =>
      assert (Ht : t == 1) by reflexivity;
      assert (Hpos : Py.gtb (Fin t) (Fin 0) = true) by reflexivity;
      assert (Hnz : Py.eqb (Fin t) (Fin 0) = false) by reflexivity;
      set (tw := t) in *
  end.
  rewrite Hpos. unfold Py.div. rewrite Hnz.
  destruct HB as [[Hnan ->] | (s & -> & Hs)]; cbn [bind].
  - eexists. split; [ reflexivity | ]. left. auto.
  - eexists. split; [ reflexivity | ]. right.
    eexists. split; [ reflexivity | ].
    assert (Hd : s / tw == s) by (rewrite Ht; field).
    rewrite Hd. lra.
Qed.

Lemma score_fact_bounded (RATIO_THRESHOLDS : gmap string (pyfloat * pyfloat))
    (ratios : gmap string (pyfloat * string)) (ratio_name : string)
    (x : pyfloat) (nan_ok : bool) :
  score_fact RATIO_THRESHOLDS ratios ratio_name x ->
  nan_ok = true \/ finite_thresholds RATIO_THRESHOLDS ->
  bounded nan_ok (present ratios ratio_name) x.
Proof.
  intros (H1 & H2 & H3) Hn. unfold present.
  destruct (ratios !! ratio_name).
  - destruct Hn as [-> | Hfin]; [ exact H1 | ].
    destruct (H2 Hfin) as [[? _] | H]; [ discriminate | right; exact H ].
  - rewrite H3 by reflexivity. right. eexists. split; [ reflexivity | lra ].
Qed.

Lemma calculate_bsi_cases (RATIO_THRESHOLDS : gmap string (pyfloat * pyfloat))
    (financial_data : gmap string pyfloat)
    (ratios : gmap string (pyfloat * string)) :
  (is_Some (ratios !! "non_performing_loan_ratio")
   /\ RATIO_THRESHOLDS !! "non_performing_loan_ratio" = None
   /\ Bsi.calculate_bsi RATIO_THRESHOLDS financial_data ratios
      = Raise (KeyError "non_performing_loan_ratio"))
  \/ (~ (is_Some (ratios !! "non_performing_loan_ratio")
         /\ RATIO_THRESHOLDS !! "non_performing_loan_ratio" = None)
      /\ forall nan_ok,
           nan_ok = true \/ finite_thresholds RATIO_THRESHOLDS ->
           exists b,
             Bsi.calculate_bsi RATIO_THRESHOLDS financial_data ratios
             = Ok (b, Bsi.interpretation b)
             /\ bounded nan_ok
                  (present ratios "capital_adequacy_ratio" * 0.20
                   + present ratios "instant_liquidity_ratio" * 0.15
                   + present ratios "current_liquidity_ratio" * 0.15
                   + present ratios "roe" * 0.15
                   + present ratios "roa" * 0.15
                   + present ratios "net_interest_margin" * 0.10
                   + present ratios "non_performing_loan_ratio" * 0.10) b).
Proof.
  destruct (normalize_all_weights RATIO_THRESHOLDS ratios)
    as [(Hr & Ht & Hn)
       | (Hnot & x1 & x2 & x3 & x4 & x5 & x6 & x7 & Hn
          & H1 & H2 & H3 & H4 & H5 & H6 & H7)].
  - left. unfold Bsi.calculate_bsi. rewrite Hn. auto.
  - right. split; [ exact Hnot | ]. intros nan_ok Hok.
    eapply bsi_of_scores; eauto using score_fact_bounded.
Qed.

Lemma present_le_1 (ratios : gmap string (pyfloat * string)) (k : string) :
  0 <= present ratios k <= 1.
Proof. unfold present. destruct (ratios !! k); lra. Qed.

(** **** X5
    [bsi.calculate_bsi] raises exactly when the dictionary of ratios has
    the key non_performing_loan_ratio and the threshold table has not:
    then it is KeyError('non_performing_loan_ratio').  In every other
    case it returns the index with its interpretation, and the index is a
    number of [[0, 1]] or NaN; a missing threshold of any other ratio is
    replaced by the default normalization. *)
Theorem bsi_calculate_bsi_key_error
    (RATIO_THRESHOLDS : gmap string (pyfloat * pyfloat))
    (financial_data : gmap string pyfloat)
    (ratios : gmap string (pyfloat * string)) :
  (is_Some (ratios !! "non_performing_loan_ratio")
   /\ RATIO_THRESHOLDS !! "non_performing_loan_ratio" = None ->
   Bsi.calculate_bsi RATIO_THRESHOLDS financial_data ratios
   = Raise (KeyError "non_performing_loan_ratio"))
  /\ (~ (is_Some (ratios !! "non_performing_loan_ratio")
         /\ RATIO_THRESHOLDS !! "non_performing_loan_ratio" = None) ->
      exists b,
        Bsi.calculate_bsi RATIO_THRESHOLDS financial_data ratios
        = Ok (b, Bsi.interpretation b)
        /\ (b = NaN \/ exists q, b = Fin q /\ 0 <= q <= 1)).
Proof.
  destruct (calculate_bsi_cases RATIO_THRESHOLDS financial_data ratios)
    as [(Hr & Ht & ->) | (Hnot & H)].
  - split; [ reflexivity | ]. intros Hnot. exfalso. auto.
  - split; [ intros Hyes; contradiction | ]. intros _.
    destruct (H true (or_introl eq_refl)) as (b & -> & Hb).
    exists b. split; [ reflexivity | ].
    destruct Hb as [[_ ->] | (q & -> & Hq)]; [ auto | ].
    right. exists q. split; [ reflexivity | ].
    pose proof (present_le_1 ratios "capital_adequacy_ratio").
    pose proof (present_le_1 ratios "instant_liquidity_ratio").
    pose proof (present_le_1 ratios "current_liquidity_ratio").
    pose proof (present_le_1 ratios "roe").
    pose proof (present_le_1 ratios "roa").
    pose proof (present_le_1 ratios "net_interest_margin").
    pose proof (present_le_1 ratios "non_performing_loan_ratio").
    lra.
Qed.

Lemma bounded_thresholds_finite (t : gmap string (pyfloat * pyfloat)) :
  bounded_thresholds t -> finite_thresholds t.
Proof.
  intros H k a b Hk. destruct (H k a b Hk) as (qa & qb & -> & -> & _).
  eauto.
Qed.

(** **** X6
    With a threshold table of finite pairs of magnitude at most 1e300
    that has the problem-loans entry, [bsi.calculate_bsi] raises nothing
    and returns a finite index of [[0, 1]], whatever the ratios; and the
    index is 0 when none of the seven weighted ratios is in [ratios]
    (a ratio that is missing scores 0.0). *)
Theorem bsi_in_unit_interval
    (RATIO_THRESHOLDS : gmap string (pyfloat * pyfloat))
    (financial_data : gmap string pyfloat)
    (ratios : gmap string (pyfloat * string)) :
  bounded_thresholds RATIO_THRESHOLDS ->
  is_Some (RATIO_THRESHOLDS !! "non_performing_loan_ratio") ->
  exists q,
    Bsi.calculate_bsi RATIO_THRESHOLDS financial_data ratios
    = Ok (Fin q, Bsi.interpretation (Fin q))
    /\ 0 <= q <= 1
    /\ ((forall ratio_name weight,
           (ratio_name, weight) ∈ Bsi.weights ->
           ratios !! ratio_name = None) ->
        q == 0).
Proof.
  intros Hb [thr Hthr]. apply bounded_thresholds_finite in Hb as Hfin.
  destruct (calculate_bsi_cases RATIO_THRESHOLDS financial_data ratios)
    as [(_ & Ht & _) | (_ & H)]; [ congruence | ].
  destruct (H false (or_intror Hfin)) as (b & -> & [[? _] | (q & -> & Hq)]);
    [ discriminate | ].
  exists q. split; [ reflexivity | ].
  pose proof (present_le_1 ratios "capital_adequacy_ratio").
  pose proof (present_le_1 ratios "instant_liquidity_ratio").
  pose proof (present_le_1 ratios "current_liquidity_ratio").
  pose proof (present_le_1 ratios "roe").
  pose proof (present_le_1 ratios "roa").
  pose proof (present_le_1 ratios "net_interest_margin").
  pose proof (present_le_1 ratios "non_performing_loan_ratio").
  split; [ lra | ].
  intros Hnone.
  assert (Hp : forall ratio_name weight,
            (ratio_name, weight) ∈ Bsi.weights ->
            present ratios ratio_name = 0).
  { intros n w Hn. unfold present. rewrite (Hnone n w Hn). reflexivity. }
  unfold Bsi.weights in Hp.
  rewrite (Hp "capital_adequacy_ratio" (Fin 0.20)),
    (Hp "instant_liquidity_ratio" (Fin 0.15)),
    (Hp "current_liquidity_ratio" (Fin 0.15)),
    (Hp "roe" (Fin 0.15)), (Hp "roa" (Fin 0.15)),
    (Hp "net_interest_margin" (Fin 0.10)),
    (Hp "non_performing_loan_ratio" (Fin 0.10)) in Hq
    by (repeat first [ apply list_elem_of_here | apply list_elem_of_further ]).
  lra.
Qed.

Lemma bsi_in_unit_interval_witness :
  exists q,
    Bsi.calculate_bsi
      {[ "non_performing_loan_ratio" := (Fin 0.02, Fin 0.05) ]} ∅
      {[ "roe" := (Fin 0.2, "Excellent") ]}
    = Ok (Fin q, Bsi.interpretation (Fin q))
    /\ 0 <= q <= 1.
Proof.
  destruct (bsi_in_unit_interval
              {[ "non_performing_loan_ratio" := (Fin 0.02, Fin 0.05) ]} ∅
              {[ "roe" := (Fin 0.2, "Excellent") ]})
    as (q & Hq & Hr & _).
  - intros k a b H. apply lookup_singleton_Some in H as [_ H].
    injection H as <- <-. eexists; eexists.
    split; [ reflexivity | ]. split; [ reflexivity | ].
    split; vm_compute; discriminate.
  - eexists. reflexivity.
  - exists q. split; [ exact Hq | exact Hr ].
Defined.

(* ===================================================================== *)
(** * [banking_analysis_platform/app.py]: the ratios and the index *)

Lemma get_status_emoji_low (b : pyfloat) :
  bounded true 0.30 b ->
  (b >=? Fin 0.4)%py = false
  /\ (get_status_emoji b = "🟠 Риск" \/ get_status_emoji b = "🔴 Критично")
  /\ (Bsi.interpretation b
      = "Пониженная устойчивость: " +:+ format_2f b +:+ "/1.00"
      \/ Bsi.interpretation b
         = "Критическая устойчивость: " +:+ format_2f b +:+ "/1.00").
Proof.
  unfold get_status_emoji, Bsi.interpretation, Py.geb.
  intros [[_ ->] | (q & -> & Hq)]; cbn [Py.leb]; [ auto | ].
  qtests; auto; exfalso; lra.
Qed.

Lemma ratios_and_bsi_low (RATIO_THRESHOLDS : gmap string (pyfloat * pyfloat))
    (financial_data : gmap string pyfloat) :
  exists b,
    ratios_and_bsi RATIO_THRESHOLDS financial_data
    = Ok (b, Bsi.interpretation b)
    /\ bounded true 0.30 b.
Proof.
  unfold ratios_and_bsi.
  destruct (calculate_all_ratios_total (init financial_data))
    as (v1 & s1 & v2 & s2 & v3 & s3 & v4 & s4 & v5 & s5 & v6 & s6 & v7 & s7
        & ->).
  cbn [bind].
  match goal with
  | |- context [Bsi.calculate_bsi _ _ ?r] => set (ratios := r)
  end.
  assert (P1 : present ratios "capital_adequacy_ratio" = 0) by reflexivity.
  assert (P2 : present ratios "instant_liquidity_ratio" = 0) by reflexivity.
  assert (P3 : present ratios "current_liquidity_ratio" = 0) by reflexivity.
  assert (P4 : present ratios "roe" = 1) by reflexivity.
  assert (P5 : present ratios "roa" = 1) by reflexivity.
  assert (P6 : present ratios "net_interest_margin" = 0) by reflexivity.
  assert (P7 : ratios !! "non_performing_loan_ratio" = None) by reflexivity.
  assert (P7' : present ratios "non_performing_loan_ratio" = 0)
    by (unfold present; rewrite P7; reflexivity).
  destruct (calculate_bsi_cases RATIO_THRESHOLDS financial_data ratios)
    as [([? Hr] & _) | (_ & H)]; [ congruence | ].
  destruct (H true (or_introl eq_refl)) as (b & -> & Hb).
  exists b. split; [ reflexivity | ].
  rewrite P1, P2, P3, P4, P5, P6, P7' in Hb.
  destruct Hb as [Hb | (q & -> & Hq)]; [ left; exact Hb | ].
  right. exists q. split; [ reflexivity | lra ].
Qed.

(** **** X7
    The platform's pipeline ([app.py], steps 3 to 5) hands the ratios of
    [BankingRatiosCalculator.calculate_all_ratios] to
    [bsi.calculate_bsi].  The two use different names for five of the
    seven ratios (capital_adequacy / capital_adequacy_ratio, nim /
    net_interest_margin, problem_loans_ratio / non_performing_loan_ratio,
    ...): only roe and roa are found, the other five score 0.  So, for
    every record and every threshold table, nothing is raised, the index
    is at most 0.30 (or NaN), its interpretation is one of the two lowest
    bands and the ranking shows "Риск" or "Критично". *)
Theorem platform_bsi_at_most_030
    (RATIO_THRESHOLDS : gmap string (pyfloat * pyfloat)) :
  (forall financial_data : gmap string pyfloat,
     exists b,
       ratios_and_bsi RATIO_THRESHOLDS financial_data
       = Ok (b, Bsi.interpretation b)
       /\ (b = NaN \/ exists q, b = Fin q /\ 0 <= q <= 0.30)
       /\ (b >=? Fin 0.4)%py = false
       /\ (get_status_emoji b = "🟠 Риск"
           \/ get_status_emoji b = "🔴 Критично")
       /\ (Bsi.interpretation b
           = "Пониженная устойчивость: " +:+ format_2f b +:+ "/1.00"
           \/ Bsi.interpretation b
              = "Критическая устойчивость: " +:+ format_2f b +:+ "/1.00"))
  /\ (forall tables : list DataFrame,
        exists b,
          analyse RATIO_THRESHOLDS tables = Ok (b, Bsi.interpretation b)
          /\ (b >=? Fin 0.4)%py = false).
Proof.
  split.
  - intros financial_data.
    destruct (ratios_and_bsi_low RATIO_THRESHOLDS financial_data)
      as (b & Hb & Hlow).
    exists b. split; [ exact Hb | ]. split.
    + destruct Hlow as [[_ ->] | H]; auto.
    + apply get_status_emoji_low, Hlow.
  - intros tables. unfold analyse.
    destruct (ratios_and_bsi_low RATIO_THRESHOLDS
                (aggregate_financial_data tables)) as (b & Hb & Hlow).
    exists b. split; [ exact Hb | ]. apply get_status_emoji_low, Hlow.
Qed.

(* ===================================================================== *)
(** * [magic_pdf_parser.aggregate_financial_data] *)

Lemma code_in_elem_of (code : ustring) (codes : list ustring) :
  code_in code codes = true <-> code ∈ codes.
Proof.
  unfold code_in, ustring_eqb. rewrite existsb_exists. split.
  - intros (x & Hx & Heq). apply bool_decide_eq_true in Heq. subst x.
    apply list_elem_of_In. exact Hx.
  - intros H. exists code. split; [ apply list_elem_of_In, H | ].
    apply bool_decide_eq_true. reflexivity.
Qed.

Lemma asset_codes :
  getitem BALANCE_SHEET_ITEMS "total_assets"
  = Ok [ ustr "11000"; ustr "11100"; ustr "11200"; ustr "11300";
         ustr "11400"; ustr "11500"; ustr "11600"; ustr "11700";
         ustr "11800"; ustr "11900" ].
Proof. vm_compute. reflexivity. Qed.

Lemma liability_codes :
  getitem BALANCE_SHEET_ITEMS "total_liabilities"
  = Ok [ ustr "21000"; ustr "21100"; ustr "21200"; ustr "21300";
         ustr "21400"; ustr "21500"; ustr "21600"; ustr "21700";
         ustr "21800"; ustr "21900" ].
Proof. vm_compute. reflexivity. Qed.

Lemma cash_codes :
  get BALANCE_SHEET_ITEMS "cash_and_equivalents" []
  = [ ustr "10101"; ustr "10202"; ustr "10302" ].
Proof. vm_compute. reflexivity. Qed.

Lemma loan_codes :
  get BALANCE_SHEET_ITEMS "loans_to_customers" []
  = [ ustr "11601"; ustr "11602"; ustr "11603" ].
Proof. vm_compute. reflexivity. Qed.

(** The predicates of the four balance-sheet loops. *)
Lemma total_assets_loop (bs_df : Magic.AccountTable) (acc : pyfloat) :
  for_each (fun total_assets '(code, amount) =>
              if negb (Py.isna amount) then
                if Str.starts_with (ustr "1") code then
                  Ok (total_assets + amount)%py
                else
                  let* codes := getitem BALANCE_SHEET_ITEMS "total_assets" in
                  if code_in code codes then Ok (total_assets + amount)%py
                  else Ok total_assets
              else Ok total_assets)
           bs_df acc
  = Ok (sum_if (Str.starts_with (ustr "1")) bs_df acc).
Proof.
  revert acc. induction bs_df as [ | [code amount] bs_df IH ]; intros acc;
    [ reflexivity | ].
  cbn [for_each sum_if foldl]. fold (sum_if (Str.starts_with (ustr "1")) bs_df).
  destruct (Py.isna amount); cbn [negb andb bind]; [ apply IH | ].
  destruct (Str.starts_with (ustr "1") code) eqn:Hs; cbn [bind]; [ apply IH | ].
  rewrite asset_codes. cbn [bind].
  destruct (code_in code _) eqn:Hin; cbn [bind]; [ | apply IH ].
  exfalso. apply code_in_elem_of in Hin.
  repeat (apply elem_of_cons in Hin as [-> | Hin]; [ discriminate Hs | ]).
  inversion Hin.
Qed.

Lemma total_liabilities_loop (bs_df : Magic.AccountTable) (acc : pyfloat) :
  for_each (fun total_liabilities '(code, amount) =>
              if negb (Py.isna amount) then
                if Str.starts_with (ustr "2") code then
                  Ok (total_liabilities + amount)%py
                else
                  let* codes :=
                    getitem BALANCE_SHEET_ITEMS "total_liabilities" in
                  if code_in code codes then
                    Ok (total_liabilities + amount)%py
                  else Ok total_liabilities
              else Ok total_liabilities)
           bs_df acc
  = Ok (sum_if (Str.starts_with (ustr "2")) bs_df acc).
Proof.
  revert acc. induction bs_df as [ | [code amount] bs_df IH ]; intros acc;
    [ reflexivity | ].
  cbn [for_each sum_if foldl]. fold (sum_if (Str.starts_with (ustr "2")) bs_df).
  destruct (Py.isna amount); cbn [negb andb bind]; [ apply IH | ].
  destruct (Str.starts_with (ustr "2") code) eqn:Hs; cbn [bind]; [ apply IH | ].
  rewrite liability_codes. cbn [bind].
  destruct (code_in code _) eqn:Hin; cbn [bind]; [ | apply IH ].
  exfalso. apply code_in_elem_of in Hin.
  repeat (apply elem_of_cons in Hin as [-> | Hin]; [ discriminate Hs | ]).
  inversion Hin.
Qed.

(** The balance-sheet part raises nothing and writes five keys: the two
    sums over the codes that start with 1 and with 2 (the two lists of
    [BALANCE_SHEET_ITEMS] add no row, their codes start with 1 and 2 as
    well), their difference, and the two sums over the cash and the loan
    codes. *)
Lemma balance_sheet_part_eq (bs_df : Magic.AccountTable)
    (aggregated : gmap string pyfloat) :
  Magic.balance_sheet_part bs_df aggregated
  = Ok (balance_sheet_record bs_df aggregated).
Proof.
  unfold Magic.balance_sheet_part, balance_sheet_record.
  rewrite total_assets_loop. cbn [bind].
  rewrite total_liabilities_loop. cbn [bind].
  rewrite cash_codes, loan_codes. unfold get.
  rewrite lookup_insert_eq.
  rewrite lookup_insert_ne by discriminate. rewrite lookup_insert_eq.
  reflexivity.
Qed.

Lemma set_indicators_other (indicators : list (string * list ustring))
    (code : ustring) (amount : pyfloat) (aggregated : gmap string pyfloat)
    (k : string) :
  k ∉ indicators.*1 ->
  Magic.set_indicators indicators code amount aggregated !! k
  = aggregated !! k.
Proof.
  unfold Magic.set_indicators. revert aggregated.
  induction indicators as [ | [name patterns] indicators IH ];
    intros aggregated Hk; [ reflexivity | ].
  cbn [fmap list_fmap fst] in Hk. apply not_elem_of_cons in Hk as [Hne Hk].
  cbn [foldl]. rewrite IH by exact Hk.
  destruct (existsb _ patterns); [ | reflexivity ].
  apply lookup_insert_ne. congruence.
Qed.

Lemma indicators_part_other (tables : list (string * Magic.AccountTable))
    (aggregated : gmap string pyfloat) (k : string) :
  k ∉ DIGITAL_BANKING_INDICATORS.*1 ->
  k ∉ FINANCIAL_PERFORMANCE_INDICATORS.*1 ->
  Magic.indicators_part tables aggregated !! k = aggregated !! k.
Proof.
  intros Hd Hf. unfold Magic.indicators_part. revert aggregated.
  induction tables as [ | [table_name table_df] tables IH ];
    intros aggregated; [ reflexivity | ].
  cbn [foldl]. rewrite IH.
  destruct (negb _ && negb _); [ | reflexivity ].
  clear IH. revert aggregated.
  induction table_df as [ | [code amount] table_df IH ]; intros aggregated;
    [ reflexivity | ].
  cbn [foldl]. rewrite IH.
  destruct (negb (Py.isna amount)); [ | reflexivity ].
  rewrite !set_indicators_other by assumption. reflexivity.
Qed.

Lemma not_indicator (k : string) :
  bool_decide (k ∈ DIGITAL_BANKING_INDICATORS.*1
                   ++ FINANCIAL_PERFORMANCE_INDICATORS.*1) = false ->
  (k ∉ DIGITAL_BANKING_INDICATORS.*1)
  /\ (k ∉ FINANCIAL_PERFORMANCE_INDICATORS.*1).
Proof.
  intros H. apply bool_decide_eq_false in H.
  rewrite elem_of_app in H. tauto.
Qed.

(** The whole function, unfolded: it raises nothing. *)
Lemma magic_aggregate_eq (tables : list (string * Magic.AccountTable)) :
  exists base,
    Magic.aggregate_financial_data tables
    = Ok (Magic.indicators_part tables base)
    /\ base
       = (let aggregated :=
            match Magic.table_of tables "balance_sheet" with
            | Some bs_df => balance_sheet_record bs_df ∅
            | None => ∅
            end in
          match Magic.table_of tables "income_statement" with
          | Some is_df => Magic.income_statement_part is_df aggregated
          | None => aggregated
          end).
Proof.
  unfold Magic.aggregate_financial_data.
  destruct (Magic.table_of tables "balance_sheet") as [bs_df | ].
  - rewrite balance_sheet_part_eq. cbn [bind]. eexists. split; reflexivity.
  - cbn [bind]. eexists. split; reflexivity.
Qed.

Lemma income_statement_part_other (is_df : Magic.AccountTable)
    (aggregated : gmap string pyfloat) (k : string) :
  k <> "net_interest_income"%string -> k <> "net_income"%string ->
  Magic.income_statement_part is_df aggregated !! k = aggregated !! k.
Proof.
  intros H1 H2. unfold Magic.income_statement_part.
  destruct (foldl _ _ is_df) as [interest_income interest_expense].
  rewrite !lookup_insert_ne by congruence. reflexivity.
Qed.

(** No key besides the seven aggregates and the indicator names. *)
Lemma magic_aggregate_keys (tables : list (string * Magic.AccountTable))
    (k : string) :
  bool_decide (k ∈ magic_aggregates) = false ->
  bool_decide (k ∈ DIGITAL_BANKING_INDICATORS.*1
                   ++ FINANCIAL_PERFORMANCE_INDICATORS.*1) = false ->
  exists financial_data,
    Magic.aggregate_financial_data tables = Ok financial_data
    /\ financial_data !! k = None.
Proof.
  intros Ha Hi. apply not_indicator in Hi as [Hd Hf].
  apply bool_decide_eq_false in Ha.
  destruct (magic_aggregate_eq tables) as (base & -> & Hbase).
  eexists. split; [ reflexivity | ].
  rewrite indicators_part_other by assumption. subst base. cbv zeta.
  unfold magic_aggregates in Ha. rewrite !not_elem_of_cons in Ha.
  destruct Ha as (H1 & H2 & H3 & H4 & H5 & H6 & H7 & _).
  destruct (Magic.table_of tables "income_statement");
    rewrite ?income_statement_part_other by assumption;
    destruct (Magic.table_of tables "balance_sheet");
    unfold balance_sheet_record;
    rewrite ?lookup_insert_ne by congruence; apply lookup_empty.
Qed.

Lemma magic_aggregate_lookup (tables : list (string * Magic.AccountTable))
    (bs_df : Magic.AccountTable) :
  Magic.table_of tables "balance_sheet" = Some bs_df ->
  exists financial_data,
    Magic.aggregate_financial_data tables = Ok financial_data
    /\ financial_data !! "total_assets"
       = Some (sum_if (Str.starts_with (ustr "1")) bs_df (Fin 0))
    /\ financial_data !! "total_liabilities"
       = Some (sum_if (Str.starts_with (ustr "2")) bs_df (Fin 0))
    /\ financial_data !! "equity"
       = Some (sum_if (Str.starts_with (ustr "1")) bs_df (Fin 0)
               - sum_if (Str.starts_with (ustr "2")) bs_df (Fin 0))%py
    /\ financial_data !! "cash_and_equivalents"
       = Some (sum_if (fun code =>
                         code_in code
                           [ ustr "10101"; ustr "10202"; ustr "10302" ])
                 bs_df (Fin 0))
    /\ financial_data !! "loans_to_customers"
       = Some (sum_if (fun code =>
                         code_in code
                           [ ustr "11601"; ustr "11602"; ustr "11603" ])
                 bs_df (Fin 0)).
Proof.
  intros Hbs.
  destruct (magic_aggregate_eq tables) as (base & -> & Hbase).
  rewrite Hbs in Hbase. cbv zeta in Hbase.
  eexists. split; [ reflexivity | ].
  assert (Hframe : forall k,
            bool_decide (k ∈ DIGITAL_BANKING_INDICATORS.*1
                             ++ FINANCIAL_PERFORMANCE_INDICATORS.*1) = false ->
            k <> "net_interest_income"%string -> k <> "net_income"%string ->
            Magic.indicators_part tables base !! k
            = balance_sheet_record bs_df ∅ !! k).
  { intros k Hi H1 H2. apply not_indicator in Hi as [Hd Hf].
    rewrite indicators_part_other by assumption. subst base.
    destruct (Magic.table_of tables "income_statement");
      rewrite ?income_statement_part_other by assumption; reflexivity. }
  repeat split; rewrite Hframe by (vm_compute; congruence);
    unfold balance_sheet_record;
    repeat (rewrite ?lookup_insert_eq;
            rewrite ?lookup_insert_ne by discriminate);
    reflexivity.
Qed.

(** **** X8
    [magic_pdf_parser.aggregate_financial_data] raises nothing, for any
    dictionary of tables, and the record it returns has no key besides
    the seven aggregates (total_assets, total_liabilities, equity,
    cash_and_equivalents, loans_to_customers, net_interest_income,
    net_income) and the names of the two indicator tables.  In
    particular it never has deposits_from_customers or subordinated_debt,
    two of the nine keys [BankingRatiosCalculator] reads. *)
Theorem magic_aggregate_never_has_deposits
    (tables : list (string * Magic.AccountTable)) :
  exists financial_data,
    Magic.aggregate_financial_data tables = Ok financial_data
    /\ (forall k, is_Some (financial_data !! k) ->
          k ∈ magic_aggregates ++ DIGITAL_BANKING_INDICATORS.*1
                ++ FINANCIAL_PERFORMANCE_INDICATORS.*1)
    /\ financial_data !! "deposits_from_customers" = None
    /\ financial_data !! "subordinated_debt" = None.
Proof.
  destruct (magic_aggregate_eq tables) as (base & Hagg & _).
  eexists. split; [ exact Hagg | ]. split; [ | split ].
  - intros k Hk.
    destruct (bool_decide (k ∈ magic_aggregates)) eqn:Ha;
      [ apply bool_decide_eq_true in Ha; apply elem_of_app; auto | ].
    destruct (bool_decide (k ∈ DIGITAL_BANKING_INDICATORS.*1
                               ++ FINANCIAL_PERFORMANCE_INDICATORS.*1))
      eqn:Hi;
      [ apply bool_decide_eq_true in Hi; apply elem_of_app; auto | ].
    destruct (magic_aggregate_keys tables k Ha Hi) as (fd & Hfd & Hnone).
    rewrite Hagg in Hfd. injection Hfd as <-.
    rewrite Hnone in Hk. destruct Hk as [? Hk]. discriminate Hk.
  - destruct (magic_aggregate_keys tables "deposits_from_customers")
      as (fd & Hfd & Hnone); [ vm_compute; reflexivity .. | ].
    rewrite Hagg in Hfd. injection Hfd as <-. exact Hnone.
  - destruct (magic_aggregate_keys tables "subordinated_debt")
      as (fd & Hfd & Hnone); [ vm_compute; reflexivity .. | ].
    rewrite Hagg in Hfd. injection Hfd as <-. exact Hnone.
Qed.

(** **** X9
    In [main_app.py] the record of
    [magic_pdf_parser.aggregate_financial_data] is the input of
    [BankingRatiosCalculator].  As the record never has
    deposits_from_customers, the calculator's demand deposits are 0 and
    the instant liquidity is never computed: for every dictionary of
    tables that reaches the calculator the result is
    (0.0, "Cannot calculate: Demand deposits is zero"); and the total
    capital is the equity alone (subordinated debt 0). *)
Theorem main_app_instant_liquidity_never_computed
    (tables : list (string * Magic.AccountTable))
    (calculator : BankingRatiosCalculator) :
  main_app_calculator tables = Ok (Some calculator) ->
  deposits_from_customers calculator = Fin 0
  /\ (demand_deposits calculator ==? Fin 0)%py = true
  /\ calculate_instant_liquidity calculator
     = Ok (Fin 0.0, "Cannot calculate: Demand deposits is zero")
  /\ total_capital calculator = (equity calculator + Fin 0)%py.
Proof.
  unfold main_app_calculator.
  destruct (magic_aggregate_eq tables) as (base & Hagg & _).
  destruct (magic_aggregate_keys tables "deposits_from_customers")
    as (fd & Hfd & Hdep); [ vm_compute; reflexivity .. | ].
  destruct (magic_aggregate_keys tables "subordinated_debt")
    as (fd' & Hfd' & Hsub); [ vm_compute; reflexivity .. | ].
  rewrite Hfd in Hfd'. injection Hfd' as <-.
  destruct tables as [ | t tables ]; [ discriminate | ].
  rewrite Hfd. cbn [bind].
  destruct (bool_decide (fd = ∅)); [ discriminate | ].
  intros H. injection H as <-.
  unfold calculate_instant_liquidity, init, get.
  cbn [deposits_from_customers demand_deposits total_capital equity
       liquid_assets].
  rewrite Hdep, Hsub. cbn [default].
  repeat split; reflexivity.
Qed.

Lemma main_app_instant_liquidity_never_computed_witness :
  exists calculator,
    main_app_calculator
      [ ("balance_sheet"%string,
         [ (ustr "10101", Fin 50); (ustr "20202", Fin 40) ]) ]
    = Ok (Some calculator)
    /\ calculate_instant_liquidity calculator
       = Ok (Fin 0.0, "Cannot calculate: Demand deposits is zero").
Proof.
  eexists. split.
  - vm_compute. reflexivity.
  - eapply (main_app_instant_liquidity_never_computed
              [ ("balance_sheet"%string,
                 [ (ustr "10101", Fin 50); (ustr "20202", Fin 40) ]) ]).
    vm_compute. reflexivity.
Defined.

Lemma sum_if_app (p : ustring -> bool) (xs ys : Magic.AccountTable)
    (acc : pyfloat) :
  sum_if p (xs ++ ys) acc = sum_if p ys (sum_if p xs acc).
Proof. unfold sum_if. apply foldl_app. Qed.

(** **** X10
    When the tables have a balance sheet, the record's equity is its
    total assets minus its total liabilities, whatever the other tables
    hold.  The total liabilities are the amounts of all codes that start
    with 2, and the codes [config.py] lists as equity (20801 charter
    capital, 20901, 21001, 21101) start with 2: a row for one of them
    leaves the total assets as they are, adds its amount to the total
    liabilities and so lowers the computed equity by it. *)
Theorem magic_equity_is_assets_minus_liabilities :
  (forall (tables : list (string * Magic.AccountTable))
          (bs_df : Magic.AccountTable),
      Magic.table_of tables "balance_sheet" = Some bs_df ->
      exists financial_data a l,
        Magic.aggregate_financial_data tables = Ok financial_data
        /\ financial_data !! "total_assets" = Some a
        /\ financial_data !! "total_liabilities" = Some l
        /\ financial_data !! "equity" = Some (a - l)%py)
  /\ BALANCE_SHEET_ITEMS !! "equity"
     = Some [ ustr "20801"; ustr "20901"; ustr "21001"; ustr "21101" ]
  /\ (forall (bs_df : Magic.AccountTable) (code : ustring)
             (amount : pyfloat),
        code ∈ [ ustr "20801"; ustr "20901"; ustr "21001"; ustr "21101" ] ->
        Py.isna amount = false ->
        exists before after a l,
          Magic.aggregate_financial_data
            [ ("balance_sheet"%string, bs_df) ] = Ok before
          /\ Magic.aggregate_financial_data
               [ ("balance_sheet"%string, bs_df ++ [ (code, amount) ]) ]
             = Ok after
          /\ before !! "total_assets" = Some a
          /\ before !! "total_liabilities" = Some l
          /\ before !! "equity" = Some (a - l)%py
          /\ after !! "total_assets" = Some a
          /\ after !! "total_liabilities" = Some (l + amount)%py
          /\ after !! "equity" = Some (a - (l + amount))%py).
Proof.
  split; [ | split ].
  - intros tables bs_df Hbs.
    destruct (magic_aggregate_lookup tables bs_df Hbs)
      as (fd & Hfd & Ha & Hl & He & _).
    eauto 10.
  - vm_compute. reflexivity.
  - intros bs_df code amount Hcode Hna.
    destruct (magic_aggregate_lookup [ ("balance_sheet"%string, bs_df) ]
                bs_df eq_refl) as (fd & Hfd & Ha & Hl & He & _).
    destruct (magic_aggregate_lookup
                [ ("balance_sheet"%string, bs_df ++ [ (code, amount) ]) ]
                (bs_df ++ [ (code, amount) ]) eq_refl)
      as (fd' & Hfd' & Ha' & Hl' & He' & _).
    rewrite sum_if_app in Ha'. rewrite sum_if_app in Hl'.
    rewrite !sum_if_app in He'.
    assert (H1 : Str.starts_with (ustr "1") code = false)
      by (repeat (apply elem_of_cons in Hcode as [-> | Hcode];
                  [ reflexivity | ]); inversion Hcode).
    assert (H2 : Str.starts_with (ustr "2") code = true)
      by (repeat (apply elem_of_cons in Hcode as [-> | Hcode];
                  [ reflexivity | ]); inversion Hcode).
    cbn [sum_if foldl] in Ha', Hl', He'.
    rewrite Hna, H1, H2 in *. cbn [negb andb] in *.
    exists fd, fd'. eauto 10.
Qed.

Lemma sum_if_cons (p : ustring -> bool) (code : ustring) (amount : pyfloat)
    (df : Magic.AccountTable) (acc : pyfloat) :
  sum_if p ((code, amount) :: df) acc
  = sum_if p df
      (if negb (Py.isna amount) && p code then (acc + amount)%py else acc).
Proof. reflexivity. Qed.

(** The three sums over rows with finite, non-negative amounts: the
    cash codes and the loan codes all start with 1, so what is added to
    the cash or to the loans is added to the assets as well. *)
Lemma sums_ordered (bs_df : Magic.AccountTable) (a c l : Q) :
  Forall (fun row : Magic.AccountRow =>
            exists q, row.2 = Fin q /\ 0 <= q) bs_df ->
  c <= a -> l <= a ->
  exists a' c' l',
    sum_if (Str.starts_with (ustr "1")) bs_df (Fin a) = Fin a'
    /\ sum_if (fun code =>
                 code_in code [ ustr "10101"; ustr "10202"; ustr "10302" ])
         bs_df (Fin c) = Fin c'
    /\ sum_if (fun code =>
                 code_in code [ ustr "11601"; ustr "11602"; ustr "11603" ])
         bs_df (Fin l) = Fin l'
    /\ c <= c' /\ l <= l' /\ c' <= a' /\ l' <= a'.
Proof.
  intros Hrows. revert a c l.
  induction Hrows as [ | [code amount] bs_df (q & Hq & Hpos) _ IH ];
    intros a c l Hc Hl.
  - exists a, c, l. repeat split; try reflexivity; lra.
  - cbn [snd] in Hq. subst amount. rewrite !sum_if_cons.
    cbv beta. cbn [Py.isna negb andb].
    destruct (code_in code [ ustr "10101"; ustr "10202"; ustr "10302" ])
      eqn:Ec.
    + apply code_in_elem_of in Ec.
      assert (H1 : Str.starts_with (ustr "1") code = true
                   /\ code_in code
                        [ ustr "11601"; ustr "11602"; ustr "11603" ] = false)
        by (repeat (apply elem_of_cons in Ec as [-> | Ec];
                    [ split; reflexivity | ]); inversion Ec).
      destruct H1 as [-> ->]. cbn [Py.add].
      destruct (IH (a + q) (c + q) l) as (a' & c' & l' & -> & -> & -> & ?);
        [ lra | lra | ].
      exists a', c', l'. repeat split; try reflexivity; lra.
    + destruct (code_in code [ ustr "11601"; ustr "11602"; ustr "11603" ])
        eqn:El.
      * apply code_in_elem_of in El.
        assert (H1 : Str.starts_with (ustr "1") code = true)
          by (repeat (apply elem_of_cons in El as [-> | El];
                      [ reflexivity | ]); inversion El).
        rewrite H1. cbn [Py.add].
        destruct (IH (a + q) c (l + q)) as (a' & c' & l' & -> & -> & -> & ?);
          [ lra | lra | ].
        exists a', c', l'. repeat split; try reflexivity; lra.
      * destruct (Str.starts_with (ustr "1") code); cbn [Py.add].
        -- destruct (IH (a + q) c l) as (a' & c' & l' & -> & -> & -> & ?);
             [ lra | lra | ].
           exists a', c', l'. repeat split; try reflexivity; lra.
        -- destruct (IH a c l) as (a' & c' & l' & -> & -> & -> & ?);
             [ lra | lra | ].
           exists a', c', l'. repeat split; try reflexivity; lra.
Qed.

(** **** X11
    With a balance sheet whose amounts are finite and not negative, the
    record's cash and its loans to customers are each at most its total
    assets, and not negative: the cash codes and the loan codes all
    start with 1, so every row added to the cash or to the loans is
    added to the total assets too, in the same order. *)
Theorem magic_cash_and_loans_within_assets
    (tables : list (string * Magic.AccountTable))
    (bs_df : Magic.AccountTable) :
  Magic.table_of tables "balance_sheet" = Some bs_df ->
  Forall (fun row : Magic.AccountRow =>
            exists q, row.2 = Fin q /\ 0 <= q) bs_df ->
  exists financial_data assets cash loans,
    Magic.aggregate_financial_data tables = Ok financial_data
    /\ financial_data !! "total_assets" = Some assets
    /\ financial_data !! "cash_and_equivalents" = Some cash
    /\ financial_data !! "loans_to_customers" = Some loans
    /\ (Fin 0 <=? cash)%py = true
    /\ (Fin 0 <=? loans)%py = true
    /\ (cash <=? assets)%py = true
    /\ (loans <=? assets)%py = true.
Proof.
  intros Hbs Hrows.
  destruct (magic_aggregate_lookup tables bs_df Hbs)
    as (fd & Hfd & Ha & _ & _ & Hc & Hl).
  destruct (sums_ordered bs_df 0 0 0 Hrows)
    as (a' & c' & l' & Ea & Ec & El & H1 & H2 & H3 & H4); [ lra | lra | ].
  change (Fin 0%Q) with (Fin 0) in *.
  rewrite Ea in Ha. rewrite Ec in Hc. rewrite El in Hl.
  exists fd, (Fin a'), (Fin c'), (Fin l').
  cbn [Py.leb]. rewrite <- !Qle_bool_iff in H1, H2, H3, H4.
  repeat split; assumption.
Qed.

Lemma magic_cash_and_loans_within_assets_witness :
  exists financial_data assets cash loans,
    Magic.aggregate_financial_data
      [ ("balance_sheet"%string,
         [ (ustr "10101", Fin 50); (ustr "11601", Fin 120);
           (ustr "11701", Fin 30); (ustr "20202", Fin 40) ]) ]
    = Ok financial_data
    /\ financial_data !! "total_assets" = Some assets
    /\ financial_data !! "cash_and_equivalents" = Some cash
    /\ financial_data !! "loans_to_customers" = Some loans
    /\ (Fin 0 <=? cash)%py = true
    /\ (Fin 0 <=? loans)%py = true
    /\ (cash <=? assets)%py = true
    /\ (loans <=? assets)%py = true.
Proof.
  apply (magic_cash_and_loans_within_assets
           [ ("balance_sheet"%string,
              [ (ustr "10101", Fin 50); (ustr "11601", Fin 120);
                (ustr "11701", Fin 30); (ustr "20202", Fin 40) ]) ]
           [ (ustr "10101", Fin 50); (ustr "11601", Fin 120);
             (ustr "11701", Fin 30); (ustr "20202", Fin 40) ]).
  - reflexivity.
  - repeat constructor; eexists; (split; [ reflexivity | ]);
      cbv; discriminate.
Defined.

(* ===================================================================== *)
(** * [clean_number] *)

Lemma keep_char_big (c : N) : (58 <= c)%N -> keep_char c = [].
Proof.
  intros H. unfold keep_char, Char.isdigit, Char.comma, Char.dot, Char.minus.
  ncases.
Qed.

Lemma keep_char_lower (c : N) : keep_char (Char.lower c) = keep_char c.
Proof.
  unfold Char.lower.
  destruct (N.leb_spec 0x41 c); destruct (N.leb_spec c 0x5A);
    cbn [andb]; try (rewrite !keep_char_big by lia; reflexivity);
    destruct (N.leb_spec 0x410 c); destruct (N.leb_spec c 0x42F);
    cbn [andb]; try (rewrite !keep_char_big by lia; reflexivity);
    destruct (N.leb_spec 0x400 c); destruct (N.leb_spec c 0x40F);
    cbn [andb]; try (rewrite !keep_char_big by lia; reflexivity);
    reflexivity.
Qed.

Lemma keep_char_space (c : N) : Char.isspace c = true -> keep_char c = [].
Proof.
  intros H.
  destruct (N.le_gt_cases 58 c) as [Hbig | Hsmall];
    [ apply keep_char_big, Hbig | ].
  unfold Char.isspace in H.
  rewrite !orb_true_iff, !andb_true_iff, !N.leb_le, !N.eqb_eq in H.
  assert (Hc : (c <= 32)%N) by lia.
  unfold keep_char, Char.isdigit, Char.comma, Char.dot, Char.minus.
  ncases.
Qed.

Lemma kept_lower (s : ustring) : kept (Str.lower s) = kept s.
Proof.
  unfold kept, Str.lower. induction s as [ | c s IH ]; [ reflexivity | ].
  cbn [map flat_map]. rewrite keep_char_lower, IH. reflexivity.
Qed.

Lemma kept_app (s t : ustring) : kept (s ++ t) = kept s ++ kept t.
Proof. unfold kept. apply flat_map_app. Qed.

Lemma keep_char_rev (c : N) : rev (keep_char c) = keep_char c.
Proof. unfold keep_char. repeat case_match; reflexivity. Qed.

Lemma kept_rev (s : ustring) : kept (rev s) = rev (kept s).
Proof.
  induction s as [ | c s IH ]; [ reflexivity | ].
  cbn [rev]. rewrite kept_app, IH. unfold kept at 2 3. cbn [flat_map].
  rewrite app_nil_r, rev_app_distr, keep_char_rev. reflexivity.
Qed.

Lemma kept_lstrip (s : ustring) : kept (Str.lstrip s) = kept s.
Proof.
  induction s as [ | c s IH ]; [ reflexivity | ].
  cbn [Str.lstrip]. destruct (Char.isspace c) eqn:Hc; [ | reflexivity ].
  rewrite IH. unfold kept. cbn [flat_map].
  rewrite (keep_char_space c Hc). reflexivity.
Qed.

Lemma kept_strip (s : ustring) : kept (Str.strip s) = kept s.
Proof.
  unfold Str.strip, Str.rstrip.
  rewrite kept_rev, kept_lstrip, kept_rev, rev_involutive.
  apply kept_lstrip.
Qed.

(** Removing every match of a one-character pattern. *)
Lemma remove_single (a : Re.atom) (s : ustring) (bol : bool) :
  Re.remove_from false [ Re.Atom a Re.Once ] bol O s
  = flat_map (fun c => if Re.atom_matches false a c then [] else [ c ]) s.
Proof.
  revert bol. induction s as [ | c s IH ]; intros bol; [ reflexivity | ].
  cbn [Re.remove_from Re.match_at flat_map].
  destruct (Re.atom_matches false a c).
  - cbn [length]. rewrite Nat.sub_succ_l, Nat.sub_diag by lia.
    rewrite IH. reflexivity.
  - rewrite IH. reflexivity.
Qed.

Lemma not_kept_matches (c : N) :
  Re.atom_matches false
    (Re.ASet true [ Re.SClass Re.Digit; Re.SLit Char.dot;
                    Re.SLit Char.minus ]) c
  = negb (Char.isdigit c || (c =? Char.dot)%N || (c =? Char.minus)%N).
Proof.
  cbn [Re.atom_matches existsb Re.item_matches Re.class_matches andb xorb].
  rewrite !orb_false_r.
  destruct (Char.isdigit c), (c =? Char.dot)%N, (c =? Char.minus)%N;
    reflexivity.
Qed.

(** The three cleaning steps after [strip] keep of every character what
    [keep_char] keeps. *)
Lemma cleaning_steps (s : ustring) :
  Re.remove_from false
    [ Re.Atom (Re.ASet true [ Re.SClass Re.Digit; Re.SLit Char.dot;
                              Re.SLit Char.minus ]) Re.Once ]
    true O
    (Str.replace Char.comma (ustr ".") (Str.replace Char.space [] s))
  = kept s.
Proof.
  rewrite remove_single. change (ustr ".") with [ Char.dot ].
  induction s as [ | c s IH ]; [ reflexivity | ].
  cbn [Str.replace]. unfold kept. cbn [flat_map]. fold (kept s).
  destruct (N.eqb_spec c Char.space) as [-> | Hsp];
    [ rewrite app_nil_l; exact IH | ].
  cbn [Str.replace]. unfold keep_char.
  destruct (N.eqb_spec c Char.comma) as [-> | Hco].
  - cbn [app flat_map]. rewrite IH. reflexivity.
  - cbn [flat_map]. rewrite IH, not_kept_matches.
    destruct (Char.isdigit c || (c =? Char.dot)%N || (c =? Char.minus)%N);
      reflexivity.
Qed.

(** [float] of a text made of digits, full stops and hyphens. *)
Lemma of_str_nan (s : ustring) :
  Float.of_str s = Some NaN ->
  exists body, (body = Str.strip s \/ exists c, c :: body = Str.strip s)
               /\ Str.lower body = ustr "nan".
Proof.
  unfold Float.of_str.
  destruct (Float.sign (Str.strip s)) as [neg body] eqn:Hsign.
  destruct (ustring_eqb (Str.lower body) (ustr "inf")
            || ustring_eqb (Str.lower body) (ustr "infinity"));
    [ discriminate | ].
  destruct (ustring_eqb (Str.lower body) (ustr "nan")) eqn:Hnan.
  - intros _. exists body. split.
    + unfold Float.sign in Hsign.
      destruct (Str.strip s) as [ | c s' ];
        [ injection Hsign as _ <-; auto | ].
      destruct (c =? Char.minus)%N; [ injection Hsign as _ <-; eauto | ].
      destruct (c =? Char.plus)%N; injection Hsign as _ <-; eauto.
    + apply bool_decide_eq_true in Hnan. exact Hnan.
  - destruct (Float.finite body); discriminate.
Qed.

Lemma kept_cons (c : N) (s : ustring) : kept (c :: s) = keep_char c ++ kept s.
Proof. reflexivity. Qed.

Lemma kept_idempotent (s : ustring) : kept (kept s) = kept s.
Proof.
  induction s as [ | c s IH ]; [ reflexivity | ].
  rewrite kept_cons, kept_app, IH. f_equal.
  unfold keep_char.
  destruct (N.eqb_spec c Char.comma); [ reflexivity | ].
  destruct (Char.isdigit c || (c =? Char.dot)%N || (c =? Char.minus)%N)
    eqn:Hk; [ | reflexivity ].
  rewrite kept_cons. cbn [kept flat_map]. rewrite app_nil_r.
  unfold keep_char. destruct (N.eqb_spec c Char.comma); [ contradiction | ].
  rewrite Hk. reflexivity.
Qed.

Lemma lstrip_length (s : ustring) :
  (length (Str.lstrip s) <= length s)%nat.
Proof.
  induction s as [ | c s IH ]; [ reflexivity | ].
  cbn [Str.lstrip]. destruct (Char.isspace c); cbn [length]; lia.
Qed.

Lemma strip_length (s : ustring) : (length (Str.strip s) <= length s)%nat.
Proof.
  unfold Str.strip, Str.rstrip. rewrite length_rev.
  etransitivity; [ apply lstrip_length | ]. rewrite length_rev.
  apply lstrip_length.
Qed.

Lemma keep_char_length (c : N) : (length (keep_char c) <= 1)%nat.
Proof. unfold keep_char. repeat case_match; cbn [length]; lia. Qed.

Lemma of_str_kept_not_nan (value : ustring) :
  Float.of_str (kept value) <> Some NaN.
Proof.
  intros H. apply of_str_nan in H as (body & Hbody & Hnan).
  assert (Hk : kept body = []).
  { rewrite <- kept_lower, Hnan. reflexivity. }
  assert (Hlen : length body = 3%nat).
  { apply (f_equal length) in Hnan. unfold Str.lower in Hnan.
    rewrite length_map in Hnan. exact Hnan. }
  assert (Hv : kept (Str.strip (kept value)) = kept value)
    by (rewrite kept_strip; apply kept_idempotent).
  pose proof (strip_length (kept value)) as Hs.
  destruct Hbody as [Hb | (c & Hb)]; rewrite <- Hb in Hv, Hs.
  - rewrite Hk in Hv. rewrite <- Hv in Hs. cbn [length] in Hs. lia.
  - rewrite kept_cons, Hk, app_nil_r in Hv. rewrite <- Hv in Hs.
    pose proof (keep_char_length c). cbn [length] in Hs. lia.
Qed.

(** **** X12
    [clean_number] reads a string as the number written by its digits,
    full stops and hyphens, each comma taken as a full stop: every other
    character is dropped wherever it stands (the test against '-', '—',
    'n/a', 'nan', the [strip] and the removal of spaces change nothing
    to that).  So a letter, sign or space that is no digit, full stop,
    comma or hyphen never changes the result, inside a number as well:
    '1e5' is read as 15.0 and '(123)' as 123.0.  The result is never
    NaN. *)
Theorem clean_number_keeps_digits_dots_hyphens :
  (forall value, Magic.clean_number value = Float.of_str (kept value))
  /\ (forall s c t,
        in_alphabet c = true ->
        Char.isdigit c = false ->
        c <> Char.dot -> c <> Char.comma -> c <> Char.minus ->
        Magic.clean_number (s ++ c :: t) = Magic.clean_number (s ++ t))
  /\ (forall value, Magic.clean_number value <> Some NaN)
  /\ (exists x, Magic.clean_number (ustr "1e5") = Some x
                /\ (x ==? Fin 15)%py = true)
  /\ (exists x, Magic.clean_number (ustr "(123)") = Some x
                /\ (x ==? Fin 123)%py = true).
Proof.
  assert (H1 : forall value,
            Magic.clean_number value = Float.of_str (kept value)).
  { intros value. unfold Magic.clean_number.
    destruct (bool_decide (value = [])) eqn:He.
    - apply bool_decide_eq_true in He. subst value. reflexivity.
    - cbn [orb].
      destruct (code_in (Str.lower value) _) eqn:Hs.
      + apply code_in_elem_of in Hs.
        rewrite <- kept_lower.
        repeat (apply elem_of_cons in Hs as [-> | Hs]; [ reflexivity | ]).
        inversion Hs.
      + rewrite cleaning_steps, kept_strip. reflexivity. }
  split; [ exact H1 | ]. split; [ | split; [ | split ] ].
  - intros s c t _ Hd Hdot Hcomma Hminus.
    rewrite !H1, !kept_app, kept_cons.
    assert (Hc : keep_char c = []).
    { unfold keep_char. rewrite Hd.
      destruct (N.eqb_spec c Char.comma); [ contradiction | ].
      destruct (N.eqb_spec c Char.dot); [ contradiction | ].
      destruct (N.eqb_spec c Char.minus); [ contradiction | ].
      reflexivity. }
    rewrite Hc. reflexivity.
  - intros value. rewrite H1. apply of_str_kept_not_nan.
  - eexists. split; vm_compute; reflexivity.
  - eexists. split; vm_compute; reflexivity.
Qed.

(* ===================================================================== *)
(** * [clean_cell] and [is_valid_table] *)

Lemma lstrip_head (s : ustring) :
  match Str.lstrip s with
  | [] => True
  | c :: _ => Char.isspace c = false
  end.
Proof.
  induction s as [ | c s IH ]; [ exact I | ].
  cbn [Str.lstrip]. destruct (Char.isspace c) eqn:Hc; [ exact IH | exact Hc ].
Qed.

Lemma lstrip_nil (s : ustring) :
  Str.lstrip s = [] <-> forallb Char.isspace s = true.
Proof.
  induction s as [ | c s IH ]; [ tauto | ].
  cbn [Str.lstrip forallb]. destruct (Char.isspace c); cbn [andb];
    [ exact IH | split; discriminate ].
Qed.

Lemma forallb_rev (p : N -> bool) (s : ustring) :
  forallb p (rev s) = forallb p s.
Proof.
  induction s as [ | c s IH ]; [ reflexivity | ].
  cbn [rev forallb]. rewrite forallb_app, IH. cbn [forallb].
  rewrite andb_true_r. apply andb_comm.
Qed.

Lemma lstrip_blank (s : ustring) :
  forallb Char.isspace (Str.lstrip s) = forallb Char.isspace s.
Proof.
  induction s as [ | c s IH ]; [ reflexivity | ].
  cbn [Str.lstrip forallb]. destruct (Char.isspace c) eqn:Hc;
    [ exact IH | cbn [forallb]; rewrite Hc; reflexivity ].
Qed.

(** [strip()] gives the empty string exactly on the blank strings. *)
Lemma strip_nil (s : ustring) :
  Str.strip s = [] <-> forallb Char.isspace s = true.
Proof.
  unfold Str.strip, Str.rstrip.
  rewrite <- (lstrip_blank s), <- (forallb_rev _ (Str.lstrip s)), <- lstrip_nil.
  split; intros H.
  - apply (f_equal (@rev N)) in H. rewrite rev_involutive in H. exact H.
  - rewrite H. reflexivity.
Qed.

Lemma lstrip_fixed (s : ustring) :
  match s with [] => True | c :: _ => Char.isspace c = false end ->
  Str.lstrip s = s.
Proof. destruct s as [ | c s ]; [ reflexivity | ]. cbn. intros ->. reflexivity. Qed.

Lemma lstrip_idempotent (s : ustring) :
  Str.lstrip (Str.lstrip s) = Str.lstrip s.
Proof. apply lstrip_fixed, lstrip_head. Qed.

Lemma lstrip_snoc (u : ustring) (c : N) :
  Char.isspace c = false -> exists v, Str.lstrip (u ++ [ c ]) = v ++ [ c ].
Proof.
  intros Hc. induction u as [ | a u IH ].
  - exists []. cbn. rewrite Hc. reflexivity.
  - cbn [app Str.lstrip]. destruct (Char.isspace a); [ exact IH | ].
    exists (a :: u). reflexivity.
Qed.

Lemma strip_idempotent (s : ustring) : Str.strip (Str.strip s) = Str.strip s.
Proof.
  unfold Str.strip at 1 3.
  assert (H : Str.lstrip (Str.rstrip (Str.lstrip s))
              = Str.rstrip (Str.lstrip s)).
  { pose proof (lstrip_head s) as Hh.
    destruct (Str.lstrip s) as [ | c t ]; [ reflexivity | ].
    unfold Str.rstrip. cbn [rev].
    destruct (lstrip_snoc (rev t) c Hh) as (v & ->).
    rewrite rev_app_distr. cbn [rev app]. apply lstrip_fixed. exact Hh. }
  unfold Str.strip. rewrite H.
  unfold Str.rstrip. rewrite rev_involutive, lstrip_idempotent. reflexivity.
Qed.

Lemma lstrip_elem (x : N) (s : ustring) : x ∈ Str.lstrip s -> x ∈ s.
Proof.
  induction s as [ | c s IH ]; [ auto | ].
  cbn [Str.lstrip]. destruct (Char.isspace c); [ | auto ].
  intros H. apply list_elem_of_further, IH, H.
Qed.

Lemma elem_of_rev (x : N) (s : ustring) : x ∈ rev s <-> x ∈ s.
Proof. rewrite !list_elem_of_In. symmetry. apply in_rev. Qed.

Lemma strip_elem (x : N) (s : ustring) : x ∈ Str.strip s -> x ∈ s.
Proof.
  unfold Str.strip, Str.rstrip. rewrite elem_of_rev.
  intros H. apply lstrip_elem in H. rewrite elem_of_rev in H.
  apply lstrip_elem, H.
Qed.

(** Replacing a white-space character [old] by a space. *)
Lemma replace_elem (old x : N) (s : ustring) :
  x ∈ Str.replace old [ Char.space ] s ->
  (x ∈ s /\ x <> old) \/ x = Char.space.
Proof.
  induction s as [ | c s IH ]; [ intros H; inversion H | ].
  cbn [Str.replace]. destruct (N.eqb_spec c old) as [-> | Hne].
  - cbn [app]. intros H. apply elem_of_cons in H as [-> | H]; [ auto | ].
    destruct (IH H) as [[H1 H2] | ->]; [ left | auto ].
    split; [ apply list_elem_of_further, H1 | exact H2 ].
  - intros H. apply elem_of_cons in H as [-> | H].
    + left. split; [ apply list_elem_of_here | exact Hne ].
    + destruct (IH H) as [[H1 H2] | ->]; [ left | auto ].
      split; [ apply list_elem_of_further, H1 | exact H2 ].
Qed.

Lemma replace_absent (old : N) (new s : ustring) :
  old ∉ s -> Str.replace old new s = s.
Proof.
  induction s as [ | c s IH ]; [ reflexivity | ].
  intros H. apply not_elem_of_cons in H as [Hne Hs].
  cbn [Str.replace]. destruct (N.eqb_spec c old); [ congruence | ].
  rewrite IH by exact Hs. reflexivity.
Qed.

Lemma replace_blank (old : N) (s : ustring) :
  Char.isspace old = true ->
  forallb Char.isspace (Str.replace old [ Char.space ] s)
  = forallb Char.isspace s.
Proof.
  intros Hold. induction s as [ | c s IH ]; [ reflexivity | ].
  cbn [Str.replace]. destruct (N.eqb_spec c old) as [-> | Hne];
    cbn [app forallb]; rewrite IH; [ rewrite Hold | ]; reflexivity.
Qed.

(** The text [clean_cell] returns for a string. *)
Lemma cleaned_text (s : ustring) :
  let t := Str.strip
             (Str.replace PdfProcessor.carriage_return [ Char.space ]
                (Str.replace Char.newline [ Char.space ]
                   (Str.replace Char.nbsp [ Char.space ] s))) in
  (t = [] <-> forallb Char.isspace s = true)
  /\ Str.strip t = t
  /\ (Char.nbsp ∉ t) /\ (Char.newline ∉ t)
  /\ (PdfProcessor.carriage_return ∉ t).
Proof.
  intros t. subst t. split; [ | split ].
  - rewrite strip_nil, !replace_blank by reflexivity. reflexivity.
  - apply strip_idempotent.
  - repeat split; intros H; apply strip_elem in H;
      apply replace_elem in H as [[H H1] | H]; try discriminate H;
      try (apply H1; reflexivity);
      apply replace_elem in H as [[H H2] | H]; try discriminate H;
      try (apply H2; reflexivity);
      apply replace_elem in H as [[H H3] | H]; try discriminate H;
      apply H3; reflexivity.
Qed.

(** **** X13
    [clean_cell] returns NaN exactly for a missing value and for a value
    whose text is empty or white space only.  For any other string it
    returns the text with every no-break space, line feed and carriage
    return replaced by a space, stripped: that text is not empty, has no
    white space at either end and none of the three characters (the final
    test [value if value else np.nan] never takes its second branch).  A
    number that is not NaN is returned unchanged.  Cleaning a cleaned
    cell changes nothing. *)
Theorem clean_cell_spec :
  (forall value,
      PdfProcessor.clean_cell value = CNa
      <-> Pd.isna value = true
          \/ forallb Char.isspace (Pd.str value) = true)
  /\ (forall s,
        forallb Char.isspace s = false ->
        exists t,
          PdfProcessor.clean_cell (CStr s) = CStr t
          /\ t = Str.strip
                   (Str.replace PdfProcessor.carriage_return (ustr " ")
                      (Str.replace Char.newline (ustr " ")
                         (Str.replace Char.nbsp (ustr " ") s)))
          /\ t <> [] /\ Str.strip t = t
          /\ (Char.nbsp ∉ t) /\ (Char.newline ∉ t)
          /\ (PdfProcessor.carriage_return ∉ t))
  /\ (forall x text,
        Py.isna x = false -> forallb Char.isspace text = false ->
        PdfProcessor.clean_cell (CNum x text) = CNum x text)
  /\ (forall value,
        PdfProcessor.clean_cell (PdfProcessor.clean_cell value)
        = PdfProcessor.clean_cell value).
Proof.
  assert (Hguard : forall value,
            (Pd.isna value || Pd.eq_str value (ustr "")
             || ustring_eqb (Str.strip (Pd.str value)) (ustr ""))
            = (Pd.isna value || forallb Char.isspace (Pd.str value))).
  { intros value.
    assert (H1 : ustring_eqb (Str.strip (Pd.str value)) (ustr "")
                 = forallb Char.isspace (Pd.str value)).
    { apply eq_true_iff_eq. unfold ustring_eqb.
      rewrite bool_decide_eq_true. apply strip_nil. }
    rewrite H1.
    destruct (Pd.isna value); cbn [orb]; [ reflexivity | ].
    destruct value as [ | s | x text ]; cbn [Pd.eq_str Pd.str orb];
      try reflexivity.
    unfold ustring_eqb. destruct s; reflexivity. }
  assert (Hstr : forall s,
            forallb Char.isspace s = false ->
            exists t,
              PdfProcessor.clean_cell (CStr s) = CStr t
              /\ t = Str.strip
                       (Str.replace PdfProcessor.carriage_return (ustr " ")
                          (Str.replace Char.newline (ustr " ")
                             (Str.replace Char.nbsp (ustr " ") s)))
              /\ t <> [] /\ Str.strip t = t
              /\ (Char.nbsp ∉ t) /\ (Char.newline ∉ t)
              /\ (PdfProcessor.carriage_return ∉ t)).
  { intros s Hs. unfold PdfProcessor.clean_cell. rewrite Hguard.
    cbn [Pd.isna Pd.str orb]. rewrite Hs.
    destruct (cleaned_text s) as (Hnil & Hstrip & Hchars).
    change (ustr " ") with [ Char.space ].
    destruct (Str.strip _) as [ | c t ] eqn:Ht.
    - exfalso. rewrite (proj1 Hnil eq_refl) in Hs. discriminate Hs.
    - eexists. split; [ reflexivity | ].
      split; [ reflexivity | ]. split; [ discriminate | ]. auto. }
  assert (Hnum : forall x text,
            Py.isna x = false -> forallb Char.isspace text = false ->
            PdfProcessor.clean_cell (CNum x text) = CNum x text).
  { intros x text Hx Ht. unfold PdfProcessor.clean_cell. rewrite Hguard.
    cbn [Pd.isna Pd.str]. rewrite Hx, Ht. reflexivity. }
  assert (Hna : forall value,
            PdfProcessor.clean_cell value = CNa
            <-> Pd.isna value = true
                \/ forallb Char.isspace (Pd.str value) = true).
  { intros value. rewrite <- orb_true_iff.
    destruct (Pd.isna value || forallb Char.isspace (Pd.str value)) eqn:Hg.
    - unfold PdfProcessor.clean_cell. rewrite Hguard, Hg. tauto.
    - apply orb_false_iff in Hg as [Hi Hb].
      split; [ | discriminate ].
      destruct value as [ | s | x text ]; [ discriminate Hi | | ].
      + destruct (Hstr s Hb) as (t & -> & _). discriminate.
      + rewrite (Hnum x text Hi Hb). discriminate. }
  split; [ exact Hna | ]. split; [ exact Hstr | ]. split; [ exact Hnum | ].
  intros value.
  destruct (Pd.isna value || forallb Char.isspace (Pd.str value)) eqn:Hg.
  - apply orb_true_iff, Hna in Hg. rewrite Hg. reflexivity.
  - apply orb_false_iff in Hg as [Hi Hb].
    destruct value as [ | s | x text ]; [ discriminate Hi | | ].
    + destruct (Hstr s Hb) as (t & -> & _ & Hne & Hstrip & H1 & H2 & H3).
      assert (Hb' : forallb Char.isspace t = false).
      { destruct (forallb Char.isspace t) eqn:E; [ | reflexivity ].
        apply strip_nil in E. congruence. }
      destruct (Hstr t Hb') as (t' & -> & -> & _).
      rewrite (replace_absent Char.nbsp _ t H1).
      rewrite (replace_absent Char.newline _ t H2).
      rewrite (replace_absent PdfProcessor.carriage_return _ t H3).
      rewrite Hstrip. reflexivity.
    + rewrite !(Hnum x text Hi Hb). reflexivity.
Qed.

(** **** X14
    A table [is_valid_table] accepts (with the default limits, whatever
    the cells [pd.to_numeric] reads as numbers) has at least 3 rows and
    2 columns, at least 30 % of its cells filled, and at least 2 numeric
    cells or 3 columns.  So it passes the size guard of
    [aggregate_financial_data] ([df.empty or len(df.columns) < 2]): every
    table the extractor keeps is scanned row by row by the aggregator. *)
Theorem is_valid_table_spec (to_numeric_notna : cell -> bool)
    (df : DataFrame) :
  PdfProcessor.is_valid_table to_numeric_notna df 3 2 = true ->
  (3 <= PdfProcessor.rows df)%nat
  /\ (2 <= PdfProcessor.columns df)%nat
  /\ (3 * (PdfProcessor.rows df * PdfProcessor.columns df)
      <= 10 * PdfProcessor.count_cells Pd.notna df)%nat
  /\ ((2 <= PdfProcessor.count_cells to_numeric_notna df)%nat
      \/ (3 <= PdfProcessor.columns df)%nat)
  /\ Pd.too_small df = false
  /\ forall financial_data,
       process_table financial_data df
       = (foldl (fun state row => process_row row state)
                (∅, financial_data) df).2.
Proof.
  unfold PdfProcessor.is_valid_table.
  destruct (PdfProcessor.empty df) eqn:He; [ discriminate | ].
  destruct (PdfProcessor.rows df <? 3)%nat eqn:Hr; [ discriminate | ].
  destruct (PdfProcessor.columns df <? 2)%nat eqn:Hc; [ discriminate | ].
  cbn [orb]. cbn [Py.ltb].
  destruct (Qle_bool 0.3 _) eqn:Hf; [ | discriminate ].
  cbn [negb].
  destruct ((PdfProcessor.count_cells to_numeric_notna df <? 2)%nat
            && (PdfProcessor.columns df <? 3)%nat) eqn:Hn;
    [ discriminate | ].
  intros _.
  apply Nat.ltb_ge in Hr, Hc.
  assert (Hsmall : Pd.too_small df = false).
  { destruct df as [ | row df ]; [ discriminate He | ].
    cbn [Pd.too_small PdfProcessor.columns] in *. apply Nat.ltb_ge, Hc. }
  split; [ exact Hr | ]. split; [ exact Hc | ]. split; [ | split; [ | split ] ].
  - apply Qle_bool_iff in Hf.
    set (a := PdfProcessor.count_cells Pd.notna df) in *.
    set (b := (PdfProcessor.rows df * PdfProcessor.columns df)%nat) in *.
    assert (Hb : (0 < b)%nat) by (subst b; nia).
    assert (Hq : 0 < inject_Z (Z.of_nat b))
      by (unfold Qlt; cbn; lia).
    assert (Hm : 0.3 * inject_Z (Z.of_nat b) <= inject_Z (Z.of_nat a)).
    { assert (E : inject_Z (Z.of_nat a) / inject_Z (Z.of_nat b)
                  * inject_Z (Z.of_nat b) == inject_Z (Z.of_nat a))
        by (field; lra).
      rewrite <- E. apply Qmult_le_compat_r; [ exact Hf | lra ]. }
    unfold Qle in Hm. cbn in Hm. lia.
  - apply andb_false_iff in Hn as [Hn | Hn]; apply Nat.ltb_ge in Hn; auto.
  - exact Hsmall.
  - intros financial_data. unfold process_table. rewrite Hsmall. reflexivity.
Qed.

Lemma is_valid_table_spec_witness :
  (3 <= PdfProcessor.rows
          [ [ CStr (ustr "Активы"); CStr (ustr "100") ];
            [ CStr (ustr "Капитал"); CStr (ustr "20") ];
            [ CStr (ustr "Прибыль"); CNa ] ])%nat
  /\ Pd.too_small
       [ [ CStr (ustr "Активы"); CStr (ustr "100") ];
         [ CStr (ustr "Капитал"); CStr (ustr "20") ];
         [ CStr (ustr "Прибыль"); CNa ] ] = false.
Proof.
  pose proof (is_valid_table_spec
                (fun value =>
                   match value with
                   | CStr s => Str.isdigit s
                   | CNum _ _ => true
                   | CNa => false
                   end)
                [ [ CStr (ustr "Активы"); CStr (ustr "100") ];
                  [ CStr (ustr "Капитал"); CStr (ustr "20") ];
                  [ CStr (ustr "Прибыль"); CNa ] ]
                eq_refl) as (H1 & _ & _ & _ & H2 & _).
  split; [ exact H1 | exact H2 ].
Defined.

(* ===================================================================== *)
(** * [validate_financial_data] *)

Lemma check_field_app (data : gmap string Validators.pyval)
    (errors : list string) (field : string) :
  Validators.check_field data errors field
  = errors ++ Validators.check_field data [] field.
Proof.
  unfold Validators.check_field.
  destruct (data !! field) as [ [ | x | s ] | ]; try reflexivity.
  destruct (Py.isna x); [ reflexivity | symmetry; apply app_nil_r ].
Qed.

Lemma check_field_nil (data : gmap string Validators.pyval) (field : string) :
  Validators.check_field data [] field = []
  <-> exists x, data !! field = Some (Validators.VNum x)
                /\ Py.isna x = false.
Proof.
  unfold Validators.check_field.
  destruct (data !! field) as [ [ | x | s ] | ]; cbn [app];
    try (split; [ discriminate | intros (? & ? & _); discriminate ]).
  destruct (Py.isna x) eqn:Hx; cbn [app].
  - split; [ discriminate | ]. intros (y & Hy & Hn).
    injection Hy as <-. congruence.
  - split; [ eauto | reflexivity ].
Qed.

Lemma range_check_nil (data : gmap string Validators.pyval) (field : string)
    (test : Validators.pyval -> option bool) (message : string)
    (errors : list string) :
  Validators.range_check data field test message errors = Some []
  <-> errors = []
      /\ (data !! field = None
          \/ exists value, data !! field = Some value
                           /\ test value = Some false).
Proof.
  unfold Validators.range_check.
  destruct (data !! field) as [value | ].
  - destruct (test value) as [ [ | ] | ] eqn:Ht.
    + split; [ intros H; injection H as H;
               apply app_eq_nil in H as [_ H]; discriminate H | ].
      intros (_ & [H | (v & H & Hv)]); [ discriminate | ].
      injection H as <-. congruence.
    + split; [ intros H; injection H as ->; eauto | ].
      intros (-> & _). reflexivity.
    + split; [ discriminate | ].
      intros (_ & [H | (v & H & Hv)]); [ discriminate | ].
      injection H as <-. congruence.
  - split; [ intros H; injection H as ->; auto | ].
    intros (-> & _). reflexivity.
Qed.

Lemma range_check_some (data : gmap string Validators.pyval) (field : string)
    (test : Validators.pyval -> option bool) (message : string)
    (errors : list string) :
  (forall x, exists b, test (Validators.VNum x) = Some b) ->
  (test Validators.VNone = None) ->
  (forall s, test (Validators.VStr s) = None) ->
  (not_a_number data field = true
   /\ Validators.range_check data field test message errors = None)
  \/ (not_a_number data field = false
      /\ exists errors',
           Validators.range_check data field test message errors
           = Some errors').
Proof.
  intros Hnum Hnone Hstr. unfold Validators.range_check, not_a_number.
  destruct (data !! field) as [ [ | x | s ] | ].
  - rewrite Hnone. auto.
  - destruct (Hnum x) as [ [ | ] -> ]; right; eauto.
  - rewrite Hstr. auto.
  - right. eauto.
Qed.

(** **** X15
    [validate_financial_data] is documented to return the list of
    validation errors.  It raises TypeError instead exactly when
    total_assets, equity or net_income is present with a value that is no
    number (None or a string): the range checks compare the value after
    the loop has recorded the error.  When it returns, the list is empty
    exactly for a record whose six required fields are numbers other
    than NaN, with total_assets and equity not negative and net_income at
    most 1e15 in absolute value. *)
Theorem validate_financial_data_spec (data : gmap string Validators.pyval) :
  (Validators.validate_financial_data data = None
   <-> not_a_number data "total_assets"
       || not_a_number data "equity"
       || not_a_number data "net_income" = true)
  /\ (Validators.validate_financial_data data = Some []
      <-> exists total_assets total_liabilities equity net_income
                 cash_and_equivalents loans_to_customers,
            data !! "total_assets" = Some (Validators.VNum total_assets)
            /\ data !! "total_liabilities"
               = Some (Validators.VNum total_liabilities)
            /\ data !! "equity" = Some (Validators.VNum equity)
            /\ data !! "net_income" = Some (Validators.VNum net_income)
            /\ data !! "cash_and_equivalents"
               = Some (Validators.VNum cash_and_equivalents)
            /\ data !! "loans_to_customers"
               = Some (Validators.VNum loans_to_customers)
            /\ Py.isna total_assets = false
            /\ Py.isna total_liabilities = false
            /\ Py.isna equity = false
            /\ Py.isna net_income = false
            /\ Py.isna cash_and_equivalents = false
            /\ Py.isna loans_to_customers = false
            /\ (total_assets <? Fin 0)%py = false
            /\ (equity <? Fin 0)%py = false
            /\ (Py.abs net_income >? Fin 1e15)%py = false).
Proof.
  unfold Validators.validate_financial_data.
  set (errors := foldl (Validators.check_field data) [] _).
  split.
  - destruct (range_check_some data "total_assets" Validators.negative
                "total_assets should be non-negative" errors)
      as [[-> ->] | [-> (e1 & ->)]];
      [ intros x; eexists; reflexivity | reflexivity
      | intros s; reflexivity | cbn [orb]; tauto | ].
    destruct (range_check_some data "equity" Validators.negative
                "equity should be non-negative" e1)
      as [[-> ->] | [-> (e2 & ->)]];
      [ intros x; eexists; reflexivity | reflexivity
      | intros s; reflexivity | cbn [orb]; tauto | ].
    destruct (range_check_some data "net_income"
                Validators.unreasonably_large
                "net_income seems unreasonably large" e2)
      as [[-> ->] | [-> (e3 & ->)]];
      [ intros x; eexists; reflexivity | reflexivity
      | intros s; reflexivity | cbn [orb]; tauto | ].
    cbn [orb]. split; discriminate.
  - assert (Herrors : errors = [] <->
              (exists x, data !! "total_assets" = Some (Validators.VNum x)
                         /\ Py.isna x = false)
              /\ (exists x, data !! "total_liabilities"
                            = Some (Validators.VNum x)
                            /\ Py.isna x = false)
              /\ (exists x, data !! "equity" = Some (Validators.VNum x)
                            /\ Py.isna x = false)
              /\ (exists x, data !! "net_income" = Some (Validators.VNum x)
                            /\ Py.isna x = false)
              /\ (exists x, data !! "cash_and_equivalents"
                            = Some (Validators.VNum x)
                            /\ Py.isna x = false)
              /\ (exists x, data !! "loans_to_customers"
                            = Some (Validators.VNum x)
                            /\ Py.isna x = false)).
    { subst errors. cbn [foldl].
      rewrite (check_field_app _ _ "loans_to_customers"),
        (check_field_app _ _ "cash_and_equivalents"),
        (check_field_app _ _ "net_income"),
        (check_field_app _ _ "equity"),
        (check_field_app _ _ "total_liabilities").
      rewrite !app_nil, !check_field_nil. tauto. }
    split.
    + intros H.
      destruct (Validators.range_check data "total_assets" _ _ errors)
        as [e1 | ] eqn:H1; [ | discriminate ].
      destruct (Validators.range_check data "equity" _ _ e1)
        as [e2 | ] eqn:H2; [ | discriminate ].
      apply range_check_nil in H as (-> & H3).
      apply range_check_nil in H2 as (-> & H2).
      apply range_check_nil in H1 as (He & H1).
      apply Herrors in He
        as ((ta & Hta & Nta) & (tl & Htl & Ntl) & (eq & Heq & Neq)
            & (ni & Hni & Nni) & (ca & Hca & Nca) & (lo & Hlo & Nlo)).
      exists ta, tl, eq, ni, ca, lo.
      rewrite Hta in H1. rewrite Heq in H2. rewrite Hni in H3.
      destruct H1 as [H1 | (v1 & E1 & T1)]; [ discriminate | ].
      destruct H2 as [H2 | (v2 & E2 & T2)]; [ discriminate | ].
      destruct H3 as [H3 | (v3 & E3 & T3)]; [ discriminate | ].
      injection E1 as <-. injection E2 as <-. injection E3 as <-.
      cbn in T1, T2, T3.
      injection T1 as T1. injection T2 as T2. injection T3 as T3.
      repeat split; assumption.
    + intros (ta & tl & eq & ni & ca & lo & Hta & Htl & Heq & Hni & Hca & Hlo
              & Nta & Ntl & Neq & Nni & Nca & Nlo & T1 & T2 & T3).
      assert (He : errors = []) by (apply Herrors; eauto 20).
      rewrite He. unfold Validators.range_check.
      rewrite Hta, Heq, Hni.
      cbn [Validators.negative Validators.unreasonably_large].
      rewrite T1, T2, T3. reflexivity.
Qed.

(* ===================================================================== *)
(** * Edge cases of the parser and of the ratios *)

(** **** X16
    The plausibility test of [parse_russian_number]
    ([abs(num) > 1e16 or (abs(num) < 1e-6 and num != 0)]) rejects the
    infinities but not NaN, every comparison with NaN being false: the
    number returned for a text is never infinite, and it is NaN exactly
    when [float] reads NaN from the cleaned text.  The text "-nan" is such
    a text (the leading hyphen protects it from the removal of leading
    junk): the row ["Итого активов", "-nan"] stores NaN as total_assets,
    and the capital adequacy of that record is
    (nan, "Deficient: nan% (below minimum of 8.00%)"). *)
Theorem parse_russian_number_lets_nan_through :
  (forall s x neg,
      parse_russian_number (CStr s) = Some x -> x <> Inf neg)
  /\ (forall s,
        parse_russian_number (CStr s) = Some NaN
        <-> (Pd.eq_str (CStr s) (ustr "") || Pd.eq_str (CStr s) (ustr "-")
             || Pd.eq_str (CStr s) (ustr "—")
             || Pd.eq_str (CStr s) (ustr "–")) = false
            /\ Float.of_str (separators (cleaned s)) = Some NaN)
  /\ parse_russian_number (CStr (ustr "-nan")) = Some NaN
  /\ aggregate_financial_data
       [ [ [ CStr (ustr "Итого активов"); CStr (ustr "-nan") ] ] ]
       !! "total_assets" = Some NaN
  /\ calculate_capital_adequacy
       (init (aggregate_financial_data
                [ [ [ CStr (ustr "Итого активов");
                      CStr (ustr "-nan") ] ] ]))
     = Ok (NaN, "Deficient: nan% (below minimum of 8.00%)").
Proof.
  split; [ | split; [ | split; [ | split ] ] ].
  - intros s x neg. unfold parse_russian_number.
    destruct (_ || _); [ discriminate | ].
    cbn [Pd.str].
    destruct (Float.of_str (separators (cleaned s))) as [num | ];
      [ | discriminate ].
    destruct (implausible num) eqn:E; [ discriminate | ].
    intros [= <-] ->. destruct neg; discriminate E.
  - intros s. unfold parse_russian_number. cbn [Pd.isna orb Pd.str].
    destruct (_ || _); [ split; [ discriminate | intros [? _]; discriminate ] | ].
    destruct (Float.of_str (separators (cleaned s))) as [num | ].
    + destruct (implausible num) eqn:E.
      * split; [ discriminate | ]. intros [_ [= ->]]. discriminate E.
      * split; [ intros [= ->]; auto | intros [_ [= ->]]; reflexivity ].
    + split; [ discriminate | intros [_ ?]; discriminate ].
  - vm_compute. reflexivity.
  - vm_compute. reflexivity.
  - vm_compute. reflexivity.
Qed.

Lemma Qdiv_le_mono (x y c : Q) : 0 < c -> x <= y -> x / c <= y / c.
Proof.
  intros Hc Hxy. unfold Qdiv. apply Qmult_le_compat_r; [ exact Hxy | ].
  apply Qlt_le_weak, Qinv_lt_0_compat, Hc.
Qed.

Ltac score_order :=
  first [ lra
        | apply Qle_shift_div_r; lra
        | apply Qle_shift_div_l; lra
        | apply Qdiv_le_mono; lra
        | exfalso; lra ].

(** **** X17
    [normalize_score] is monotone.  With finite thresholds
    min_thr < max_thr of magnitude at most 1e300 (their difference is
    then within the range of a double) and two values v1 <= v2 (the
    infinities included), the forward score of v1 is at most that of v2
    and the reverse score of v1 at least that of v2; and NaN is given
    0.0, the lowest score, in both directions. *)
Theorem normalize_score_monotone (min_thr max_thr : Q) (v1 v2 : pyfloat) :
  min_thr < max_thr ->
  Qabs min_thr <= 1e300 ->
  Qabs max_thr <= 1e300 ->
  (v1 <=? v2)%py = true ->
  (exists n1 n2,
      normalize_score v1 (Fin min_thr) (Fin max_thr) false = Ok (Fin n1)
      /\ normalize_score v2 (Fin min_thr) (Fin max_thr) false = Ok (Fin n2)
      /\ n1 <= n2)
  /\ (exists n1 n2,
        normalize_score v1 (Fin min_thr) (Fin max_thr) true = Ok (Fin n1)
        /\ normalize_score v2 (Fin min_thr) (Fin max_thr) true = Ok (Fin n2)
        /\ n2 <= n1)
  /\ (forall reverse,
        normalize_score NaN (Fin min_thr) (Fin max_thr) reverse
        = Ok (Fin 0.0)).
Proof.
  intros Hab _ _ Hle. split; [ | split; [ | intros reverse; reflexivity ] ].
  - unfold normalize_score, Py.geb.
    py_cases v1; py_cases v2; cbn [Py.leb] in Hle; try discriminate Hle;
      cbn [Py.isna Py.leb Py.sub]; qtests;
      rewrite ?div_Fin by lra;
      try (exfalso; lra);
      (eexists; eexists; split; [ reflexivity | ];
       split; [ reflexivity | ]; score_order).
  - unfold normalize_score, Py.geb.
    py_cases v1; py_cases v2; cbn [Py.leb] in Hle; try discriminate Hle;
      cbn [Py.isna Py.leb Py.sub]; qtests;
      rewrite ?div_Fin by lra;
      try (exfalso; lra);
      (eexists; eexists; split; [ reflexivity | ];
       split; [ reflexivity | ]; score_order).
Qed.

Lemma normalize_score_monotone_witness :
  exists n1 n2,
    normalize_score (Fin 0.09) (Fin 0.08) (Fin 0.12) false = Ok (Fin n1)
    /\ normalize_score (Inf false) (Fin 0.08) (Fin 0.12) false = Ok (Fin n2)
    /\ n1 <= n2.
Proof.
  apply (normalize_score_monotone 0.08 0.12 (Fin 0.09) (Inf false));
    [ reflexivity | vm_compute; discriminate | vm_compute; discriminate
    | reflexivity ].
Defined.



(* ===================================================================== *)
(** * [main_app.py]: the index of a record without deposits *)

(** The index of a calculator whose instant liquidity cannot be
    computed: the liquidity scores 0 and its weight, 0.15, is lost. *)
Lemma bsi_without_instant_liquidity (self : BankingRatiosCalculator)
    (interpretation : string) :
  calculate_instant_liquidity self = Ok (Fin 0.0, interpretation) ->
  exists bsi : Q,
    calculate_bsi self = Ok (Fin bsi, bsi_interpretation (Fin bsi))
    /\ 0 <= bsi <= 0.85.
Proof.
  intros Hliq.
  unfold calculate_bsi, normalized_scores_of, calculate_all_ratios.
  destruct (calculate_capital_adequacy_total self) as (v1 & s1 & ->).
  rewrite Hliq.
  destruct (calculate_current_liquidity_total self) as (v3 & s3 & ->).
  destruct (calculate_roe_total self) as (v4 & s4 & ->).
  destruct (calculate_roa_total self) as (v5 & s5 & ->).
  destruct (calculate_nim_total self) as (v6 & s6 & ->).
  destruct (calculate_problem_loans_ratio_total self) as (v7 & s7 & ->).
  cbn [bind normalize_all].
  change (String.eqb "capital_adequacy" "problem_loans_ratio") with false.
  change (String.eqb "instant_liquidity" "problem_loans_ratio") with false.
  change (String.eqb "current_liquidity" "problem_loans_ratio") with false.
  change (String.eqb "roe" "problem_loans_ratio") with false.
  change (String.eqb "roa" "problem_loans_ratio") with false.
  change (String.eqb "nim" "problem_loans_ratio") with false.
  change (String.eqb "problem_loans_ratio" "problem_loans_ratio") with true.
  cbv iota.
  rewrite thresholds_capital_adequacy, thresholds_instant_liquidity,
    thresholds_current_liquidity, thresholds_roe, thresholds_roa,
    thresholds_nim, thresholds_problem_loans_ratio.
  cbn [bind].
  destruct (normalize_score_unit v1 0.08 0.12 false) as (n1 & -> & H1);
    [ lra | ].
  change (normalize_score (Fin 0.0) (Fin 0.15) (Fin 0.25) false)
    with (@Ok pyfloat (Fin 0.0)).
  destruct (normalize_score_unit v3 1.0 1.5 false) as (n3 & -> & H3);
    [ lra | ].
  destruct (normalize_score_unit v4 0.10 0.15 false) as (n4 & -> & H4);
    [ lra | ].
  destruct (normalize_score_unit v5 0.01 0.02 false) as (n5 & -> & H5);
    [ lra | ].
  destruct (normalize_score_unit v6 0.02 0.04 false) as (n6 & -> & H6);
    [ lra | ].
  cbn [bind].
  destruct (normalize_score_reverse_swapped v7 0.05 0.02) as [-> | ->];
    [ lra | | ]; cbn [bind weighted_sum weights]; unfold getitem;
    repeat (rewrite ?lookup_insert_eq;
            rewrite ?lookup_insert_ne by discriminate);
    cbn [bind Py.add Py.mul];
    (eexists; split; [ reflexivity | lra ]).
Qed.

(** **** X19
    In [main_app.py] the index of [BankingRatiosCalculator.calculate_bsi]
    is at most 0.85, whatever the report: the record of
    [magic_pdf_parser.aggregate_financial_data] has no deposits, the
    instant liquidity (weight 0.15) is never computed and scores 0. *)
Theorem main_app_bsi_at_most_085
    (tables : list (string * Magic.AccountTable))
    (calculator : BankingRatiosCalculator) :
  main_app_calculator tables = Ok (Some calculator) ->
  exists bsi : Q,
    calculate_bsi calculator = Ok (Fin bsi, bsi_interpretation (Fin bsi))
    /\ 0 <= bsi <= 0.85.
Proof.
  unfold main_app_calculator.
  destruct (magic_aggregate_keys tables "deposits_from_customers")
    as (fd & Hfd & Hdep); [ vm_compute; reflexivity .. | ].
  destruct tables as [ | t tables ]; [ discriminate | ].
  rewrite Hfd. cbn [bind].
  destruct (bool_decide (fd = ∅)); [ discriminate | ].
  intros H. injection H as <-.
  apply (bsi_without_instant_liquidity _
           "Cannot calculate: Demand deposits is zero").
  unfold calculate_instant_liquidity, init, get.
  cbn [demand_deposits]. rewrite Hdep. reflexivity.
Qed.

Lemma main_app_bsi_at_most_085_witness :
  exists calculator bsi,
    main_app_calculator
      [ ("balance_sheet"%string,
         [ (ustr "10101", Fin 50); (ustr "20202", Fin 40) ]) ]
    = Ok (Some calculator)
    /\ calculate_bsi calculator = Ok (Fin bsi, bsi_interpretation (Fin bsi))
    /\ 0 <= bsi <= 0.85.
Proof.
  eexists.
  assert (H : main_app_calculator
                [ ("balance_sheet"%string,
                   [ (ustr "10101", Fin 50); (ustr "20202", Fin 40) ]) ]
              = Ok (Some _)) by (vm_compute; reflexivity).
  destruct (main_app_bsi_at_most_085 _ _ H) as (bsi & Hb & Hr).
  exists bsi. split; [ exact H | ]. split; [ exact Hb | exact Hr ].
Defined.
